(** * Worktree lifecycle engine: phase state machine, validation pipeline, hooks

    A shallow embedding of [worktree_flow/core/config.py], [validation.py],
    [hooks.py] and [state.py].  Effects are explicit: the status file and the
    log of everything printed or spawned are threaded through a small
    state-and-exception monad; the file system, the clock and the outcomes of
    external processes are read from an environment record.  Processes may
    raise; reading and writing the status file and the configuration file
    are taken to succeed. *)

From Stdlib Require Import ZArith NArith Ascii String List Lia Bool.
From stdpp Require Import gmap strings list pretty.

Local Open Scope string_scope.
Local Open Scope Z_scope.

(** ** Python string operations used by the engine

    A [string] stands for a Python [str] over the code points below 256: the
    character with code [n] is the code point [n], and [String.length] is
    [len]. *)

Module PyStr.

(** [str.isspace] on the code points below 256: TAB..CR, FS..US, the space,
    NEL (133) and the no-break space (160).  This is the set that
    [str.strip()] and [int()] remove. *)
Definition is_space (a : ascii) : bool :=
  let n := nat_of_ascii a in
  (((9 <=? n) && (n <=? 13)) || ((28 <=? n) && (n <=? 32))
   || (n =? 133) || (n =? 160))%nat.

Fixpoint lstrip_chars (l : list ascii) : list ascii :=
  match l with
  | a :: l' => if is_space a then lstrip_chars l' else l
  | [] => []
  end.

Definition strip_chars (l : list ascii) : list ascii :=
  rev (lstrip_chars (rev (lstrip_chars l))).

Definition strip (s : string) : string :=
  string_of_list_ascii (strip_chars (list_ascii_of_string s)).

Definition startswith (s p : string) : bool := String.prefix p s.

Definition endswith (s p : string) : bool :=
  String.prefix (string_of_list_ascii (rev (list_ascii_of_string p)))
                (string_of_list_ascii (rev (list_ascii_of_string s))).

(** [str.lower] on one code point below 256: the letters A..Z and the
    capital letters 192..222 other than the multiplication sign (215). *)
Definition lower_char (a : ascii) : ascii :=
  let n := nat_of_ascii a in
  if (((65 <=? n) && (n <=? 90))
      || ((192 <=? n) && (n <=? 222) && negb (n =? 215)))%nat
  then ascii_of_nat (n + 32) else a.

Fixpoint lower (s : string) : string :=
  match s with
  | EmptyString => EmptyString
  | String a s' => String (lower_char a) (lower s')
  end.

(** [s[:n]] *)
Definition take (n : nat) (s : string) : string := String.substring 0 n s.

(** [s.split("\n")[0]] *)
Fixpoint first_line (s : string) : string :=
  match s with
  | EmptyString => EmptyString
  | String a s' => if Ascii.eqb a "010"%char then EmptyString else String a (first_line s')
  end.

(** [sep.join(parts)] *)
Definition join (sep : string) (parts : list string) : string :=
  String.concat sep parts.

(** [not s] for an optional string: [None] and [""] are falsy. *)
Definition falsy (s : option string) : bool :=
  match s with
  | None => true
  | Some s' => String.eqb s' ""
  end.

(** Stripping double quotes from both ends: every leading and every trailing
    double quote (character 34) goes. *)
Fixpoint lstrip_quote (l : list ascii) : list ascii :=
  match l with
  | a :: l' => if Ascii.eqb a "034"%char then lstrip_quote l' else l
  | [] => []
  end.

Definition strip_quotes (s : string) : string :=
  string_of_list_ascii
    (rev (lstrip_quote (rev (lstrip_quote (list_ascii_of_string s))))).

Definition nl : string := String "010"%char EmptyString.

Definition dquote : string := String "034"%char EmptyString.

(** The f-string that wraps [s] in double quotes. *)
Definition quote (s : string) : string := dquote +:+ s +:+ dquote.

Definition digit_val (a : ascii) : option Z :=
  let n := nat_of_ascii a in
  if ((48 <=? n) && (n <=? 57))%nat then Some (Z.of_nat (n - 48)) else None.

(** Decimal digits with single underscores between digits, as [int] takes. *)
Fixpoint digits_val (prev_digit : bool) (acc : Z) (l : list ascii) : option Z :=
  match l with
  | [] => if prev_digit then Some acc else None
  | a :: l' =>
      if Ascii.eqb a "_"%char
      then (if prev_digit then digits_val false acc l' else None)
      else match digit_val a with
           | Some d => digits_val true (acc * 10 + d) l'
           | None => None
           end
  end.

(** [sys.get_int_max_str_digits()] as the interpreter starts with it. *)
Definition MAX_STR_DIGITS : N := 4300.

(** The number of digit characters of a literal. *)
Definition digit_count (l : list ascii) : N :=
  N.of_nat (length (List.filter (fun a => match digit_val a with
                                          | Some _ => true
                                          | None => false
                                          end) l)).

(** The digits of a literal: refused when there are more than
    [MAX_STR_DIGITS] of them. *)
Definition limited_digits_val (l : list ascii) : option Z :=
  if (MAX_STR_DIGITS <? digit_count l)%N then None else digits_val false 0 l.

(** [int(s)] in base 10: surrounding whitespace, an optional sign, then the
    digits, at most [MAX_STR_DIGITS] of them; [None] stands for
    [ValueError]. *)
Definition int (s : string) : option Z :=
  match strip_chars (list_ascii_of_string s) with
  | a :: l =>
      if Ascii.eqb a "+"%char then limited_digits_val l
      else if Ascii.eqb a "-"%char then Z.opp <$> limited_digits_val l
      else limited_digits_val (a :: l)
  | [] => None
  end.

(** [str(b).lower()] *)
Definition bool_lower (b : bool) : string := if b then "true" else "false".

End PyStr.

(** ** Exceptions, processes and the environment *)

(** The exception classes the engine tells apart in its [except] clauses. *)
Inductive exn : Type :=
  | TimeoutExpired                      (* subprocess.TimeoutExpired *)
  | SubprocessError (msg : string)      (* any other subprocess.SubprocessError *)
  | FileNotFoundError (msg : string)
  | ValueError (msg : string)
  | OtherException (msg : string).      (* any other Exception, e.g. PermissionError *)

(** [str(e)] *)
Definition exn_str (e : exn) : string :=
  match e with
  | TimeoutExpired => "timed out"
  | SubprocessError m | FileNotFoundError m | ValueError m | OtherException m => m
  end.

(** What [subprocess.run] is given: a shell string or an argument vector. *)
Inductive command : Type :=
  | Shell (cmd : string)
  | Argv (args : list string).

Record CompletedProcess : Type := {
  returncode : Z;
  stdout : string;
  stderr : string;
}.

(** [subprocess.run] either returns a [CompletedProcess] or raises. *)
Inductive proc_outcome : Type :=
  | Completed (p : CompletedProcess)
  | Raised (e : exn).

(** What a call leaves behind besides the status file, most recent first. *)
Inductive event : Type :=
  | EvPrint (text : string)                      (* print(text), either stream *)
  | EvOutput (fn : string) (text : string)       (* worktree_flow.lib.output.fn(text) *)
  | EvRun (c : command) (timeout : option Z).    (* subprocess.run(c, timeout=...) *)

(** Everything the engine reads but does not own.  Process outcomes, the
    clock and elapsed times are indexed by the number of events logged so
    far, so the same command may behave differently each time it is run. *)
Record env : Type := {
  cwd : string;                                     (* Path.cwd() *)
  config_file : string -> option (list string);     (* root -> lines of root/CONFIG_FILE *)
  path_exists : string -> bool;                     (* Path.exists() for hook scripts *)
  run : nat -> command -> option Z -> proc_outcome; (* subprocess.run *)
  now : nat -> string;                              (* datetime.now(UTC).isoformat() *)
  elapsed : nat -> N;                               (* monotonic time spent, in tenths of a second *)
}.

(** The mutable world of one call: the status file of the worktree the call
    works on ([None] when the file does not exist) and the event log. *)
Record state : Type := {
  status_file : option (gmap string string);
  trace : list event;
}.

Inductive result (A : Type) : Type :=
  | Ok (a : A)
  | Raise (e : exn).
Arguments Ok {A} a.
Arguments Raise {A} e.

(** A computation returns or raises, and leaves a state either way. *)
Definition M (A : Type) : Type := state -> result A * state.

Definition ret {A : Type} (a : A) : M A := fun s => (Ok a, s).

Definition raise {A : Type} (e : exn) : M A := fun s => (Raise e, s).

Definition bind {A B : Type} (c : M A) (k : A -> M B) : M B :=
  fun s =>
    match c s with
    | (Ok a, s') => k a s'
    | (Raise e, s') => (Raise e, s')
    end.

Notation "x <- c ;; k" := (bind c (fun x => k))
  (at level 100, c at next level, right associativity).
Notation "c ;;; k" := (bind c (fun _ => k))
  (at level 100, right associativity).

Definition emit (ev : event) : M unit :=
  fun s => (Ok tt, {| status_file := status_file s; trace := ev :: trace s |}).

Definition print (text : string) : M unit := emit (EvPrint text).

(** Modelled from the spec: [worktree_flow/lib/output.py] is not among the
    sources; its functions only emit progress lines, so a call is logged
    with the name of the function and its argument. *)
Definition output (fn text : string) : M unit := emit (EvOutput fn text).

(** Reading and writing the status file.  The model describes the runs in
    which the file operations succeed: [exists], [read_text], [write_text]
    and the update of [toml_utils] on the status file, and [exists] and
    [read_text] on the configuration file ([config_file] of the
    environment).  The engine has no handler for an [OSError] of one of
    them; a run in which one fails is outside the model, and no theorem
    below speaks about it. *)
Definition read_status : M (option (gmap string string)) :=
  fun s => (Ok (status_file s), s).

Definition write_status (content : gmap string string) : M unit :=
  fun s => (Ok tt, {| status_file := Some content; trace := trace s |}).

(** The number of events so far: the index at which the oracles are asked. *)
Definition tick : M nat := fun s => (Ok (length (trace s)), s).

(** ** [worktree_flow.lib.toml_utils] *)

(** Modelled from the spec: [worktree_flow/lib/toml_utils.py] is not among the
    sources.  The Status Record is a flat document of [key = value] lines, held
    here as a finite map from key to the value text as written;
    [parse_toml_value] gives the value of a key without its surrounding double
    quotes, or [None] when the key is absent. *)
Definition parse_toml_value (content : gmap string string) (key : string)
  : option string :=
  PyStr.strip_quotes <$> content !! key.

(** Modelled from the spec: existing keys are overwritten with the newer
    value, new keys are added, nothing is deleted.  The [insert_first]
    argument of the source only chooses where a new line goes in the file. *)
Definition update_toml_fields (content : gmap string string)
    (updates : list (string * string)) : gmap string string :=
  foldl (fun m kv => <[kv.1 := kv.2]> m) content updates.

(** ** Sample worktrees

    A reference [key = value] line parser and some concrete environments, used
    to run the engine on examples. *)

Module Sample.

Fixpoint split_eq (l : list ascii) : option (list ascii * list ascii) :=
  match l with
  | [] => None
  | a :: l' =>
      if Ascii.eqb a "="%char then Some ([], l')
      else match split_eq l' with
           | Some (k, v) => Some (a :: k, v)
           | None => None
           end
  end.

(** [key = value] with optional double quotes around the value; comments,
    section headers and lines without [=] or without a key give [None]. *)
Definition parse_line (line : string) : option (string * string) :=
  let l := PyStr.strip_chars (list_ascii_of_string line) in
  match l with
  | [] => None
  | a :: _ =>
      if Ascii.eqb a "#"%char || Ascii.eqb a "["%char then None
      else match split_eq l with
           | Some (k, v) =>
               let key := PyStr.strip (string_of_list_ascii k) in
               if String.eqb key "" then None
               else Some (key, PyStr.strip_quotes (PyStr.strip (string_of_list_ascii v)))
           | None => None
           end
  end.

Definition ok_process : CompletedProcess :=
  {| returncode := 0; stdout := ""; stderr := "" |}.

Definition failed_process : CompletedProcess :=
  {| returncode := 1; stdout := ""; stderr := "E501 line too long" |}.

(** A project with a review script, a hook path, all three checks and the
    given text as its timeout setting. *)
Definition lines_with_timeout (timeout : string) : list string :=
  [ "# worktree configuration";
    "review_script = scripts/request-review.sh";
    "";
    "[lifecycle.hooks]";
    "pre_review = hooks/pre_review.py";
    "";
    "[validation]";
    "typecheck_command = mypy .";
    "lint_command = ruff check";
    "test_command = pytest -q";
    "require_simplified = false";
    "timeout = " +:+ timeout ].

Definition config_lines : list string := lines_with_timeout "300".

(** The same project with a timeout that is not a number. *)
Definition bad_timeout_lines : list string :=
  lines_with_timeout (PyStr.quote "5 minutes").

(** A validation section that holds nothing but such a timeout. *)
Definition only_bad_timeout_lines : list string :=
  [ "[validation]";
    "timeout = " +:+ PyStr.quote "5 minutes" ].

Definition git_toplevel : CompletedProcess :=
  {| returncode := 0; stdout := "/repo" +:+ PyStr.nl; stderr := "" |}.

Definition hook_crash : CompletedProcess :=
  {| returncode := 3; stdout := ""; stderr := "Traceback: boom" |}.

Definition make_env (lines : option (list string))
    (oracle : command -> proc_outcome) : env :=
  {| cwd := "/repo/.worktrees/feature";
     config_file := fun _ => lines;
     path_exists := fun _ => true;
     run := fun _ c _ => oracle c;
     now := fun n => "2026-01-01T00:00:" +:+ pretty n +:+ "+00:00";
     elapsed := fun _ => 12%N |}.

(** [git] prints the repository root, every other process exits 0. *)
Definition all_pass (c : command) : proc_outcome :=
  match c with
  | Argv ("git" :: _) => Completed git_toplevel
  | _ => Completed ok_process
  end.

Definition passing_env : env := make_env (Some config_lines) all_pass.

(** The lint command exits 1. *)
Definition lint_failing_env : env :=
  make_env (Some config_lines)
    (fun c => match c with
              | Shell "ruff check" => Completed failed_process
              | _ => all_pass c
              end).

(** Every hook script exits 3. *)
Definition hooks_failing_env : env :=
  make_env (Some config_lines)
    (fun c => match c with
              | Argv ("uv" :: _) => Completed hook_crash
              | _ => all_pass c
              end).

Definition bad_timeout_env : env := make_env (Some bad_timeout_lines) all_pass.

Definition only_bad_timeout_env : env :=
  make_env (Some only_bad_timeout_lines) all_pass.

(** No configuration file at all. *)
Definition bare_env : env := make_env None all_pass.

(** A status file as the engine writes it. *)
Definition status_at (phase : string) : gmap string string :=
  {[ "current_phase" := PyStr.quote phase;
     phase +:+ "_at" := PyStr.quote "2025-12-31T23:59:59+00:00" ]}.

Definition state_at (phase : string) : state :=
  {| status_file := Some (status_at phase); trace := [] |}.

Definition fresh_state : state :=
  {| status_file := None; trace := [] |}.

End Sample.

(** Lookup in a Python dict literal kept as an association list. *)
Fixpoint dict_get {K V : Type} `{EqDecision K} (d : list (K * V)) (k : K)
  : option V :=
  match d with
  | [] => None
  | (k', v) :: d' => if decide (k = k') then Some v else dict_get d' k
  end.

(** [x in l] for strings. *)
Definition str_in (x : string) (l : list string) : bool :=
  existsb (String.eqb x) l.

Section Engine.

(** [parse_key_value_line] of [toml_utils] is not among the sources; the
    engine is modelled over any such parser. *)
Variable parse_key_value_line : string -> option (string * string).

Variable E : env.

(** ** [core/config.py] *)

Definition STATUS_FILE : string := "worktree-status.toml".
Definition CONFIG_FILE : string := ".agents/.worktree-config.toml".
Definition DEFAULT_VALIDATION_TIMEOUT : Z := 300.

(** [worktree_root or Path.cwd()] *)
Definition root_of (worktree_root : option string) : string :=
  match worktree_root with
  | Some r => r
  | None => cwd E
  end.

Definition get_config (worktree_root : option string) : gmap string string :=
  let root := root_of worktree_root in
  match config_file E root with
  | None => ∅
  | Some lines =>
      foldl (fun config line =>
               match parse_key_value_line line with
               | Some (k, v) => <[k := v]> config
               | None => config
               end) ∅ lines
  end.

Fixpoint validation_section (lines : list string) (in_validation_section : bool)
    (validation_config : gmap string string) : gmap string string :=
  match lines with
  | [] => validation_config
  | line :: rest =>
      let stripped := PyStr.strip line in
      if PyStr.startswith stripped "[" && PyStr.endswith stripped "]"
      then validation_section rest (String.eqb stripped "[validation]")
                              validation_config
      else if in_validation_section
      then match parse_key_value_line line with
           | Some (k, v) =>
               validation_section rest in_validation_section
                                  (<[k := v]> validation_config)
           | None =>
               validation_section rest in_validation_section validation_config
           end
      else validation_section rest in_validation_section validation_config
  end.

Definition get_validation_config (worktree_root : option string)
  : gmap string string :=
  let root := root_of worktree_root in
  match config_file E root with
  | None => ∅
  | Some lines => validation_section lines false ∅
  end.

(** ** [subprocess.run] *)

(** The call is logged with the timeout it was given; its outcome comes from
    the environment.  Whether an exception propagates is up to the caller. *)
Definition subprocess_run (c : command) (timeout : option Z) : M proc_outcome :=
  fun s =>
    (Ok (run E (length (trace s)) c timeout),
     {| status_file := status_file s; trace := EvRun c timeout :: trace s |}).

(** ** [core/validation.py] *)

Record ValidationResult : Type := {
  name : string;
  passed : bool;
  message : string;
  duration_seconds : N;      (* tenths of a second *)
}.

Record ValidationSummary : Type := {
  all_passed : bool;
  results : list ValidationResult;
  summary_text : string;
}.

(** [f"{duration:.1f}"] *)
Definition fmt_duration (duration : N) : string :=
  pretty (duration / 10)%N +:+ "." +:+ pretty (duration mod 10)%N.

Definition _format_validation_message (result : CompletedProcess)
    (duration : N) : string :=
  if returncode result =? 0
  then "passed in " +:+ fmt_duration duration +:+ "s"
  else
    let error_output :=
      if String.eqb (PyStr.strip (stderr result)) ""
      then PyStr.strip (stdout result)
      else PyStr.strip (stderr result) in
    let first_line :=
      if String.eqb error_output "" then ""
      else PyStr.take 100 (PyStr.first_line error_output) in
    "failed (exit " +:+ pretty (returncode result) +:+ "): " +:+ first_line.

Definition run_single_validation (name command : string)
    (worktree_root : option string) (timeout : Z) : M ValidationResult :=
  start_time <- tick ;;
  print ("[VALIDATE] Running " +:+ name +:+ ": " +:+ command) ;;;
  outcome <- subprocess_run (Shell command) (Some timeout) ;;
  let duration := elapsed E start_time in
  match outcome with
  | Completed result =>
      ret {| name := name;
             passed := returncode result =? 0;
             message := _format_validation_message result duration;
             duration_seconds := duration |}
  | Raised TimeoutExpired =>
      ret {| name := name;
             passed := false;
             message := "timed out after " +:+ pretty timeout +:+ "s";
             duration_seconds := duration |}
  | Raised e =>
      ret {| name := name;
             passed := false;
             message := "error: " +:+ exn_str e;
             duration_seconds := duration |}
  end.

(** The [for name, command in validation_commands] loop. *)
Fixpoint run_validation_commands (validation_commands : list (string * string))
    (worktree_root : option string) (timeout : Z)
    (results : list ValidationResult) : M (list ValidationResult) :=
  match validation_commands with
  | [] => ret results
  | (name, command) :: rest =>
      if String.eqb command ""
      then run_validation_commands rest worktree_root timeout results
      else
        result <- run_single_validation name command worktree_root timeout ;;
        let status := if passed result then "[PASS]" else "[FAIL]" in
        print (status +:+ " " +:+ name +:+ ": " +:+ message result) ;;;
        run_validation_commands rest worktree_root timeout (results ++ [result])
  end.

(** [int(config.get("timeout", str(DEFAULT_VALIDATION_TIMEOUT)))].  The
    exception is [ValueError] whenever [int] refuses the text.  Its message
    is worded as the interpreter words it for a text without quotes,
    backslashes or unprintable characters that stays within the digit
    limit; for other texts the interpreter quotes with [repr], or names the
    limit. *)
Definition validation_timeout (config : gmap string string) : M Z :=
  let text := default (pretty DEFAULT_VALIDATION_TIMEOUT) (config !! "timeout") in
  match PyStr.int text with
  | Some t => ret t
  | None =>
      raise (ValueError ("invalid literal for int() with base 10: '" +:+ text +:+ "'"))
  end.

Definition summary_part (r : ValidationResult) : string :=
  name r +:+ ": " +:+ (if passed r then "pass" else "FAIL").

Definition run_validations (worktree_root : option string) (simplified : bool)
  : M ValidationSummary :=
  let config := get_validation_config worktree_root in
  timeout <- validation_timeout config ;;
  let require_simplified :=
    String.eqb (PyStr.lower (default "false" (config !! "require_simplified")))
               "true" in
  results <-
    (if require_simplified
     then
       let passed := simplified in
       let message :=
         if passed then "--simplified flag provided"
         else "--simplified flag required (run code-simplifier first)" in
       let status := if passed then "[PASS]" else "[FAIL]" in
       print (status +:+ " code-simplifier: " +:+ message) ;;;
       ret [ {| name := "code-simplifier"; passed := passed;
                message := message; duration_seconds := 0%N |} ]
     else ret []) ;;
  let validation_commands :=
    [ ("typecheck", default "" (config !! "typecheck_command"));
      ("lint", default "" (config !! "lint_command"));
      ("test", default "" (config !! "test_command")) ] in
  results <- run_validation_commands validation_commands worktree_root
                                     timeout results ;;
  let all_passed := forallb passed results in
  let summary_parts := map summary_part results in
  let summary_text := PyStr.join ", " summary_parts in
  ret {| all_passed := all_passed;
         results := results;
         summary_text := summary_text |}.

(** ** [core/hooks.py] *)

Definition HOOK_POINTS : list string :=
  [ "post_init"; "pre_validate"; "pre_review"; "pre_merge"; "pre_cleanup" ].

Definition DEFAULT_HOOK_PATHS : list (string * string) :=
  [ ("post_init", "skills/worktree-flow/lifecycle/post_init.py");
    ("pre_validate", "skills/worktree-flow/lifecycle/pre_validate.py");
    ("pre_review", "skills/worktree-flow/lifecycle/pre_review.py");
    ("pre_merge", "skills/worktree-flow/lifecycle/pre_merge.py");
    ("pre_cleanup", "skills/worktree-flow/lifecycle/pre_cleanup.py") ].

Definition PHASE_HOOKS : list (string * list string) :=
  [ ("initialized", ["post_init"]);
    ("validated", ["pre_validate"]);
    ("human-manual-review", ["pre_review"]);
    ("merged", ["pre_merge"]);
    ("cleaned", ["pre_cleanup"]) ].

Definition DEFAULT_HOOK_TIMEOUT : Z := 60.

Definition git_rev_parse : command :=
  Argv [ "git"; "rev-parse"; "--show-toplevel" ].

(** [repo_root / relative_path]: an absolute right operand replaces the left. *)
Definition path_join (dir rel : string) : string :=
  if PyStr.startswith rel "/" then rel else dir +:+ "/" +:+ rel.

(** The [git] call has no timeout; only [FileNotFoundError] and
    [SubprocessError] are caught. *)
Definition _get_repo_root : M string :=
  outcome <- subprocess_run git_rev_parse None ;;
  match outcome with
  | Completed result =>
      if returncode result =? 0
      then ret (PyStr.strip (stdout result))
      else ret (cwd E)
  | Raised (FileNotFoundError _) | Raised TimeoutExpired
  | Raised (SubprocessError _) => ret (cwd E)
  | Raised e => raise e
  end.

Definition get_hook_paths : gmap string string :=
  let config := get_config None in
  foldl (fun hook_paths hook_point =>
           match config !! hook_point with
           | Some p => <[hook_point := p]> hook_paths
           | None => hook_paths
           end)
        (list_to_map DEFAULT_HOOK_PATHS) HOOK_POINTS.

Definition get_hook_path (hook_point : string) : M (option string) :=
  let hook_paths := get_hook_paths in
  let relative_path := hook_paths !! hook_point in
  if PyStr.falsy relative_path then ret None
  else
    repo_root <- _get_repo_root ;;
    let hook_path := path_join repo_root (default "" relative_path) in
    if path_exists E hook_path then ret (Some hook_path) else ret None.

Definition run_lifecycle_hook (hook_point : string)
    (worktree_root : option string) (timeout : Z) : M (bool * string) :=
  hook_path <- get_hook_path hook_point ;;
  match hook_path with
  | None => ret (true, "Hook " +:+ hook_point +:+ " skipped (script not found)")
  | Some hook_path =>
      outcome <- subprocess_run (Argv [ "uv"; "run"; hook_path ]) (Some timeout) ;;
      match outcome with
      | Completed result =>
          if returncode result =? 0
          then
            (if String.eqb (stdout result) "" then ret tt
             else print (stdout result)) ;;;
            ret (true, "Hook " +:+ hook_point +:+ " completed")
          else
            let stderr :=
              if String.eqb (stderr result) "" then "No error output"
              else PyStr.take 200 (PyStr.strip (stderr result)) in
            ret (true, "Hook " +:+ hook_point +:+ " failed (non-blocking): "
                       +:+ stderr)
      | Raised TimeoutExpired =>
          ret (true, "Hook " +:+ hook_point +:+ " timed out after "
                     +:+ pretty timeout +:+ "s (non-blocking)")
      | Raised (FileNotFoundError _) =>
          ret (true, "Hook " +:+ hook_point +:+ " skipped (uv not found)")
      | Raised e =>
          ret (true, "Hook " +:+ hook_point +:+ " error (non-blocking): "
                     +:+ exn_str e)
      end
  end.

(** The [for hook_point in hook_points] loop. *)
Fixpoint run_hook_points (hook_points : list string)
    (worktree_root : option string) (results : list (string * bool * string))
  : M (list (string * bool * string)) :=
  match hook_points with
  | [] => ret results
  | hook_point :: rest =>
      r <- run_lifecycle_hook hook_point worktree_root DEFAULT_HOOK_TIMEOUT ;;
      print ("  [" +:+ hook_point +:+ "] " +:+ r.2) ;;;
      run_hook_points rest worktree_root (results ++ [ (hook_point, r.1, r.2) ])
  end.

Definition run_phase_hooks (phase : string) (worktree_root : option string)
  : M (list (string * bool * string)) :=
  let hook_points := default [] (dict_get PHASE_HOOKS phase) in
  run_hook_points hook_points worktree_root [].

(** ** [core/state.py] *)

Definition MIN_APPROVAL_LENGTH : nat := 10.
Definition MIN_COMMIT_MESSAGE_LENGTH : nat := 10.

Definition PHASES : list string :=
  [ "created"; "initialized"; "validated"; "implementing";
    "human-manual-review"; "merged"; "cleaned" ].

Definition VALID_TRANSITIONS : list (option string * list string) :=
  [ (None, ["created"]);
    (Some "created", ["initialized"]);
    (Some "initialized", ["validated"]);
    (Some "validated", ["implementing"]);
    (Some "implementing", ["human-manual-review"]);
    (Some "human-manual-review", ["merged"]);
    (Some "merged", ["cleaned"]) ].

Definition PHASE_SCRIPTS : list (string * string) :=
  [ ("initialized", "setup_script");
    ("validated", "validation_command");
    ("human-manual-review", "review_script");
    ("cleaned", "cleanup_script") ].

Definition PHASES_REQUIRING_APPROVAL : list string := [ "human-manual-review" ].

Definition _validate_approval (approval commit_message : option string)
    (phase : string) : bool * string :=
  if PyStr.falsy approval
  then (false,
        "Phase '" +:+ phase +:+ "' requires explicit user approval." +:+ PyStr.nl
          +:+ "Use: transition " +:+ phase +:+ " --approval " +:+ PyStr.quote "<user's approval response>"
          +:+ " --commit-message " +:+ PyStr.quote "<message>" +:+ PyStr.nl
          +:+ "The approval must contain the user's actual response granting permission.")
  else if (String.length (default "" approval) <? MIN_APPROVAL_LENGTH)%nat
  then (false,
        "Approval response too short (min " +:+ pretty MIN_APPROVAL_LENGTH
          +:+ " chars). Provide the user's actual approval statement." +:+ PyStr.nl
          +:+ "Example: --approval " +:+ PyStr.quote "User said: Yes, proceed with the commit")
  else if PyStr.falsy commit_message
  then (false,
        "Phase '" +:+ phase +:+ "' requires a commit message." +:+ PyStr.nl
          +:+ "Use: transition " +:+ phase +:+ " --approval " +:+ PyStr.quote "..."
          +:+ " --commit-message " +:+ PyStr.quote "<message>")
  else if (String.length (default "" commit_message)
           <? MIN_COMMIT_MESSAGE_LENGTH)%nat
  then (false,
        "Commit message too short (min " +:+ pretty MIN_COMMIT_MESSAGE_LENGTH
          +:+ " chars). Provide a meaningful commit message." +:+ PyStr.nl
          +:+ "Example: --commit-message "
          +:+ PyStr.quote "feat(lifecycle): add review approval requirement")
  else (true, "").

(** The state holds the status file of [worktree_root]. *)
Definition get_current_phase (worktree_root : option string)
  : M (option string) :=
  content <- read_status ;;
  match content with
  | None => ret None
  | Some text => ret (parse_toml_value text "current_phase")
  end.

Definition can_transition (from_phase : option string) (to_phase : string)
  : bool * string :=
  if negb (str_in to_phase PHASES)
  then (false, "Unknown phase: " +:+ to_phase +:+ ". Valid phases: "
               +:+ PyStr.join ", " PHASES)
  else
    let valid_next := default [] (dict_get VALID_TRANSITIONS from_phase) in
    if negb (str_in to_phase valid_next)
    then
      let current := if PyStr.falsy from_phase then "none"
                     else default "" from_phase in
      let valid := if String.eqb (PyStr.join ", " valid_next) "" then "none"
                   else PyStr.join ", " valid_next in
      (false, "Cannot transition from '" +:+ current +:+ "' to '" +:+ to_phase
              +:+ "'. Valid: " +:+ valid)
    else (true, "").

Definition run_phase_script (phase : string) (worktree_root : option string)
    (simplified linted tested : bool) : M (bool * string) :=
  let config_key := dict_get PHASE_SCRIPTS phase in
  if PyStr.falsy config_key then ret (true, "")
  else
    let config := get_config worktree_root in
    let script := default "" (config !! default "" config_key) in
    if String.eqb script "" then ret (true, "")
    else
      let cmd :=
        if String.eqb phase "human-manual-review"
        then script +:+ (if simplified then " --simplified" else "")
                    +:+ (if linted then " --linted" else "")
                    +:+ (if tested then " --tested" else "")
        else script in
      output "run" cmd ;;;
      outcome <- subprocess_run (Shell cmd) None ;;
      match outcome with
      | Raised e => raise e
      | Completed result =>
          if negb (returncode result =? 0)
          then ret (false, "Script failed with exit code "
                           +:+ pretty (returncode result))
          else ret (true, "Script completed: " +:+ script)
      end.

Definition _update_validation_status (worktree_root : option string)
    (summary : ValidationSummary) : M unit :=
  content <- read_status ;;
  match content with
  | None => ret tt
  | Some text =>
      clock <- tick ;;
      let timestamp := now E clock in
      write_status
        (update_toml_fields text
           [ ("validation_passed", PyStr.bool_lower (all_passed summary));
             ("validation_summary", PyStr.quote (summary_text summary));
             ("last_validation_at", PyStr.quote timestamp) ])
  end.

(** The [for hook_point, hook_success, message in hook_results] loop. *)
Fixpoint report_hooks (hook_results : list (string * bool * string)) : M unit :=
  match hook_results with
  | [] => ret tt
  | (hook_point, hook_success, message) :: rest =>
      (if hook_success : bool
       then output "success" (hook_point +:+ ": " +:+ message)
       else output "warning" (hook_point +:+ ": " +:+ message)) ;;;
      report_hooks rest
  end.

(** [f"{current}"] *)
Definition fmt_optional (current : option string) : string :=
  match current with
  | Some p => p
  | None => "None"
  end.

(** The three [output] calls that announce the validation run. *)
Definition pre_review_header : M unit :=
  output "blank" "" ;;;
  output "header" "Running Pre-Review Validations" ;;;
  output "blank" "".

(** The block [if to_phase == "human-manual-review":] of [do_transition]:
    [Some failure] when it returns from the function, [None] when control
    goes on to the approval check. *)
Definition pre_review_gate (to_phase : string) (worktree_root : option string)
    (simplified : bool) : M (option string) :=
  if String.eqb to_phase "human-manual-review"
  then
    pre_review_header ;;;
    summary <- run_validations worktree_root simplified ;;
    if negb (all_passed summary)
    then ret (Some ("Pre-review validation failed: "
                    +:+ summary_text summary +:+ PyStr.nl
                    +:+ "Fix the issues and try again."))
    else
      _update_validation_status worktree_root summary ;;;
      output "blank" "" ;;;
      output "success" ("All validations passed: " +:+ summary_text summary) ;;;
      output "blank" "" ;;;
      ret None
  else ret None.

(** The [updates] dict of [do_transition], in insertion order. *)
Definition transition_updates (to_phase timestamp : string)
    (approval commit_message : option string) : list (string * string) :=
  let timestamp_key := to_phase +:+ "_at" in
  let approval_key := to_phase +:+ "_approval" in
  ([ ("current_phase", PyStr.quote to_phase);
     (timestamp_key, PyStr.quote timestamp) ]
   ++ (if PyStr.falsy approval then []
       else [ (approval_key, PyStr.quote (default "" approval)) ])
   ++ (if PyStr.falsy commit_message then []
       else [ ("commit_message", PyStr.quote (default "" commit_message)) ]))%list.

(** Writing the new phase: a new file when there is none, an update of the
    fields otherwise. *)
Definition record_transition (to_phase : string)
    (approval commit_message : option string) : M unit :=
  clock <- tick ;;
  let timestamp := now E clock in
  let updates := transition_updates to_phase timestamp approval commit_message in
  content <- read_status ;;
  match content with
  | None => write_status (update_toml_fields ∅ updates)
  | Some text => write_status (update_toml_fields text updates)
  end.

Definition do_transition (to_phase : string) (worktree_root : option string)
    (approval commit_message : option string)
    (simplified linted tested validation_only : bool) : M (bool * string) :=
  current <- get_current_phase worktree_root ;;
  if validation_only
  then
    if negb (String.eqb to_phase "human-manual-review")
    then ret (false,
              "--validation-only only applies to human-manual-review transition")
    else if negb (bool_decide (current = Some "implementing"))
    then ret (false, "--validation-only requires implementing phase, currently: "
                     +:+ fmt_optional current)
    else
      pre_review_header ;;;
      summary <- run_validations worktree_root simplified ;;
      if all_passed summary
      then ret (true, "All validations passed: " +:+ summary_text summary)
      else ret (false, "Validation failed: " +:+ summary_text summary)
  else
    let (allowed, reason) := can_transition current to_phase in
    if negb allowed then ret (false, reason)
    else
      gate <- pre_review_gate to_phase worktree_root simplified ;;
      match gate with
      | Some failure => ret (false, failure)
      | None =>
          let (valid, error) :=
            if str_in to_phase PHASES_REQUIRING_APPROVAL
            then _validate_approval approval commit_message to_phase
            else (true, "") in
          if negb valid then ret (false, error)
          else
            script <- run_phase_script to_phase worktree_root
                                       simplified linted tested ;;
            if negb script.1
            then ret (false, "Phase script failed: " +:+ script.2)
            else
              (if String.eqb script.2 "" then ret tt
               else output "success" script.2) ;;;
              record_transition to_phase approval commit_message ;;;
              hook_results <- run_phase_hooks to_phase worktree_root ;;
              (match hook_results with
               | [] => ret tt
               | _ =>
                   output "blank" "" ;;;
                   output "header" "Lifecycle Hooks" ;;;
                   report_hooks hook_results
               end) ;;;
              ret (true, "Transitioned to '" +:+ to_phase +:+ "'")
      end.

(** ** Notions used to state the properties *)

(** The pair is an edge of the transition table. *)
Definition in_table (from_phase : option string) (to_phase : string) : Prop :=
  ∃ successors,
    (from_phase, successors) ∈ VALID_TRANSITIONS ∧ to_phase ∈ successors.

(** The text of the [timeout] setting that [run_validations] hands to [int]. *)
Definition timeout_setting (worktree_root : option string) : string :=
  default (pretty DEFAULT_VALIDATION_TIMEOUT)
          (get_validation_config worktree_root !! "timeout").

(** [require_simplified] as [run_validations] reads it. *)
Definition simplification_required (worktree_root : option string) : bool :=
  String.eqb
    (PyStr.lower (default "false"
       (get_validation_config worktree_root !! "require_simplified")))
    "true".

(** The check names and configuration keys, in execution order. *)
Definition CHECKS : list (string * string) :=
  [ ("typecheck", "typecheck_command");
    ("lint", "lint_command");
    ("test", "test_command") ].

(** The command configured for a key, [""] when there is none. *)
Definition configured_command (worktree_root : option string) (key : string)
  : string :=
  default "" (get_validation_config worktree_root !! key).

(** Names of the checks that have a command, in execution order. *)
Definition configured_checks (worktree_root : option string) : list string :=
  map fst (filter (fun ck => configured_command worktree_root ck.2 ≠ "") CHECKS).

(** Every process in the log was started with a timeout. *)
Definition every_run_has_timeout (log : list event) : bool :=
  forallb (fun ev => match ev with
                     | EvRun _ None => false
                     | _ => true
                     end) log.

(** The processes in a log with the timeouts they were given, most recent
    first. *)
Definition runs_of (log : list event) : list (command * option Z) :=
  omap (fun ev => match ev with
                  | EvRun c t => Some (c, t)
                  | _ => None
                  end) log.

(** Whenever it is run under this timeout, the command exits non-zero. *)
Definition exits_nonzero (command : string) (timeout : Z) : Prop :=
  ∀ n, ∃ p, run E n (Shell command) (Some timeout) = Completed p
            ∧ returncode p ≠ 0.

(** What the validation pipeline may log: shell commands under the timeout
    that the [timeout] setting denotes. *)
Definition validation_event (worktree_root : option string) (ev : event) : Prop :=
  match ev with
  | EvRun (Shell _) (Some t) => PyStr.int (timeout_setting worktree_root) = Some t
  | EvRun _ _ => False
  | _ => True
  end.

(** What the hook engine may log: the repository-root discovery without a
    timeout, and hook scripts under the 60 second default. *)
Definition hook_event (ev : event) : Prop :=
  match ev with
  | EvRun c t =>
      (c = git_rev_parse ∧ t = None)
      ∨ (∃ hook_path, c = Argv [ "uv"; "run"; hook_path ]
                      ∧ t = Some DEFAULT_HOOK_TIMEOUT)
  | _ => True
  end.

(** What the phase script may log: a shell command without a timeout. *)
Definition script_event (ev : event) : Prop :=
  match ev with
  | EvRun (Shell _) None => True
  | EvRun _ _ => False
  | _ => True
  end.

(** A computation only moves the state along [R]. *)
Definition respects {A : Type} (R : state -> state -> Prop) (c : M A) : Prop :=
  ∀ s, R s (c s).2.

(** The status file is left as it was. *)
Definition same_status (s s' : state) : Prop := status_file s' = status_file s.

(** The log grew by events that all satisfy [P]. *)
Definition logged (P : event -> Prop) (s s' : state) : Prop :=
  ∃ new, trace s' = (new ++ trace s)%list ∧ Forall P new.

(** The exceptions of the repository-root discovery that [_get_repo_root]
    catches, and its normal completion. *)
Definition discovery_caught (o : proc_outcome) : Prop :=
  match o with
  | Raised (ValueError _) | Raised (OtherException _) => False
  | _ => True
  end.

(** ** The monad and its effects *)

Lemma bind_ok {A B : Type} (c : M A) (k : A -> M B) s a s' :
  c s = (Ok a, s') -> bind c k s = k a s'.
Proof. intros H. unfold bind. now rewrite H. Qed.

Lemma bind_raise {A B : Type} (c : M A) (k : A -> M B) s e s' :
  c s = (Raise e, s') -> bind c k s = (Raise e, s').
Proof. intros H. unfold bind. now rewrite H. Qed.

#[local] Instance same_status_preorder : PreOrder same_status.
Proof.
  split.
  - intros s. reflexivity.
  - intros s1 s2 s3 H12 H23. unfold same_status in *. congruence.
Qed.

#[local] Instance logged_preorder (P : event -> Prop) : PreOrder (logged P).
Proof.
  split.
  - intros s. exists []. split; [reflexivity | constructor].
  - intros s1 s2 s3 [n1 [E1 F1]] [n2 [E2 F2]].
    exists (n2 ++ n1)%list. split.
    + rewrite E2, E1. now rewrite app_assoc.
    + apply Forall_app. now split.
Qed.

Section Respects.

Context (R : state -> state -> Prop) `{!PreOrder R}.

Lemma respects_ret {A : Type} (a : A) : respects R (ret a).
Proof. intros s. simpl. reflexivity. Qed.

Lemma respects_raise {A : Type} (e : exn) : respects R (@raise A e).
Proof. intros s. simpl. reflexivity. Qed.

Lemma respects_tick : respects R tick.
Proof. intros s. simpl. reflexivity. Qed.

Lemma respects_read_status : respects R read_status.
Proof. intros s. simpl. reflexivity. Qed.

Lemma respects_bind {A B : Type} (c : M A) (k : A -> M B) :
  respects R c -> (∀ a, respects R (k a)) -> respects R (bind c k).
Proof.
  intros Hc Hk s. unfold bind.
  specialize (Hc s). destruct (c s) as [[a | e] s1]; simpl in *.
  - transitivity s1; [exact Hc | apply Hk].
  - exact Hc.
Qed.

End Respects.

Lemma same_status_emit ev : respects same_status (emit ev).
Proof. intros s. reflexivity. Qed.

Lemma same_status_subprocess_run c t : respects same_status (subprocess_run c t).
Proof. intros s. reflexivity. Qed.

Lemma logged_emit (P : event -> Prop) ev : P ev -> respects (logged P) (emit ev).
Proof.
  intros HP s. exists [ev]. split; [reflexivity | ].
  constructor; [exact HP | constructor].
Qed.

Lemma logged_subprocess_run (P : event -> Prop) c t :
  P (EvRun c t) -> respects (logged P) (subprocess_run c t).
Proof.
  intros HP s. exists [EvRun c t]. split; [reflexivity | ].
  constructor; [exact HP | constructor].
Qed.

Lemma logged_write_status (P : event -> Prop) content :
  respects (logged P) (write_status content).
Proof. intros s. exists []. split; [reflexivity | constructor]. Qed.

(** One step of a proof that a computation respects a relation: open a bind,
    close a leaf, or split on what the code branches on. *)
Ltac respects_step :=
  lazymatch goal with
  | |- respects _ (bind _ _) => refine (respects_bind _ _ _ _ _); [ | intros ]
  | |- respects _ (ret _) => refine (respects_ret _ _)
  | |- respects _ (raise _) => refine (respects_raise _ _)
  | |- respects _ tick => refine (respects_tick _)
  | |- respects _ read_status => refine (respects_read_status _)
  | |- respects same_status (emit _) => apply same_status_emit
  | |- respects same_status (print _) => apply same_status_emit
  | |- respects same_status (output _ _) => apply same_status_emit
  | |- respects same_status (subprocess_run _ _) => apply same_status_subprocess_run
  | |- respects (logged _) (write_status _) => apply logged_write_status
  | |- respects (logged _) (print _) => apply logged_emit; exact I
  | |- respects (logged _) (output _ _) => apply logged_emit; exact I
  | |- respects _ (match ?x with _ => _ end) => destruct x
  | |- respects _ (let (_, _) := ?x in _) => destruct x
  end.

(** ** The validation pipeline *)

Lemma run_single_validation_spec nm command worktree_root timeout s :
  ∃ r s',
    run_single_validation nm command worktree_root timeout s = (Ok r, s')
    ∧ name r = nm
    ∧ same_status s s'
    ∧ passed r =
        match run E (S (length (trace s))) (Shell command) (Some timeout) with
        | Completed p => returncode p =? 0
        | Raised _ => false
        end.
Proof.
  unfold run_single_validation, bind, tick, print, emit, subprocess_run. simpl.
  destruct (run E (S (length (trace s))) (Shell command) (Some timeout))
    as [p | e].
  - eexists _, _. repeat split; reflexivity.
  - destruct e; eexists _, _; repeat split; reflexivity.
Qed.

Lemma same_status_run_single_validation nm command worktree_root timeout :
  respects same_status (run_single_validation nm command worktree_root timeout).
Proof.
  intros s.
  destruct (run_single_validation_spec nm command worktree_root timeout s)
    as (r & s' & Hrun & _ & Hs & _).
  now rewrite Hrun.
Qed.

(** The loop never raises; it appends one result per command that is not
    empty, in order, and leaves the status file alone. *)
Lemma run_validation_commands_spec cmds worktree_root timeout :
  ∀ acc s, ∃ new s',
    run_validation_commands cmds worktree_root timeout acc s
      = (Ok (acc ++ new)%list, s')
    ∧ map name new = map fst (filter (fun nc => nc.2 ≠ "") cmds)
    ∧ same_status s s'
    ∧ (∀ nm c, (nm, c) ∈ cmds -> c ≠ "" ->
         (∀ n, ∃ p, run E n (Shell c) (Some timeout) = Completed p
                    ∧ returncode p ≠ 0) ->
         forallb passed new = false).
Proof.
  induction cmds as [ | [nm command] rest IH]; intros acc s.
  - exists [], s. simpl. rewrite app_nil_r. repeat split; try reflexivity.
    intros nm c Hin. inversion Hin.
  - simpl. rewrite filter_cons. simpl.
    destruct (String.eqb_spec command "") as [Hempty | Hcmd].
    + destruct (IH acc s) as (new & s' & Hrun & Hnames & Hs & Hfail).
      exists new, s'. rewrite decide_False by (intros H; now apply H).
      repeat split; try assumption.
      intros nm' c Hin Hc Hbad. apply (Hfail nm' c); try assumption.
      apply elem_of_cons in Hin as [Heq | Hin]; [ | exact Hin].
      inversion Heq; subst. contradiction.
    + destruct (run_single_validation_spec nm command worktree_root timeout s)
        as (r & s1 & Hr & Hname & Hs1 & Hpassed).
      rewrite (bind_ok _ _ _ _ _ Hr).
      unfold print at 1. unfold bind at 1. simpl.
      set (s2 := {| status_file := status_file s1; trace := _ |}).
      destruct (IH (acc ++ [r])%list s2) as (new & s' & Hrun & Hnames & Hs & Hfail).
      exists (r :: new), s'. rewrite decide_True by exact Hcmd.
      repeat split.
      * rewrite Hrun. now rewrite <- app_assoc.
      * simpl. now rewrite Hname, Hnames.
      * unfold same_status in *. simpl in Hs. congruence.
      * intros nm' c Hin Hc Hbad. simpl.
        apply elem_of_cons in Hin as [Heq | Hin].
        -- inversion Heq; subst nm' c. rewrite Hpassed.
           destruct (Hbad (S (length (trace s)))) as (p & Hp & Hrc).
           rewrite Hp. apply Z.eqb_neq in Hrc. now rewrite Hrc.
        -- rewrite (Hfail nm' c Hin Hc Hbad). apply andb_false_r.
Qed.

Lemma same_status_pre_review_header : respects same_status pre_review_header.
Proof. unfold pre_review_header. repeat respects_step. Qed.

Lemma same_status_validation_timeout config :
  respects same_status (validation_timeout config).
Proof. unfold validation_timeout. repeat respects_step. Qed.

Lemma same_status_run_validation_commands cmds worktree_root timeout acc :
  respects same_status (run_validation_commands cmds worktree_root timeout acc).
Proof.
  intros s.
  destruct (run_validation_commands_spec cmds worktree_root timeout acc s)
    as (new & s' & Hrun & _ & Hs & _).
  now rewrite Hrun.
Qed.

Lemma same_status_run_validations worktree_root simplified :
  respects same_status (run_validations worktree_root simplified).
Proof.
  unfold run_validations.
  repeat first [ apply same_status_validation_timeout
               | apply same_status_run_validation_commands
               | respects_step ].
Qed.

(** ** Hooks and the phase script leave the status file alone *)

Lemma same_status__get_repo_root : respects same_status _get_repo_root.
Proof.
  unfold _get_repo_root.
  repeat first [ apply same_status_subprocess_run | respects_step ].
Qed.

Lemma same_status_get_hook_path hook_point :
  respects same_status (get_hook_path hook_point).
Proof.
  unfold get_hook_path.
  repeat first [ apply same_status__get_repo_root | respects_step ].
Qed.

Lemma same_status_run_lifecycle_hook hook_point worktree_root timeout :
  respects same_status (run_lifecycle_hook hook_point worktree_root timeout).
Proof.
  unfold run_lifecycle_hook.
  repeat first [ apply same_status_get_hook_path | respects_step ].
Qed.

Lemma same_status_run_hook_points hook_points worktree_root :
  ∀ acc, respects same_status (run_hook_points hook_points worktree_root acc).
Proof.
  induction hook_points as [ | hook_point rest IH]; intros acc; simpl.
  - respects_step.
  - repeat first [ apply same_status_run_lifecycle_hook | apply IH
                 | respects_step ].
Qed.

Lemma same_status_run_phase_hooks phase worktree_root :
  respects same_status (run_phase_hooks phase worktree_root).
Proof. unfold run_phase_hooks. apply same_status_run_hook_points. Qed.

Lemma same_status_report_hooks hook_results :
  respects same_status (report_hooks hook_results).
Proof.
  induction hook_results as [ | [[hook_point hook_success] msg] rest IH]; simpl.
  - respects_step.
  - repeat first [ apply IH | respects_step ].
Qed.

Lemma same_status_run_phase_script phase worktree_root simplified linted tested :
  respects same_status
    (run_phase_script phase worktree_root simplified linted tested).
Proof. unfold run_phase_script. repeat respects_step. Qed.

(** Once the script path is resolved, every outcome of the hook process is
    turned into [(true, message)], and the message names the hook. *)
Lemma run_lifecycle_hook_spec hook_point worktree_root timeout s path s1 :
  get_hook_path hook_point s = (Ok path, s1) ->
  ∃ detail s2,
    run_lifecycle_hook hook_point worktree_root timeout s
      = (Ok (true, "Hook " +:+ hook_point +:+ " " +:+ detail), s2).
Proof.
  intros Hpath. unfold run_lifecycle_hook.
  rewrite (bind_ok _ _ _ _ _ Hpath).
  destruct path as [hook_path | ].
  - unfold bind, subprocess_run. simpl.
    destruct (run E (length (trace s1)) (Argv ["uv"; "run"; hook_path])
                  (Some timeout)) as [p | e].
    + destruct (returncode p =? 0).
      * destruct (String.eqb (stdout p) ""); simpl;
          eexists "completed", _; reflexivity.
      * eexists ("failed (non-blocking): " +:+ _), _. reflexivity.
    + destruct e.
      * eexists ("timed out after " +:+ _), _. reflexivity.
      * eexists ("error (non-blocking): " +:+ _), _. reflexivity.
      * eexists "skipped (uv not found)", _. reflexivity.
      * eexists ("error (non-blocking): " +:+ _), _. reflexivity.
      * eexists ("error (non-blocking): " +:+ _), _. reflexivity.
  - eexists "skipped (script not found)", _. reflexivity.
Qed.

(** Resolving the hook path returns whenever the repository-root discovery
    completes or fails in a way [_get_repo_root] catches. *)
Lemma get_hook_path_returns hook_point s :
  (∀ n, discovery_caught (run E n git_rev_parse None)) ->
  ∃ path s1, get_hook_path hook_point s = (Ok path, s1).
Proof.
  intros Hgit. unfold get_hook_path.
  destruct (PyStr.falsy _); [ eexists _, _; reflexivity | ].
  unfold bind, _get_repo_root, subprocess_run, bind. simpl.
  specialize (Hgit (length (trace s))).
  destruct (run E (length (trace s)) git_rev_parse None) as [p | e].
  - destruct (returncode p =? 0); simpl;
      destruct (path_exists E _); eexists _, _; reflexivity.
  - destruct e; simpl in Hgit; try contradiction; simpl;
      destruct (path_exists E _); eexists _, _; reflexivity.
Qed.

Lemma run_hook_points_returns hook_points worktree_root :
  (∀ n, discovery_caught (run E n git_rev_parse None)) ->
  ∀ acc s, ∃ hook_results s',
    run_hook_points hook_points worktree_root acc s = (Ok hook_results, s').
Proof.
  intros Hgit.
  induction hook_points as [ | hook_point rest IH]; intros acc s; simpl.
  - eexists _, _. reflexivity.
  - destruct (get_hook_path_returns hook_point s Hgit) as (path & s1 & Hpath).
    destruct (run_lifecycle_hook_spec hook_point worktree_root
                DEFAULT_HOOK_TIMEOUT s path s1 Hpath) as (detail & s2 & Hrun).
    rewrite (bind_ok _ _ _ _ _ Hrun). unfold print at 1. unfold bind at 1.
    simpl. apply IH.
Qed.

Lemma report_hooks_returns hook_results :
  ∀ s, ∃ s', report_hooks hook_results s = (Ok tt, s').
Proof.
  induction hook_results as [ | [[hook_point hook_success] msg] rest IH];
    intros s; simpl.
  - eexists. reflexivity.
  - destruct hook_success; unfold bind at 1; simpl; apply IH.
Qed.

(** ** The transition table *)

Lemma get_current_phase_eq worktree_root s :
  get_current_phase worktree_root s
  = (Ok match status_file s with
        | None => None
        | Some text => parse_toml_value text "current_phase"
        end, s).
Proof.
  unfold get_current_phase, bind, read_status.
  now destruct (status_file s).
Qed.

Lemma in_table_allowed from_phase to_phase :
  in_table from_phase to_phase -> can_transition from_phase to_phase = (true, "").
Proof.
  intros (successors & Hedge & Hto). unfold VALID_TRANSITIONS in Hedge.
  repeat (apply elem_of_cons in Hedge as [Hedge | Hedge];
          [ inversion Hedge; subst; clear Hedge;
            apply list_elem_of_singleton in Hto; subst; reflexivity | ]).
  inversion Hedge.
Qed.

Lemma allowed_in_table from_phase to_phase :
  (can_transition from_phase to_phase).1 = true -> in_table from_phase to_phase.
Proof.
  unfold can_transition. cbv zeta.
  destruct (str_in to_phase PHASES); [ | simpl; intros H; discriminate H ].
  destruct (str_in to_phase (default [] (dict_get VALID_TRANSITIONS from_phase)))
    eqn:Hnext; [ intros _ | simpl; intros H; discriminate H ].
  unfold VALID_TRANSITIONS in *. simpl in Hnext.
  repeat (case_decide;
          [ subst from_phase; simpl in Hnext; rewrite orb_false_r in Hnext;
            apply String.eqb_eq in Hnext; subst to_phase;
            eexists; split; [ | apply list_elem_of_singleton; reflexivity ];
            repeat first [ apply list_elem_of_here | apply list_elem_of_further ]
          | ]).
  discriminate.
Qed.

Lemma same_status_get_current_phase worktree_root :
  respects same_status (get_current_phase worktree_root).
Proof. unfold get_current_phase. repeat respects_step. Qed.

Lemma in_table_review : in_table (Some "implementing") "human-manual-review".
Proof.
  exists ["human-manual-review"]. split.
  - unfold VALID_TRANSITIONS.
    repeat first [ apply list_elem_of_here | apply list_elem_of_further ].
  - apply list_elem_of_here.
Qed.

(** ** Rejections *)

(** C9: for every pair [(from, to)] that is not an edge of the transition
    table, [do_transition] called while the current phase is [from] returns
    failure and leaves the whole state (so also [current_phase]) as it was,
    whatever the options; the same call made again right away returns the same
    message and again changes nothing. *)
Theorem illegal_transition_rejected from_phase to_phase worktree_root approval
    commit_message simplified linted tested validation_only s :
  (get_current_phase worktree_root s).1 = Ok from_phase ->
  ¬ in_table from_phase to_phase ->
  ∃ msg,
    do_transition to_phase worktree_root approval commit_message
                  simplified linted tested validation_only s
      = (Ok (false, msg), s)
    ∧ do_transition to_phase worktree_root approval commit_message
                    simplified linted tested validation_only
        (do_transition to_phase worktree_root approval commit_message
                       simplified linted tested validation_only s).2
      = (Ok (false, msg), s).
Proof.
  intros Hcur Hillegal.
  assert (Hfirst : ∃ msg,
    do_transition to_phase worktree_root approval commit_message
                  simplified linted tested validation_only s
      = (Ok (false, msg), s)).
  { rewrite get_current_phase_eq in Hcur. simpl in Hcur.
    injection Hcur as Hcur.
    unfold do_transition.
    rewrite (bind_ok _ _ _ _ _ (get_current_phase_eq worktree_root s)).
    rewrite Hcur. clear Hcur. destruct validation_only.
    - destruct (String.eqb_spec to_phase "human-manual-review") as [Hto | Hto];
        simpl; [ | eexists; reflexivity ].
      destruct (bool_decide_reflect (from_phase = Some "implementing"))
        as [Hfrom | Hfrom]; simpl; [ | eexists; reflexivity ].
      exfalso. apply Hillegal. subst. apply in_table_review.
    - destruct (can_transition from_phase to_phase) as [allowed reason] eqn:Hcan.
      destruct allowed; simpl; [ | eexists; reflexivity ].
      exfalso. apply Hillegal. apply allowed_in_table. now rewrite Hcan. }
  destruct Hfirst as [msg Hfirst]. exists msg.
  split; [ exact Hfirst | ]. rewrite Hfirst. simpl. exact Hfirst.
Qed.


(** ** The validation summary *)

Lemma configured_checks_eq worktree_root :
  map fst
    (filter (fun nc : string * string => nc.2 ≠ "")
       [ ("typecheck", configured_command worktree_root "typecheck_command");
         ("lint", configured_command worktree_root "lint_command");
         ("test", configured_command worktree_root "test_command") ])
  = configured_checks worktree_root.
Proof.
  unfold configured_checks, CHECKS.
  rewrite !filter_cons, !filter_nil. simpl.
  repeat case_decide; reflexivity.
Qed.

Lemma run_validation_commands_runs cmds worktree_root timeout :
  ∀ acc s,
    runs_of (trace (run_validation_commands cmds worktree_root timeout acc s).2)
    = (rev (map (fun nc : string * string => (Shell nc.2, Some timeout))
                (filter (fun nc : string * string => nc.2 ≠ "") cmds))
       ++ runs_of (trace s))%list.
Proof.
  induction cmds as [ | [nm command] rest IH]; intros acc s.
  - reflexivity.
  - simpl. rewrite filter_cons. simpl.
    destruct (String.eqb_spec command "") as [Hempty | Hcmd].
    + rewrite decide_False by (intros H; now apply H). apply IH.
    + rewrite decide_True by exact Hcmd.
      destruct (run_single_validation_spec nm command worktree_root timeout s)
        as (r & s1 & Hr & _ & _ & _).
      rewrite (bind_ok _ _ _ _ _ Hr).
      unfold print at 1. unfold bind at 1. simpl.
      rewrite IH. simpl. rewrite <- app_assoc. f_equal.
      revert Hr. unfold run_single_validation, bind, tick, print, emit,
        subprocess_run. simpl.
      destruct (run E _ _ _) as [p | e]; [ | destruct e];
        intros Hr; injection Hr as _ Hs1; subst s1; reflexivity.
Qed.

(** What [run_validations] returns when the timeout setting is a number. *)
Lemma run_validations_spec worktree_root simplified s timeout :
  PyStr.int (timeout_setting worktree_root) = Some timeout ->
  ∃ summary s',
    run_validations worktree_root simplified s = (Ok summary, s')
    ∧ all_passed summary = forallb passed (results summary)
    ∧ map name (results summary)
      = ((if simplification_required worktree_root
          then [ "code-simplifier" ] else [])
         ++ configured_checks worktree_root)%list
    ∧ (if simplification_required worktree_root
       then passed <$> head (results summary) = Some simplified
       else True)
    ∧ summary_text summary
      = PyStr.join ", " (map summary_part (results summary))
    ∧ rev (runs_of (trace s'))
      = (rev (runs_of (trace s))
         ++ map (fun nc : string * string => (Shell nc.2, Some timeout))
              (filter (fun nc : string * string => nc.2 ≠ "")
                 (map (fun ck : string * string =>
                         (ck.1, configured_command worktree_root ck.2))
                      CHECKS)))%list
    ∧ same_status s s'
    ∧ (∀ key, key ∈ map snd CHECKS ->
         configured_command worktree_root key ≠ "" ->
         exits_nonzero (configured_command worktree_root key) timeout ->
         all_passed summary = false).
Proof.
  intros Htimeout. unfold timeout_setting in Htimeout.
  unfold run_validations, validation_timeout. rewrite Htimeout.
  unfold bind at 1. unfold ret at 1.
  fold (simplification_required worktree_root).
  fold (configured_command worktree_root "typecheck_command").
  fold (configured_command worktree_root "lint_command").
  fold (configured_command worktree_root "test_command").
  set (cmds := [ ("typecheck", configured_command worktree_root "typecheck_command");
                 ("lint", configured_command worktree_root "lint_command");
                 ("test", configured_command worktree_root "test_command") ]).
  assert (Hfail : ∀ new : list ValidationResult,
    (∀ nm c, (nm, c) ∈ cmds -> c ≠ "" ->
       (∀ n, ∃ p, run E n (Shell c) (Some timeout) = Completed p
                  ∧ returncode p ≠ 0) -> forallb passed new = false) ->
    ∀ key, key ∈ map snd CHECKS ->
      configured_command worktree_root key ≠ "" ->
      exits_nonzero (configured_command worktree_root key) timeout ->
      forallb passed new = false).
  { intros new Hnew key Hkey Hcmd Hbad. unfold CHECKS in Hkey. simpl in Hkey.
    repeat (apply elem_of_cons in Hkey as [Hkey | Hkey];
            [ subst key; eapply Hnew; [ | exact Hcmd | exact Hbad ];
              unfold cmds;
              repeat first [ apply list_elem_of_here
                           | apply list_elem_of_further ] | ]).
    inversion Hkey. }
  destruct (simplification_required worktree_root).
  - unfold bind at 1. unfold bind at 1. unfold print at 1, emit at 1.
    cbv beta iota. unfold ret at 1. cbv beta iota.
    match goal with
    | |- context [bind (run_validation_commands _ _ _ ?acc) _ ?s0] =>
        destruct (run_validation_commands_spec cmds worktree_root timeout acc s0)
          as (new & s' & Hrun & Hnames & Hs & Hbad);
        pose proof (run_validation_commands_runs cmds worktree_root timeout
                      acc s0) as Hruns
    end.
    rewrite Hrun in Hruns. unfold bind. rewrite Hrun.
    eexists _, _. split; [ reflexivity | ]. simpl.
    repeat split.
    + rewrite Hnames. unfold cmds. now rewrite configured_checks_eq.
    + simpl in Hruns. rewrite Hruns. rewrite rev_app_distr, rev_involutive.
      reflexivity.
    + exact Hs.
    + intros key Hkey Hcmd Hfails.
      rewrite (Hfail new Hbad key Hkey Hcmd Hfails). apply andb_false_r.
  - unfold bind at 1. unfold ret at 1.
    destruct (run_validation_commands_spec cmds worktree_root timeout [] s)
      as (new & s' & Hrun & Hnames & Hs & Hbad).
    pose proof (run_validation_commands_runs cmds worktree_root timeout [] s)
      as Hruns.
    rewrite Hrun in Hruns. unfold bind. rewrite Hrun.
    eexists _, _. split; [ reflexivity | ]. simpl.
    repeat split.
    + rewrite Hnames. unfold cmds. now rewrite configured_checks_eq.
    + simpl in Hruns. rewrite Hruns. rewrite rev_app_distr, rev_involutive.
      reflexivity.
    + exact Hs.
    + intros key Hkey Hcmd Hfails. exact (Hfail new Hbad key Hkey Hcmd Hfails).
Qed.

Lemma run_validations_raises worktree_root simplified s :
  PyStr.int (timeout_setting worktree_root) = None ->
  run_validations worktree_root simplified s
  = (Raise (ValueError ("invalid literal for int() with base 10: '"
                        +:+ timeout_setting worktree_root +:+ "'")), s).
Proof.
  intros Htimeout. unfold timeout_setting in *.
  unfold run_validations, validation_timeout. now rewrite Htimeout.
Qed.

(** C8, amended: when the timeout setting is absent or a number,
    [run_validations] returns a summary whose [all_passed] is the conjunction
    of the [passed] flags of the recorded results; the recorded results are
    the [code-simplifier] check first (when simplification is required,
    passing exactly when the flag was given), then one result per check whose
    command is not empty, in the order typecheck, lint, test, which is also
    the order in which the commands were run; and the summary text joins
    [name: pass] or [name: FAIL] for the results in that order. *)
Theorem run_validations_summary worktree_root simplified s timeout :
  PyStr.int (timeout_setting worktree_root) = Some timeout ->
  ∃ summary s',
    run_validations worktree_root simplified s = (Ok summary, s')
    ∧ all_passed summary = forallb passed (results summary)
    ∧ map name (results summary)
      = ((if simplification_required worktree_root
          then [ "code-simplifier" ] else [])
         ++ configured_checks worktree_root)%list
    ∧ (if simplification_required worktree_root
       then passed <$> head (results summary) = Some simplified
       else True)
    ∧ summary_text summary
      = PyStr.join ", "
          (map (fun r => name r +:+ ": "
                         +:+ (if passed r then "pass" else "FAIL"))
               (results summary))
    ∧ rev (runs_of (trace s'))
      = (rev (runs_of (trace s))
         ++ map (fun nc : string * string => (Shell nc.2, Some timeout))
              (filter (fun nc : string * string => nc.2 ≠ "")
                 (map (fun ck : string * string =>
                         (ck.1, configured_command worktree_root ck.2))
                      CHECKS)))%list.
Proof.
  intros Htimeout.
  destruct (run_validations_spec worktree_root simplified s timeout Htimeout)
    as (summary & s' & Hrun & Hall & Hnames & Hfirst & Htext & Hruns & _).
  exists summary, s'. repeat split; assumption.
Qed.

(** C10, amended: with no typecheck, lint or test command, simplification not
    required, and a timeout setting that is absent or a number,
    [run_validations] returns the empty summary: no results, [all_passed]
    true, empty text; it runs and prints nothing. *)
Theorem no_checks_pass_vacuously worktree_root simplified s timeout :
  configured_command worktree_root "typecheck_command" = "" ->
  configured_command worktree_root "lint_command" = "" ->
  configured_command worktree_root "test_command" = "" ->
  simplification_required worktree_root = false ->
  PyStr.int (timeout_setting worktree_root) = Some timeout ->
  run_validations worktree_root simplified s
  = (Ok {| all_passed := true; results := []; summary_text := "" |}, s).
Proof.
  intros Htype Hlint Htest Hsimp Htimeout.
  unfold timeout_setting in Htimeout.
  unfold run_validations, validation_timeout. rewrite Htimeout.
  unfold bind at 1. unfold ret at 1.
  fold (simplification_required worktree_root).
  fold (configured_command worktree_root "typecheck_command").
  fold (configured_command worktree_root "lint_command").
  fold (configured_command worktree_root "test_command").
  rewrite Hsimp, Htype, Hlint, Htest. reflexivity.
Qed.

(** ** Validation-only mode *)

(** C7, amended: in validation-only mode [do_transition] never touches the
    status file, whatever it returns or raises; it returns failure, without
    doing anything at all, unless the target is [human-manual-review] and the
    current phase is [implementing]; when both hold it runs the validation
    pipeline after the header lines, and returns the pipeline's verdict and
    summary if the timeout setting is absent or a number, while the
    [ValueError] of the pipeline comes out of the call if it is not. *)
Theorem validation_only_frame to_phase worktree_root approval commit_message
    simplified linted tested s :
  let out := do_transition to_phase worktree_root approval commit_message
                           simplified linted tested true s in
  same_status s out.2
  ∧ (¬ (to_phase = "human-manual-review"
        ∧ (get_current_phase worktree_root s).1 = Ok (Some "implementing")) ->
     ∃ msg, out = (Ok (false, msg), s))
  ∧ (to_phase = "human-manual-review" ->
     (get_current_phase worktree_root s).1 = Ok (Some "implementing") ->
     match PyStr.int (timeout_setting worktree_root) with
     | Some _ =>
         ∃ summary s',
           run_validations worktree_root simplified (pre_review_header s).2
             = (Ok summary, s')
           ∧ out = (Ok (all_passed summary,
                        (if all_passed summary then "All validations passed: "
                         else "Validation failed: ") +:+ summary_text summary),
                    s')
     | None =>
         out = (Raise (ValueError ("invalid literal for int() with base 10: '"
                                   +:+ timeout_setting worktree_root +:+ "'")),
                (pre_review_header s).2)
     end).
Proof.
  cbv zeta. split; [ | split ].
  - revert s. change (respects same_status
      (do_transition to_phase worktree_root approval commit_message
                     simplified linted tested true)).
    unfold do_transition.
    repeat first [ apply same_status_get_current_phase
                 | apply same_status_pre_review_header
                 | apply same_status_run_validations
                 | respects_step ].
  - intros Hnot. unfold do_transition.
    rewrite (bind_ok _ _ _ _ _ (get_current_phase_eq worktree_root s)).
    rewrite get_current_phase_eq in Hnot. simpl in Hnot.
    destruct (String.eqb_spec to_phase "human-manual-review") as [Hto | Hto];
      simpl; [ | eexists; reflexivity ].
    match goal with
    | |- context [bool_decide (?c = _)] =>
        destruct (bool_decide_reflect (c = Some "implementing")) as [Hc | Hc]
    end; simpl; [ | eexists; reflexivity ].
    exfalso. apply Hnot. split; [ exact Hto | now rewrite Hc ].
  - intros Hto Hcur. subst to_phase.
    rewrite get_current_phase_eq in Hcur. simpl in Hcur.
    injection Hcur as Hcur.
    assert (Hout :
      do_transition "human-manual-review" worktree_root approval commit_message
                    simplified linted tested true s
      = (summary <- run_validations worktree_root simplified ;;
         if all_passed summary
         then ret (true, "All validations passed: " +:+ summary_text summary)
         else ret (false, "Validation failed: " +:+ summary_text summary))
          (pre_review_header s).2).
    { unfold do_transition.
      rewrite (bind_ok _ _ _ _ _ (get_current_phase_eq worktree_root s)).
      rewrite Hcur. rewrite bool_decide_eq_true_2 by reflexivity.
      reflexivity. }
    rewrite Hout.
    destruct (PyStr.int (timeout_setting worktree_root)) as [timeout | ]
      eqn:Htimeout.
    + destruct (run_validations_spec worktree_root simplified
                  (pre_review_header s).2 timeout Htimeout)
        as (summary & s' & Hrun & _).
      exists summary, s'. split; [ exact Hrun | ].
      rewrite (bind_ok _ _ _ _ _ Hrun).
      destruct (all_passed summary); reflexivity.
    + apply bind_raise. now apply run_validations_raises.
Qed.

(** ** The validation gate *)

Lemma pre_review_header_eq s :
  pre_review_header s = (Ok tt, (pre_review_header s).2).
Proof. reflexivity. Qed.

Lemma failing_pipeline worktree_root key timeout simplified :
  key ∈ map snd CHECKS ->
  configured_command worktree_root key ≠ "" ->
  PyStr.int (timeout_setting worktree_root) = Some timeout ->
  exits_nonzero (configured_command worktree_root key) timeout ->
  ∀ s, ∃ summary s',
    run_validations worktree_root simplified s = (Ok summary, s')
    ∧ all_passed summary = false
    ∧ same_status s s'.
Proof.
  intros Hkey Hcmd Htimeout Hbad s.
  destruct (run_validations_spec worktree_root simplified s timeout Htimeout)
    as (summary & s' & Hrun & _ & _ & _ & _ & _ & Hs & Hfail).
  exists summary, s'. repeat split; try assumption.
  exact (Hfail key Hkey Hcmd Hbad).
Qed.

(** C4: when one of the configured validation commands exits non-zero, a
    [do_transition] into [human-manual-review] never succeeds and never
    changes the status file (so [current_phase] stays), whatever approval and
    commit message are given; and when the current phase is [implementing],
    so that the pipeline is run, the summary has [all_passed] false and the
    failure message carries the summary text. *)
Theorem failing_validation_blocks_review worktree_root key timeout approval
    commit_message simplified linted tested validation_only s :
  key ∈ map snd CHECKS ->
  configured_command worktree_root key ≠ "" ->
  PyStr.int (timeout_setting worktree_root) = Some timeout ->
  exits_nonzero (configured_command worktree_root key) timeout ->
  let out := do_transition "human-manual-review" worktree_root approval
                           commit_message simplified linted tested
                           validation_only s in
  same_status s out.2
  ∧ (∃ msg, out.1 = Ok (false, msg))
  ∧ ((get_current_phase worktree_root s).1 = Ok (Some "implementing") ->
     ∃ summary s1,
       run_validations worktree_root simplified (pre_review_header s).2
         = (Ok summary, s1)
       ∧ all_passed summary = false
       ∧ out.1 = Ok (false,
                     if validation_only
                     then "Validation failed: " +:+ summary_text summary
                     else "Pre-review validation failed: "
                          +:+ summary_text summary +:+ PyStr.nl
                          +:+ "Fix the issues and try again.")).
Proof.
  intros Hkey Hcmd Htimeout Hbad. cbv zeta.
  destruct (failing_pipeline worktree_root key timeout simplified
              Hkey Hcmd Htimeout Hbad (pre_review_header s).2)
    as (summary & s1 & Hrun & Hall & Hs1).
  rewrite get_current_phase_eq. cbn [fst].
  unfold do_transition.
  rewrite (bind_ok _ _ _ _ _ (get_current_phase_eq worktree_root s)).
  set (current := match status_file s with
                  | Some text => parse_toml_value text "current_phase"
                  | None => None
                  end).
  destruct validation_only.
  - change (String.eqb "human-manual-review" "human-manual-review") with true.
    cbn [negb].
    destruct (bool_decide_reflect (current = Some "implementing"))
      as [Hcur | Hcur]; cbn [negb].
    + rewrite (bind_ok _ _ _ _ _ (pre_review_header_eq s)).
      rewrite (bind_ok _ _ _ _ _ Hrun). rewrite Hall. cbn [ret snd fst].
      split; [ exact Hs1 | ]. split; [ eexists; reflexivity | ].
      intros _. exists summary, s1.
      split; [ exact Hrun | ]. split; [ exact Hall | reflexivity ].
    + cbn [ret snd fst]. split; [ reflexivity | ].
      split; [ eexists; reflexivity | ].
      intros H. injection H as H. contradiction.
  - destruct (can_transition current "human-manual-review")
      as [allowed reason] eqn:Hcan.
    destruct allowed; cbn [negb].
    + assert (Hgate :
        pre_review_gate "human-manual-review" worktree_root simplified s
        = (Ok (Some ("Pre-review validation failed: "
                     +:+ summary_text summary +:+ PyStr.nl
                     +:+ "Fix the issues and try again.")), s1)).
      { unfold pre_review_gate.
        change (String.eqb "human-manual-review" "human-manual-review")
          with true. cbv iota.
        rewrite (bind_ok _ _ _ _ _ (pre_review_header_eq s)).
        rewrite (bind_ok _ _ _ _ _ Hrun). rewrite Hall. reflexivity. }
      rewrite (bind_ok _ _ _ _ _ Hgate).
      cbn [ret snd fst].
      split; [ exact Hs1 | ]. split; [ eexists; reflexivity | ].
      intros _. exists summary, s1.
      split; [ exact Hrun | ]. split; [ exact Hall | reflexivity ].
    + cbn [ret snd fst]. split; [ reflexivity | ].
      split; [ eexists; reflexivity | ].
      intros H. injection H as H.
      rewrite H in Hcan. rewrite (in_table_allowed _ _ in_table_review) in Hcan.
      discriminate Hcan.
Qed.

(** ** The approval gate *)

(** [_validate_approval] accepts exactly when both texts have at least ten
    characters; a missing text counts as empty. *)
Lemma _validate_approval_spec approval commit_message phase :
  (_validate_approval approval commit_message phase).1 = true
  ↔ (MIN_APPROVAL_LENGTH <= String.length (default "" approval)
     ∧ MIN_COMMIT_MESSAGE_LENGTH
       <= String.length (default "" commit_message))%nat.
Proof.
  unfold _validate_approval, MIN_APPROVAL_LENGTH, MIN_COMMIT_MESSAGE_LENGTH.
  destruct approval as [ [ | a approval] | ]; simpl;
    try (split; [ intros H; discriminate H | intros [H _]; lia ]).
  destruct (Nat.ltb_spec (S (String.length approval)) 10) as [Ha | Ha];
    [ split; [ intros H; discriminate H | intros [H _]; lia ] | ].
  destruct commit_message as [ [ | c commit_message] | ]; simpl;
    try (split; [ intros H; discriminate H | intros [_ H]; lia ]).
  destruct (Nat.ltb_spec (S (String.length commit_message)) 10) as [Hc | Hc];
    simpl.
  - split; [ intros H; discriminate H | intros [_ H]; lia ].
  - split; [ intros _; split; lia | reflexivity ].
Qed.

Lemma _validate_approval_accept approval commit_message phase :
  (_validate_approval approval commit_message phase).1 = true ->
  _validate_approval approval commit_message phase = (true, "").
Proof.
  unfold _validate_approval.
  repeat (match goal with
          | |- context [if ?b then _ else _] => destruct b
          end; simpl; try (intros H; discriminate H)).
  reflexivity.
Qed.

(** The three fields that [_update_validation_status] writes. *)
Lemma lookup_validation_status (text : gmap string string) passed_text
    summary_field timestamp_field key :
  key ∉ [ "validation_passed"; "validation_summary"; "last_validation_at" ] ->
  update_toml_fields text
    [ ("validation_passed", passed_text);
      ("validation_summary", summary_field);
      ("last_validation_at", timestamp_field) ] !! key
  = text !! key.
Proof.
  intros Hkey. rewrite !not_elem_of_cons in Hkey.
  destruct Hkey as (H1 & H2 & H3 & _). simpl.
  rewrite !lookup_insert_ne by congruence. reflexivity.
Qed.

(** A transition from [implementing] into review whose validations passed
    and whose approval or commit message is refused: the error comes back,
    the validation results have been written, nothing else was, and no
    process was started after the validations. *)
Lemma approval_rejected worktree_root approval commit_message simplified linted
    tested s text summary s1 :
  status_file s = Some text ->
  parse_toml_value text "current_phase" = Some "implementing" ->
  run_validations worktree_root simplified (pre_review_header s).2
    = (Ok summary, s1) ->
  all_passed summary = true ->
  (_validate_approval approval commit_message "human-manual-review").1 = false ->
  ∃ s',
    do_transition "human-manual-review" worktree_root approval commit_message
                  simplified linted tested false s
    = (Ok (false,
           (_validate_approval approval commit_message
                               "human-manual-review").2), s')
    ∧ status_file s'
      = Some (update_toml_fields text
                [ ("validation_passed", "true");
                  ("validation_summary", PyStr.quote (summary_text summary));
                  ("last_validation_at",
                   PyStr.quote (now E (length (trace s1)))) ])
    ∧ runs_of (trace s') = runs_of (trace s1).
Proof.
  intros Hfile Hphase Hrun Hall Hrefused.
  pose proof (same_status_run_validations worktree_root simplified
                (pre_review_header s).2) as Hs1.
  rewrite Hrun in Hs1. unfold same_status in Hs1. simpl in Hs1.
  unfold do_transition.
  rewrite (bind_ok _ _ _ _ _ (get_current_phase_eq worktree_root s)).
  rewrite Hfile, Hphase.
  rewrite (in_table_allowed _ _ in_table_review). cbn [negb].
  eassert (Hgate :
    pre_review_gate "human-manual-review" worktree_root simplified s
    = (Ok None, _)).
  { unfold pre_review_gate.
    change (String.eqb "human-manual-review" "human-manual-review") with true.
    cbv iota.
    rewrite (bind_ok _ _ _ _ _ (pre_review_header_eq s)).
    rewrite (bind_ok _ _ _ _ _ Hrun). rewrite Hall. cbn [negb].
    unfold _update_validation_status, bind, read_status, tick, write_status,
      output, emit, ret.
    rewrite Hs1, Hfile. reflexivity. }
  rewrite (bind_ok _ _ _ _ _ Hgate).
  change (str_in "human-manual-review" PHASES_REQUIRING_APPROVAL) with true.
  cbv iota.
  destruct (_validate_approval approval commit_message "human-manual-review")
    as [valid error].
  simpl in Hrefused. subst valid. cbn [negb].
  eexists. split; [ reflexivity | ]. cbn [status_file trace].
  rewrite Hall. split; reflexivity.
Qed.

Lemma approval_rejected_frame worktree_root approval commit_message simplified
    linted tested s summary s1 :
  (get_current_phase worktree_root s).1 = Ok (Some "implementing") ->
  run_validations worktree_root simplified (pre_review_header s).2
    = (Ok summary, s1) ->
  all_passed summary = true ->
  (_validate_approval approval commit_message "human-manual-review").1 = false ->
  let out := do_transition "human-manual-review" worktree_root approval
                           commit_message simplified linted tested false s in
  out.1 = Ok (false, (_validate_approval approval commit_message
                                         "human-manual-review").2)
  ∧ (get_current_phase worktree_root out.2).1 = Ok (Some "implementing")
  ∧ runs_of (trace out.2) = runs_of (trace s1)
  ∧ ∃ text text',
      status_file s = Some text
      ∧ status_file out.2 = Some text'
      ∧ (∀ key, key ∉ [ "validation_passed"; "validation_summary";
                        "last_validation_at" ] ->
                text' !! key = text !! key)
      ∧ text' !! "validation_passed" = Some "true"
      ∧ text' !! "validation_summary"
        = Some (PyStr.quote (summary_text summary))
      ∧ ∃ timestamp,
          text' !! "last_validation_at" = Some (PyStr.quote timestamp).
Proof.
  intros Hcur Hrun Hall Hrefused. cbv zeta.
  rewrite get_current_phase_eq in Hcur. cbn [fst] in Hcur.
  destruct (status_file s) as [text | ] eqn:Hfile; [ | discriminate Hcur ].
  injection Hcur as Hphase.
  destruct (approval_rejected worktree_root approval commit_message simplified
              linted tested s text summary s1 Hfile Hphase Hrun Hall Hrefused)
    as (s' & Hout & Hstatus & Hruns).
  rewrite Hout. cbn [fst snd].
  assert (Hother : ∀ key,
    key ∉ [ "validation_passed"; "validation_summary"; "last_validation_at" ] ->
    update_toml_fields text
      [ ("validation_passed", "true");
        ("validation_summary", PyStr.quote (summary_text summary));
        ("last_validation_at", PyStr.quote (now E (length (trace s1)))) ] !! key
    = text !! key).
  { intros key. apply lookup_validation_status. }
  split; [ reflexivity | ]. split; [ | split; [ exact Hruns | ] ].
  - rewrite get_current_phase_eq. cbn [fst]. rewrite Hstatus.
    unfold parse_toml_value in *. rewrite Hother; [ now rewrite Hphase | ].
    rewrite !not_elem_of_cons. repeat split; try discriminate.
    apply not_elem_of_nil.
  - exists text. eexists. split; [ reflexivity | ].
    split; [ exact Hstatus | ]. split; [ exact Hother | ].
    simpl. rewrite !lookup_insert_ne by discriminate.
    rewrite lookup_insert_eq.
    split; [ reflexivity | ]. split.
    + rewrite lookup_insert_ne by discriminate. now rewrite lookup_insert_eq.
    + eexists. now rewrite lookup_insert_eq.
Qed.

(** C1, amended: from [implementing], with the validations passing and no
    approval given, [do_transition] into [human-manual-review] returns the
    approval-required failure; [current_phase] is still [implementing] and
    every key of the Status Record keeps its value except
    [validation_passed], [validation_summary] and [last_validation_at], which
    hold the result of the validation run that has just passed. *)
Theorem missing_approval_rejected worktree_root commit_message simplified linted
    tested s summary s1 :
  (get_current_phase worktree_root s).1 = Ok (Some "implementing") ->
  run_validations worktree_root simplified (pre_review_header s).2
    = (Ok summary, s1) ->
  all_passed summary = true ->
  let out := do_transition "human-manual-review" worktree_root None
                           commit_message simplified linted tested false s in
  (∃ guidance,
     out.1 = Ok (false,
                 "Phase 'human-manual-review' requires explicit user approval."
                 +:+ guidance))
  ∧ (get_current_phase worktree_root out.2).1 = Ok (Some "implementing")
  ∧ ∃ text text',
      status_file s = Some text
      ∧ status_file out.2 = Some text'
      ∧ (∀ key, key ∉ [ "validation_passed"; "validation_summary";
                        "last_validation_at" ] ->
                text' !! key = text !! key)
      ∧ text' !! "validation_passed" = Some "true"
      ∧ text' !! "validation_summary"
        = Some (PyStr.quote (summary_text summary))
      ∧ ∃ timestamp,
          text' !! "last_validation_at" = Some (PyStr.quote timestamp).
Proof.
  intros Hcur Hrun Hall.
  destruct (approval_rejected_frame worktree_root None commit_message
              simplified linted tested s summary s1 Hcur Hrun Hall eq_refl)
    as (Hout & Hphase & _ & Hrecord).
  cbv zeta. split; [ | split; assumption ].
  rewrite Hout. eexists. reflexivity.
Qed.

(** C6, amended: the approval check accepts exactly when the approval and
    the commit message both have at least ten characters, so a short or
    missing approval is refused whatever the commit message, and the other
    way round.  In a transition the refusal comes after the validation run:
    the call fails with the check's message before the phase script or any
    hook is started and with [current_phase] still [implementing], but the
    Status Record already holds the validation results; all its other keys
    are as before. *)
Theorem approval_gate approval commit_message :
  (∀ phase,
     (_validate_approval approval commit_message phase).1 = true
     ↔ (10 <= String.length (default "" approval)
        ∧ 10 <= String.length (default "" commit_message))%nat)
  ∧ ∀ worktree_root simplified linted tested s summary s1,
      (String.length (default "" approval) < 10
       ∨ String.length (default "" commit_message) < 10)%nat ->
      (get_current_phase worktree_root s).1 = Ok (Some "implementing") ->
      run_validations worktree_root simplified (pre_review_header s).2
        = (Ok summary, s1) ->
      all_passed summary = true ->
      let out := do_transition "human-manual-review" worktree_root approval
                               commit_message simplified linted tested false s in
      (∃ msg, out.1 = Ok (false, msg))
      ∧ (get_current_phase worktree_root out.2).1 = Ok (Some "implementing")
      ∧ runs_of (trace out.2) = runs_of (trace s1)
      ∧ ∃ text text',
          status_file s = Some text
          ∧ status_file out.2 = Some text'
          ∧ (∀ key, key ∉ [ "validation_passed"; "validation_summary";
                            "last_validation_at" ] ->
                    text' !! key = text !! key)
          ∧ text' !! "validation_passed" = Some "true".
Proof.
  split.
  - intros phase. apply _validate_approval_spec.
  - intros worktree_root simplified linted tested s summary s1 Hshort Hcur
      Hrun Hall.
    assert (Hrefused :
      (_validate_approval approval commit_message "human-manual-review").1
      = false).
    { destruct (_validate_approval approval commit_message
                                   "human-manual-review").1 eqn:Hvalid;
        [ | reflexivity ].
      apply _validate_approval_spec in Hvalid.
      unfold MIN_APPROVAL_LENGTH, MIN_COMMIT_MESSAGE_LENGTH in Hvalid. lia. }
    destruct (approval_rejected_frame worktree_root approval commit_message
                simplified linted tested s summary s1 Hcur Hrun Hall Hrefused)
      as (Hout & Hphase & Hruns & text & text' & Hs & Hs' & Hother & Hpassed & _).
    cbv zeta. split; [ eexists; exact Hout | ].
    split; [ exact Hphase | ]. split; [ exact Hruns | ].
    exists text, text'. repeat split; assumption.
Qed.

(** ** Committing a transition *)

Lemma record_transition_spec to_phase approval commit_message s :
  record_transition to_phase approval commit_message s
  = (Ok tt,
     {| status_file :=
          Some (update_toml_fields (default ∅ (status_file s))
                  (transition_updates to_phase (now E (length (trace s)))
                                      approval commit_message));
        trace := trace s |}).
Proof.
  unfold record_transition, bind, tick, read_status, write_status.
  now destruct (status_file s).
Qed.

Lemma allowed_known_phase from_phase to_phase :
  (can_transition from_phase to_phase).1 = true -> str_in to_phase PHASES = true.
Proof.
  unfold can_transition.
  destruct (str_in to_phase PHASES); [ reflexivity | ].
  simpl. intros H. discriminate H.
Qed.

(** After the update the status file names the new phase. *)
Lemma current_phase_after_updates (text : gmap string string) to_phase timestamp
    approval commit_message :
  str_in to_phase PHASES = true ->
  parse_toml_value
    (update_toml_fields text
       (transition_updates to_phase timestamp approval commit_message))
    "current_phase"
  = Some to_phase.
Proof.
  intros Hknown. unfold PHASES in Hknown. simpl in Hknown.
  rewrite !orb_true_iff in Hknown. rewrite !String.eqb_eq in Hknown.
  unfold parse_toml_value, transition_updates.
  destruct Hknown as [H | [H | [H | [H | [H | [H | [H | H]]]]]]];
    try discriminate H; subst to_phase;
    destruct (PyStr.falsy approval), (PyStr.falsy commit_message); simpl;
    rewrite ?lookup_insert_ne by discriminate;
    rewrite lookup_insert_eq; reflexivity.
Qed.

(** What follows the commit in [do_transition]: the hooks and their report.
    It leaves the status file alone, and returns nothing but success. *)
Lemma after_commit worktree_root to_phase s :
  let tail :=
    (hook_results <- run_phase_hooks to_phase worktree_root ;;
     (match hook_results with
      | [] => ret tt
      | _ =>
          output "blank" "" ;;;
          output "header" "Lifecycle Hooks" ;;;
          report_hooks hook_results
      end) ;;;
     ret (true, "Transitioned to '" +:+ to_phase +:+ "'")) in
  same_status s (tail s).2
  ∧ (∀ r, (tail s).1 = Ok r ->
          r = (true, "Transitioned to '" +:+ to_phase +:+ "'"))
  ∧ ((∀ n, discovery_caught (run E n git_rev_parse None)) ->
     ∃ r, (tail s).1 = Ok r).
Proof.
  cbv zeta. split; [ | split ].
  - revert s.
    match goal with
    | |- ∀ s, same_status s (?c s).2 => change (respects same_status c)
    end.
    repeat first [ apply same_status_run_phase_hooks
                 | apply same_status_report_hooks
                 | respects_step ].
  - unfold bind at 1.
    destruct (run_phase_hooks to_phase worktree_root s)
      as [[hook_results | e] s1]; [ | intros r H; discriminate H ].
    destruct hook_results as [ | hook_result rest].
    + intros r H. injection H as H. now subst r.
    + unfold bind at 1. unfold bind at 1. unfold output at 1, emit at 1.
      cbv beta iota. unfold bind at 1. unfold output at 1, emit at 1.
      cbv beta iota.
      match goal with
      | |- context [report_hooks ?hr ?s0] =>
          destruct (report_hooks_returns hr s0) as [s2 Hreport];
          rewrite Hreport
      end.
      intros r H. injection H as H. now subst r.
  - intros Hgit. unfold bind at 1. unfold run_phase_hooks.
    destruct (run_hook_points_returns
                (default [] (dict_get PHASE_HOOKS to_phase)) worktree_root
                Hgit [] s) as (hook_results & s1 & Hhooks).
    rewrite Hhooks.
    destruct hook_results as [ | hook_result rest].
    + eexists. reflexivity.
    + unfold bind at 1. unfold bind at 1. unfold output at 1, emit at 1.
      cbv beta iota. unfold bind at 1. unfold output at 1, emit at 1.
      cbv beta iota.
      match goal with
      | |- context [report_hooks ?hr ?s0] =>
          destruct (report_hooks_returns hr s0) as [s2 Hreport];
          rewrite Hreport
      end.
      eexists. reflexivity.
Qed.

(** ** Hooks never block *)

(** X27: once the path of the hook script is resolved (found or missing),
    [run_lifecycle_hook] returns [true], leaves the status file alone, and
    its message tells exactly what happened: the script is missing, it
    completed with exit code 0, it failed (with the first 200 characters of
    its stripped error output, or a fixed text when there is none), it timed
    out, [uv] is missing, or starting it raised another exception.  At most
    one process is started, the hook, under the given timeout. *)
Theorem run_lifecycle_hook_outcomes hook_point worktree_root timeout s path s1 :
  get_hook_path hook_point s = (Ok path, s1) ->
  ∃ s2,
    run_lifecycle_hook hook_point worktree_root timeout s
    = (Ok (true,
           "Hook " +:+ hook_point +:+
           match path with
           | None => " skipped (script not found)"
           | Some hook_path =>
               match run E (length (trace s1))
                         (Argv [ "uv"; "run"; hook_path ]) (Some timeout) with
               | Completed p =>
                   if returncode p =? 0 then " completed"
                   else " failed (non-blocking): "
                        +:+ (if String.eqb (stderr p) "" then "No error output"
                             else PyStr.take 200 (PyStr.strip (stderr p)))
               | Raised TimeoutExpired =>
                   " timed out after " +:+ pretty timeout
                   +:+ "s (non-blocking)"
               | Raised (FileNotFoundError _) => " skipped (uv not found)"
               | Raised e => " error (non-blocking): " +:+ exn_str e
               end
           end), s2)
    ∧ same_status s s2
    ∧ runs_of (trace s2)
      = match path with
        | None => runs_of (trace s1)
        | Some hook_path =>
            (Argv [ "uv"; "run"; hook_path ], Some timeout)
            :: runs_of (trace s1)
        end.
Proof.
  intros Hpath.
  pose proof (same_status_get_hook_path hook_point s) as Hs1.
  rewrite Hpath in Hs1. unfold same_status in Hs1. cbn [snd] in Hs1.
  unfold run_lifecycle_hook. rewrite (bind_ok _ _ _ _ _ Hpath).
  destruct path as [hook_path | ].
  - unfold bind, subprocess_run. cbn [trace status_file].
    destruct (run E (length (trace s1)) (Argv [ "uv"; "run"; hook_path ])
                  (Some timeout)) as [p | e].
    + destruct (returncode p =? 0).
      * destruct (String.eqb (stdout p) ""); eexists;
          (split; [ reflexivity | split; [ exact Hs1 | reflexivity ] ]).
      * eexists. split; [ reflexivity | split; [ exact Hs1 | reflexivity ] ].
    + destruct e; eexists;
        (split; [ reflexivity | split; [ exact Hs1 | reflexivity ] ]).
  - eexists. split; [ reflexivity | split; [ exact Hs1 | reflexivity ] ].
Qed.

(** X28: the new phase is written before any hook runs.  A transition that
    is legal, whose validation gate and approval check passed and whose
    phase script succeeded, ends with [current_phase] equal to the target
    for every behaviour of the hooks, also when the call ends with an
    exception of the repository-root discovery, and it never returns
    failure. *)
Theorem commit_stands_whatever_hooks_do to_phase worktree_root approval
    commit_message simplified linted tested s current s2 script_msg s3 :
  (get_current_phase worktree_root s).1 = Ok current ->
  can_transition current to_phase = (true, "") ->
  pre_review_gate to_phase worktree_root simplified s = (Ok None, s2) ->
  (str_in to_phase PHASES_REQUIRING_APPROVAL = true ->
   _validate_approval approval commit_message to_phase = (true, "")) ->
  run_phase_script to_phase worktree_root simplified linted tested s2
    = (Ok (true, script_msg), s3) ->
  let out := do_transition to_phase worktree_root approval commit_message
                           simplified linted tested false s in
  (get_current_phase worktree_root out.2).1 = Ok (Some to_phase)
  ∧ ∀ success msg,
      out.1 = Ok (success, msg) ->
      success = true ∧ msg = "Transitioned to '" +:+ to_phase +:+ "'".
Proof.
  intros Hcur Hcan Hgate Happroval Hscript.
  cbv zeta.
  rewrite get_current_phase_eq in Hcur. cbn [fst] in Hcur.
  injection Hcur as Hcur.
  remember (do_transition to_phase worktree_root approval commit_message
                          simplified linted tested false s) as out eqn:Hout.
  unfold do_transition in Hout.
  rewrite (bind_ok _ _ _ _ _ (get_current_phase_eq worktree_root s)) in Hout.
  rewrite Hcur, Hcan in Hout. cbn [negb] in Hout.
  rewrite (bind_ok _ _ _ _ _ Hgate) in Hout.
  assert (Hvalid :
    (if str_in to_phase PHASES_REQUIRING_APPROVAL
     then _validate_approval approval commit_message to_phase
     else (true, "")) = (true, "")).
  { destruct (str_in to_phase PHASES_REQUIRING_APPROVAL);
      [ now apply Happroval | reflexivity ]. }
  rewrite Hvalid in Hout. cbn [negb] in Hout.
  rewrite (bind_ok _ _ _ _ _ Hscript) in Hout. cbn [fst snd negb] in Hout.
  unfold bind at 1 in Hout.
  set (s4 := ((if String.eqb script_msg "" then ret tt
               else output "success" script_msg) s3).2) in *.
  assert (Hs4 :
    (if String.eqb script_msg "" then ret tt
     else output "success" script_msg) s3 = (Ok tt, s4)).
  { subst s4. now destruct (String.eqb script_msg ""). }
  rewrite Hs4 in Hout. unfold bind at 1 in Hout.
  rewrite record_transition_spec in Hout.
  match type of Hout with
  | context [bind (run_phase_hooks _ _) _ ?s5] =>
      destruct (after_commit worktree_root to_phase s5)
        as (Hsame & Hresult & _)
  end.
  subst out. split.
  - rewrite get_current_phase_eq. cbn [fst].
    unfold same_status in Hsame. rewrite Hsame. cbn [status_file].
    f_equal. apply current_phase_after_updates.
    eapply allowed_known_phase. now rewrite Hcan.
  - intros success msg Hout. apply Hresult in Hout.
    injection Hout as -> ->. split; reflexivity.
Qed.

(** ** When [do_transition] returns *)




(** ** Which processes are started, and under which timeout *)

Lemma logged_mono {A : Type} (P Q : event -> Prop) (c : M A) :
  (∀ ev, P ev -> Q ev) -> respects (logged P) c -> respects (logged Q) c.
Proof.
  intros HPQ Hc s. destruct (Hc s) as (new & Htrace & Hall).
  exists new. split; [ exact Htrace | ].
  eapply Forall_impl; [ exact Hall | exact HPQ ].
Qed.

(** [respects_step] for logs, with the process calls left to the caller. *)
Ltac logged_step :=
  first [ respects_step
        | lazymatch goal with
          | |- respects (logged _) (subprocess_run _ _) =>
              apply logged_subprocess_run
          end ].

Lemma logged_run_single_validation worktree_root nm command timeout :
  PyStr.int (timeout_setting worktree_root) = Some timeout ->
  respects (logged (validation_event worktree_root))
           (run_single_validation nm command worktree_root timeout).
Proof.
  intros Htimeout. unfold run_single_validation.
  repeat logged_step. exact Htimeout.
Qed.

Lemma logged_run_validation_commands worktree_root cmds timeout :
  PyStr.int (timeout_setting worktree_root) = Some timeout ->
  ∀ acc, respects (logged (validation_event worktree_root))
                  (run_validation_commands cmds worktree_root timeout acc).
Proof.
  intros Htimeout.
  induction cmds as [ | [nm command] rest IH]; intros acc; simpl.
  - respects_step.
  - destruct (String.eqb command ""); [ apply IH | ].
    repeat first [ apply logged_run_single_validation; exact Htimeout
                 | apply IH | respects_step ].
Qed.

Lemma logged_run_validations worktree_root simplified :
  respects (logged (validation_event worktree_root))
           (run_validations worktree_root simplified).
Proof.
  unfold run_validations, validation_timeout.
  fold (timeout_setting worktree_root).
  destruct (PyStr.int (timeout_setting worktree_root)) as [timeout | ]
    eqn:Htimeout.
  - intros s. unfold bind at 1. unfold ret at 1.
    revert s.
    match goal with
    | |- ∀ s, logged ?P s (?c s).2 => change (respects (logged P) c)
    end.
    repeat first [ apply logged_run_validation_commands; exact Htimeout
                 | respects_step ].
  - intros s. unfold bind at 1. unfold raise at 1. cbn [snd]. reflexivity.
Qed.

Lemma logged__get_repo_root : respects (logged hook_event) _get_repo_root.
Proof.
  unfold _get_repo_root. repeat logged_step.
  left. split; reflexivity.
Qed.

Lemma logged_run_lifecycle_hook hook_point worktree_root :
  respects (logged hook_event)
    (run_lifecycle_hook hook_point worktree_root DEFAULT_HOOK_TIMEOUT).
Proof.
  unfold run_lifecycle_hook, get_hook_path.
  repeat first [ apply logged__get_repo_root | logged_step ].
  right. eexists. split; reflexivity.
Qed.

Lemma logged_run_phase_hooks phase worktree_root :
  respects (logged hook_event) (run_phase_hooks phase worktree_root).
Proof.
  unfold run_phase_hooks.
  generalize (@nil (string * bool * string)).
  induction (default [] (dict_get PHASE_HOOKS phase))
    as [ | hook_point rest IH]; intros acc; simpl.
  - respects_step.
  - repeat first [ apply logged_run_lifecycle_hook | apply IH | respects_step ].
Qed.

Lemma logged_run_phase_script phase worktree_root simplified linted tested :
  respects (logged script_event)
    (run_phase_script phase worktree_root simplified linted tested).
Proof. unfold run_phase_script. repeat logged_step. exact I. Qed.

Lemma logged_report_hooks (P : event -> Prop) hook_results :
  (∀ fn text, P (EvOutput fn text)) ->
  respects (logged P) (report_hooks hook_results).
Proof.
  intros HP.
  induction hook_results as [ | [[hook_point hook_success] msg] rest IH]; simpl.
  - respects_step.
  - repeat first [ apply IH | apply logged_emit; apply HP | respects_step ].
Qed.

(** C5, amended: each validation command is run under the timeout that the
    [timeout] setting denotes, 300 seconds when the setting is absent, and
    each hook script under the 60 second default; the phase script and the
    repository-root discovery are blocking calls without a timeout; and
    [do_transition] starts no other process. *)
Theorem process_timeouts worktree_root :
  (∀ simplified,
     respects (logged (validation_event worktree_root))
              (run_validations worktree_root simplified))
  ∧ (get_validation_config worktree_root !! "timeout" = None ->
     PyStr.int (timeout_setting worktree_root) = Some 300)
  ∧ (∀ phase,
       respects (logged hook_event) (run_phase_hooks phase worktree_root))
  ∧ (∀ phase simplified linted tested,
       respects (logged script_event)
         (run_phase_script phase worktree_root simplified linted tested))
  ∧ (∀ to_phase approval commit_message simplified linted tested
       validation_only,
       respects
         (logged (fun ev => validation_event worktree_root ev
                            ∨ hook_event ev ∨ script_event ev))
         (do_transition to_phase worktree_root approval commit_message
                        simplified linted tested validation_only)).
Proof.
  split; [ intros; apply logged_run_validations | ].
  split; [ intros Habsent; unfold timeout_setting; now rewrite Habsent | ].
  split; [ intros; apply logged_run_phase_hooks | ].
  split; [ intros; apply logged_run_phase_script | ].
  intros to_phase approval commit_message simplified linted tested
    validation_only.
  set (P := fun ev => validation_event worktree_root ev
                      ∨ hook_event ev ∨ script_event ev).
  assert (Hvalidations : respects (logged P)
            (run_validations worktree_root simplified)).
  { eapply logged_mono; [ | apply logged_run_validations ].
    intros ev H. now left. }
  assert (Hhooks : respects (logged P)
            (run_phase_hooks to_phase worktree_root)).
  { eapply logged_mono; [ | apply logged_run_phase_hooks ].
    intros ev H. right. now left. }
  assert (Hscript : respects (logged P)
            (run_phase_script to_phase worktree_root simplified linted tested)).
  { eapply logged_mono; [ | apply logged_run_phase_script ].
    intros ev H. right. now right. }
  assert (Houtput : ∀ fn text, respects (logged P) (output fn text)).
  { intros fn text. apply logged_emit. right. left. exact I. }
  unfold do_transition, pre_review_gate, pre_review_header,
    _update_validation_status, record_transition, get_current_phase.
  repeat first [ apply Hvalidations | apply Hhooks | apply Hscript
               | apply Houtput
               | apply logged_report_hooks; intros; right; left; exact I
               | respects_step ].
Qed.

(** * Further properties of the engine *)

(** ** More of the sources *)

(** [get_phase_history]: the phases with a recorded, non-empty timestamp, in
    the order of [PHASES] (the insertion order of the returned dict). *)
Definition get_phase_history (worktree_root : option string)
  : M (list (string * string)) :=
  content <- read_status ;;
  match content with
  | None => ret []
  | Some text =>
      ret (foldl (fun history phase =>
                    match parse_toml_value text (phase +:+ "_at") with
                    | Some timestamp =>
                        if String.eqb timestamp "" then history
                        else (history ++ [ (phase, timestamp) ])%list
                    | None => history
                    end) [] PHASES)
  end.

(** The parsed arguments of [worktree-state transition]. *)
Record transition_args : Type := {
  arg_phase : string;
  arg_approval : option string;
  arg_commit_message : option string;
  arg_simplified : bool;
  arg_linted : bool;
  arg_tested : bool;
  arg_validation_only : bool;
}.

(** [cmd_transition] of [cli/main.py]: the exit code of the command.  The log
    does not tell the two streams apart: the [ERROR] line, which the source
    sends to [sys.stderr], is an [EvPrint] like the [OK] line. *)
Definition cmd_transition (args : transition_args) : M Z :=
  r <- do_transition (arg_phase args) None (arg_approval args)
                     (arg_commit_message args) (arg_simplified args)
                     (arg_linted args) (arg_tested args)
                     (arg_validation_only args) ;;
  if r.1
  then print ("[OK] " +:+ r.2) ;;; ret 0
  else print ("[ERROR] " +:+ r.2) ;;; ret 1.

(** A sequence of targets, each allowed from the one before. *)
Fixpoint legal_path (from_phase : option string) (path : list string) : bool :=
  match path with
  | [] => true
  | to_phase :: rest =>
      (can_transition from_phase to_phase).1 && legal_path (Some to_phase) rest
  end.

(** The phase before position [i] of [PHASES]: none before the first. *)
Definition phase_before (i : nat) : option string :=
  match i with
  | O => None
  | S j => PHASES !! j
  end.

(** The text has no line break. *)
Definition one_line (s : string) : Prop :=
  "010"%char ∉ list_ascii_of_string s.

(** The status files agree on every key outside [keys], and one exists when
    the other does. *)
Definition agree_outside (keys : list string) (s s' : state) : Prop :=
  (status_file s' = None ↔ status_file s = None)
  ∧ ∀ key, key ∉ keys ->
           status_file s' ≫= (.!! key) = status_file s ≫= (.!! key).

(** No key of the status file is lost, nor the file itself. *)
Definition keeps_keys (s s' : state) : Prop :=
  (status_file s ≠ None -> status_file s' ≠ None)
  ∧ ∀ key, is_Some (status_file s ≫= (.!! key)) ->
           is_Some (status_file s' ≫= (.!! key)).

(** The three fields written after a passing validation run. *)
Definition VALIDATION_KEYS : list string :=
  [ "validation_passed"; "validation_summary"; "last_validation_at" ].

(** ** The transition table is the chain of [PHASES] *)

Lemma allowed_successor from_phase to_phase :
  (can_transition from_phase to_phase).1 = true ->
  ∃ i, PHASES !! i = Some to_phase ∧ from_phase = phase_before i.
Proof.
  intros Hallowed. apply allowed_in_table in Hallowed.
  destruct Hallowed as (successors & Hedge & Hto).
  unfold VALID_TRANSITIONS in Hedge.
  repeat (apply elem_of_cons in Hedge as [Hedge | Hedge];
          [ inversion Hedge; subst; clear Hedge;
            apply list_elem_of_singleton in Hto; subst;
            first [ exists 0%nat; split; reflexivity
                  | exists 1%nat; split; reflexivity
                  | exists 2%nat; split; reflexivity
                  | exists 3%nat; split; reflexivity
                  | exists 4%nat; split; reflexivity
                  | exists 5%nat; split; reflexivity
                  | exists 6%nat; split; reflexivity ] | ]).
  inversion Hedge.
Qed.

(** X1: a transition is allowed exactly when the target is a phase of
    [PHASES] and the current phase is the one right before it in that list
    (no phase at all before the first). *)
Theorem can_transition_successor from_phase to_phase :
  (can_transition from_phase to_phase).1 = true
  ↔ ∃ i, PHASES !! i = Some to_phase ∧ from_phase = phase_before i.
Proof.
  split; [ apply allowed_successor | ].
  intros (i & Hto & Hfrom). subst from_phase.
  do 7 (destruct i as [ | i];
        [ simpl in Hto; injection Hto as <-; reflexivity | ]).
  discriminate Hto.
Qed.

Lemma legal_path_from i path :
  legal_path (phase_before i) path = true ->
  (i <= 7)%nat ->
  path = take (length path) (drop i PHASES).
Proof.
  revert i. induction path as [ | to_phase rest IH]; intros i Hlegal Hi.
  - reflexivity.
  - simpl in Hlegal. apply andb_true_iff in Hlegal as [Hstep Hrest].
    apply allowed_successor in Hstep.
    destruct Hstep as (j & Hto & Hfrom).
    assert (Hij : i = j).
    { do 8 (destruct i as [ | i];
            [ do 7 (destruct j as [ | j];
                    [ first [ reflexivity | discriminate Hfrom ] | ]);
              discriminate Hto | ]).
      lia. }
    subst j.
    assert (Hnext : Some to_phase = phase_before (S i)) by (symmetry; exact Hto).
    rewrite Hnext in Hrest.
    assert (HSi : (S i <= 7)%nat).
    { apply lookup_lt_Some in Hto. simpl in Hto. lia. }
    specialize (IH (S i) Hrest HSi).
    simpl. rewrite (drop_S _ _ _ Hto). simpl. f_equal. exact IH.
Qed.

(** X2: a sequence of transitions, each allowed from the phase the one
    before it reached and the first one from no phase at all, walks
    [PHASES] from its start: it is a prefix of [PHASES], so it has at most
    seven steps and nothing follows [cleaned]; and every prefix is such a
    sequence. *)
Theorem legal_path_prefix path :
  legal_path None path = true ↔ ∃ n, path = take n PHASES.
Proof.
  split.
  - intros Hlegal. exists (length path).
    apply (legal_path_from 0 path Hlegal). lia.
  - intros [n ->].
    do 8 (destruct n as [ | n]; [ reflexivity | ]). reflexivity.
Qed.

Lemma string_app_assoc (a b c : string) : (a +:+ b) +:+ c = a +:+ b +:+ c.
Proof.
  induction a as [ | x a IH]; [ reflexivity | ].
  change (String x ((a +:+ b) +:+ c) = String x (a +:+ b +:+ c)).
  f_equal. exact IH.
Qed.

(** X3: [can_transition] gives an empty reason exactly when it allows the
    transition, and every rejection names the target phase in its reason. *)
Theorem can_transition_reason from_phase to_phase :
  ((can_transition from_phase to_phase).1 = true
   ↔ (can_transition from_phase to_phase).2 = "")
  ∧ ((can_transition from_phase to_phase).1 = false ->
     ∃ before after,
       (can_transition from_phase to_phase).2
       = before +:+ to_phase +:+ after
       ∧ before ≠ "").
Proof.
  unfold can_transition. cbv zeta.
  destruct (str_in to_phase PHASES); cbn [negb].
  - destruct (str_in to_phase
                (default [] (dict_get VALID_TRANSITIONS from_phase)));
      cbn [negb fst snd].
    + split; [ split; reflexivity | intros H; discriminate H ].
    + split; [ split; intros H; discriminate H | ].
      intros _.
      exists ("Cannot transition from '"
              +:+ (if PyStr.falsy from_phase then "none"
                   else default "" from_phase) +:+ "' to '").
      eexists. split; [ | intros H; discriminate H ].
      rewrite !string_app_assoc. reflexivity.
  - cbn [fst snd]. split; [ split; intros H; discriminate H | ].
    intros _. exists "Unknown phase: ". eexists.
    split; [ reflexivity | intros H; discriminate H ].
Qed.

(** ** The approval check *)

(** X4: the approval check looks at nothing but the two lengths, approval
    first: calls with texts of the same lengths get the same verdict, for
    whatever phases they are made; a missing or short approval gets the
    same message whatever the commit message is; and a refusal always comes
    with a message. *)
Theorem _validate_approval_lengths approval commit_message phase :
  (∀ approval' commit_message' phase',
     String.length (default "" approval')
     = String.length (default "" approval) ->
     String.length (default "" commit_message')
     = String.length (default "" commit_message) ->
     (_validate_approval approval' commit_message' phase').1
     = (_validate_approval approval commit_message phase).1)
  ∧ ((String.length (default "" approval) < 10)%nat ->
     ∀ commit_message',
       _validate_approval approval commit_message' phase
       = _validate_approval approval commit_message phase)
  ∧ ((_validate_approval approval commit_message phase).1 = false ->
     (_validate_approval approval commit_message phase).2 ≠ "").
Proof.
  split; [ | split ].
  - intros approval' commit_message' phase' Ha Hc.
    destruct (_validate_approval approval commit_message phase).1 eqn:Hv.
    + apply _validate_approval_spec. apply _validate_approval_spec in Hv.
      rewrite Ha, Hc. exact Hv.
    + destruct (_validate_approval approval' commit_message' phase').1 eqn:Hv';
        [ | reflexivity ].
      apply _validate_approval_spec in Hv'. rewrite Ha, Hc in Hv'.
      pose proof (proj2 (_validate_approval_spec approval commit_message phase)
                    Hv') as Hyes.
      congruence.
  - intros Hshort commit_message'. unfold _validate_approval.
    destruct (PyStr.falsy approval) eqn:Hfalsy; [ reflexivity | ].
    unfold MIN_APPROVAL_LENGTH.
    destruct (Nat.ltb_spec (String.length (default "" approval)) 10);
      [ reflexivity | lia ].
  - unfold _validate_approval.
    repeat (match goal with
            | |- context [if ?b then _ else _] => destruct b
            end; cbn [fst snd]; try (intros _ H; discriminate H)).
    intros H. discriminate H.
Qed.

(** ** Messages of the validation checks *)

Lemma take_length n s : (String.length (PyStr.take n s) <= n)%nat.
Proof.
  unfold PyStr.take. revert s.
  induction n as [ | n IH]; intros [ | a s]; simpl; try lia.
  specialize (IH s). lia.
Qed.

Lemma one_line_first_line s : one_line (PyStr.first_line s).
Proof.
  unfold one_line. induction s as [ | a s IH]; simpl.
  - apply not_elem_of_nil.
  - destruct (Ascii.eqb_spec a "010"%char) as [Heq | Hne]; simpl.
    + apply not_elem_of_nil.
    + apply not_elem_of_cons. split; [ congruence | exact IH ].
Qed.

Lemma one_line_take n s : one_line s -> one_line (PyStr.take n s).
Proof.
  unfold one_line, PyStr.take. revert s.
  induction n as [ | n IH]; intros [ | a s]; simpl; intros Hs;
    try apply not_elem_of_nil.
  apply not_elem_of_cons in Hs as [Ha Hs].
  apply not_elem_of_cons. split; [ exact Ha | now apply IH ].
Qed.

(** X5: the message of a check that exited non-zero is the exit code
    followed by one line of at most 100 characters; that line comes from
    the error stream alone whenever it holds anything but white space, and
    from the output stream otherwise.  The message of a check that exited 0
    depends on the duration only. *)
Theorem _format_validation_message_bounded result duration :
  (returncode result ≠ 0 ->
   ∃ first_line,
     _format_validation_message result duration
     = "failed (exit " +:+ pretty (returncode result) +:+ "): " +:+ first_line
     ∧ (String.length first_line <= 100)%nat
     ∧ one_line first_line
     ∧ first_line
       = PyStr.take 100 (PyStr.first_line
           (if String.eqb (PyStr.strip (stderr result)) ""
            then PyStr.strip (stdout result)
            else PyStr.strip (stderr result))))
  ∧ (returncode result = 0 ->
     ∀ out err,
       _format_validation_message
         {| returncode := 0; stdout := out; stderr := err |} duration
       = _format_validation_message result duration).
Proof.
  unfold _format_validation_message. split.
  - intros Hrc. apply Z.eqb_neq in Hrc. rewrite Hrc. cbv zeta.
    set (error_output := if String.eqb (PyStr.strip (stderr result)) ""
                         then PyStr.strip (stdout result)
                         else PyStr.strip (stderr result)).
    exists (PyStr.take 100 (PyStr.first_line error_output)).
    split; [ | split; [ apply take_length | split;
               [ apply one_line_take, one_line_first_line | reflexivity ] ] ].
    destruct (String.eqb_spec error_output "") as [Hempty | Hne];
      [ rewrite Hempty | ]; reflexivity.
  - intros Hrc out err. rewrite Hrc. reflexivity.
Qed.

(** ** Reading the configuration *)

(** One step of the loop of [get_config]. *)
Definition config_step (config : gmap string string) (line : string)
  : gmap string string :=
  match parse_key_value_line line with
  | Some (k, v) => <[k := v]> config
  | None => config
  end.

(** The fold of [get_config] over the lines of the file. *)
Lemma get_config_eq worktree_root lines :
  config_file E (root_of worktree_root) = Some lines ->
  get_config worktree_root
  = foldl config_step ∅ lines.
Proof. intros Hfile. unfold get_config. now rewrite Hfile. Qed.

Lemma config_fold_keeps lines :
  ∀ (acc : gmap string string) key,
    is_Some (acc !! key) ->
    is_Some (foldl config_step acc lines !! key).
Proof.
  induction lines as [ | line rest IH]; intros acc key Hacc; simpl.
  - exact Hacc.
  - apply IH. unfold config_step.
    destruct (parse_key_value_line line) as [[k v] | ];
      [ | exact Hacc ].
    rewrite lookup_insert. case_decide; [ eexists; reflexivity | exact Hacc ].
Qed.

Lemma config_fold_sets lines :
  ∀ (acc : gmap string string) line key value,
    line ∈ lines ->
    parse_key_value_line line = Some (key, value) ->
    is_Some (foldl config_step acc lines !! key).
Proof.
  induction lines as [ | first rest IH]; intros acc line key value Hin Hparse.
  - inversion Hin.
  - simpl. apply elem_of_cons in Hin as [-> | Hin].
    + unfold config_step at 2. rewrite Hparse. apply config_fold_keeps.
      rewrite lookup_insert_eq. eexists; reflexivity.
    + eapply IH; eassumption.
Qed.

(** Every key of the validation section comes from a line of the file, or
    was there before. *)
Lemma validation_section_keys lines :
  ∀ in_section (acc : gmap string string) key,
    is_Some (validation_section lines in_section acc !! key) ->
    is_Some (acc !! key)
    ∨ ∃ line value, line ∈ lines
                    ∧ parse_key_value_line line = Some (key, value).
Proof.
  induction lines as [ | line rest IH]; intros in_section acc key Hkey.
  - left. exact Hkey.
  - simpl in Hkey.
    assert (Hrest : ∀ b,
      is_Some (validation_section rest b acc !! key) ->
      is_Some (acc !! key)
      ∨ ∃ line0 value, line0 ∈ line :: rest
                       ∧ parse_key_value_line line0 = Some (key, value)).
    { intros b Hb. destruct (IH b acc key Hb) as [H | (l & v & Hin & Hp)];
        [ now left | right ].
      exists l, v. split; [ now apply list_elem_of_further | exact Hp ]. }
    destruct (PyStr.startswith (PyStr.strip line) "["
              && PyStr.endswith (PyStr.strip line) "]");
      [ now apply Hrest in Hkey | ].
    destruct in_section; [ | now apply Hrest in Hkey ].
    destruct (parse_key_value_line line) as [[k v] | ] eqn:Hparse;
      [ | now apply Hrest in Hkey ].
    destruct (IH true (<[k := v]> acc) key Hkey)
      as [H | (l & v' & Hin & Hp)].
    + rewrite lookup_insert in H. case_decide; [ | now left ].
      subst k. right. exists line, v. split; [ apply list_elem_of_here | ].
      exact Hparse.
    + right. exists l, v'.
      split; [ now apply list_elem_of_further | exact Hp ].
Qed.

(** Outside the validation section nothing is collected. *)
Lemma validation_section_closed lines :
  ∀ (acc : gmap string string),
    (∀ line, line ∈ lines -> PyStr.strip line ≠ "[validation]") ->
    validation_section lines false acc = acc.
Proof.
  induction lines as [ | line rest IH]; intros acc Hno; [ reflexivity | ].
  simpl.
  assert (Hrest : validation_section rest false acc = acc).
  { apply IH. intros l Hl. apply Hno. now apply list_elem_of_further. }
  destruct (PyStr.startswith (PyStr.strip line) "["
            && PyStr.endswith (PyStr.strip line) "]"); [ | exact Hrest ].
  destruct (String.eqb_spec (PyStr.strip line) "[validation]") as [Heq | _];
    [ | exact Hrest ].
  exfalso. apply (Hno line); [ apply list_elem_of_here | exact Heq ].
Qed.

(** X6: the validation settings come from the [[validation]] section only:
    a configuration file in which no line is that header, white space
    aside, gives no validation setting at all, whatever else it holds; so
    does a missing file. *)
Theorem get_validation_config_needs_section worktree_root :
  match config_file E (root_of worktree_root) with
  | Some lines =>
      (∀ line, line ∈ lines -> PyStr.strip line ≠ "[validation]") ->
      get_validation_config worktree_root = ∅
  | None => get_validation_config worktree_root = ∅
  end.
Proof.
  unfold get_validation_config.
  destruct (config_file E (root_of worktree_root)) as [lines | ];
    [ | reflexivity ].
  apply validation_section_closed.
Qed.

(** X7: the flat configuration ignores the sections: every key of the
    validation settings is also a key of what [get_config] returns for the
    same worktree. *)
Theorem validation_keys_are_config_keys worktree_root key :
  is_Some (get_validation_config worktree_root !! key) ->
  is_Some (get_config worktree_root !! key).
Proof.
  unfold get_validation_config, get_config.
  destruct (config_file E (root_of worktree_root)) as [lines | ];
    [ | intros H; exact H ].
  intros Hkey. apply validation_section_keys in Hkey.
  destruct Hkey as [Hempty | (line & value & Hin & Hparse)].
  - rewrite lookup_empty in Hempty. destruct Hempty as [x Hx]. discriminate Hx.
  - change (is_Some (foldl config_step ∅ lines !! key)).
    eapply config_fold_sets; eassumption.
Qed.

(** X8: in the flat configuration the last line that sets a key wins: when
    a line of the file parses to [(key, value)] and no later line parses to
    that key, [get_config] maps the key to that value. *)
Theorem get_config_last_wins worktree_root before line after key value :
  config_file E (root_of worktree_root) = Some (before ++ line :: after)%list ->
  parse_key_value_line line = Some (key, value) ->
  (∀ later v, later ∈ after -> parse_key_value_line later ≠ Some (key, v)) ->
  get_config worktree_root !! key = Some value.
Proof.
  intros Hfile Hparse Hlater.
  rewrite (get_config_eq _ _ Hfile). rewrite foldl_app. simpl.
  unfold config_step at 2. rewrite Hparse.
  generalize (foldl config_step ∅ before). intros acc.
  assert (Hgen : ∀ (m : gmap string string),
    m !! key = Some value ->
    foldl config_step m after !! key = Some value).
  { clear Hfile. induction after as [ | l rest IH]; intros m Hm; simpl.
    - exact Hm.
    - apply IH.
      + intros later v Hin. apply Hlater. now apply list_elem_of_further.
      + unfold config_step.
        destruct (parse_key_value_line l) as [[k v] | ] eqn:Hl; [ | exact Hm ].
        rewrite lookup_insert_ne; [ exact Hm | ].
        intros ->. apply (Hlater l v); [ apply list_elem_of_here | exact Hl ]. }
  apply Hgen. apply lookup_insert_eq.
Qed.

(** ** Hook paths and skipped hooks *)

Lemma get_hook_paths_lookup hook_point :
  get_hook_paths !! hook_point
  = match dict_get DEFAULT_HOOK_PATHS hook_point with
    | Some default_path =>
        Some (default default_path (get_config None !! hook_point))
    | None => None
    end.
Proof.
  unfold get_hook_paths, HOOK_POINTS, DEFAULT_HOOK_PATHS. simpl.
  destruct (get_config None !! "post_init") eqn:?;
    destruct (get_config None !! "pre_validate") eqn:?;
    destruct (get_config None !! "pre_review") eqn:?;
    destruct (get_config None !! "pre_merge") eqn:?;
    destruct (get_config None !! "pre_cleanup") eqn:?;
    repeat (rewrite lookup_insert; case_decide; [ subst hook_point | ]);
    rewrite ?lookup_empty;
    repeat (case_decide; try congruence);
    simplify_eq; simpl; try reflexivity;
    repeat match goal with
           | H : _ !! _ = _ |- _ => rewrite H
           end; reflexivity.
Qed.

(** X9: the path of a hook point is the configured one when the flat
    configuration has a key of that name, the built-in default otherwise;
    a name that is no hook point has no path, configured or not. *)
Theorem get_hook_paths_override hook_point :
  get_hook_paths !! hook_point
  = match dict_get DEFAULT_HOOK_PATHS hook_point with
    | Some default_path =>
        Some (default default_path (get_config None !! hook_point))
    | None => None
    end.
Proof. apply get_hook_paths_lookup. Qed.

(** X10: a hook is switched off by configuring the empty path: then, and
    for a name that is no hook point, [run_lifecycle_hook] reports the
    script as not found without looking for the repository or starting any
    process; the state is left exactly as it was. *)
Theorem disabled_hook_is_skipped hook_point worktree_root timeout s :
  dict_get DEFAULT_HOOK_PATHS hook_point = None
  ∨ get_config None !! hook_point = Some "" ->
  run_lifecycle_hook hook_point worktree_root timeout s
  = (Ok (true, "Hook " +:+ hook_point +:+ " skipped (script not found)"), s).
Proof.
  intros Hoff.
  assert (Hfalsy : PyStr.falsy (get_hook_paths !! hook_point) = true).
  { rewrite get_hook_paths_lookup.
    destruct (dict_get DEFAULT_HOOK_PATHS hook_point) as [d | ];
      [ | reflexivity ].
    destruct Hoff as [Hoff | Hoff]; [ discriminate Hoff | ].
    rewrite Hoff. reflexivity. }
  unfold run_lifecycle_hook, get_hook_path. cbv zeta. rewrite Hfalsy.
  reflexivity.
Qed.

(** ** What the hooks report *)

Lemma run_lifecycle_hook_true hook_point worktree_root timeout s r s' :
  run_lifecycle_hook hook_point worktree_root timeout s = (Ok r, s') ->
  r.1 = true.
Proof.
  intros Hrun.
  destruct (get_hook_path hook_point s) as [[path | e] s1] eqn:Hpath.
  - destruct (run_lifecycle_hook_spec hook_point worktree_root timeout
                s path s1 Hpath) as (detail & s2 & Hspec).
    rewrite Hspec in Hrun. injection Hrun as <- _. reflexivity.
  - unfold run_lifecycle_hook in Hrun.
    rewrite (bind_raise _ _ _ _ _ Hpath) in Hrun. discriminate Hrun.
Qed.

Lemma run_hook_points_results hook_points worktree_root :
  ∀ acc s hook_results s',
    run_hook_points hook_points worktree_root acc s = (Ok hook_results, s') ->
    ∃ new,
      hook_results = (acc ++ new)%list
      ∧ map (fun r : string * bool * string => r.1.1) new = hook_points
      ∧ Forall (fun r : string * bool * string => r.1.2 = true) new.
Proof.
  induction hook_points as [ | hook_point rest IH];
    intros acc s hook_results s' Hrun; simpl in Hrun.
  - injection Hrun as <- _. exists []. rewrite app_nil_r.
    repeat split. constructor.
  - unfold bind at 1 in Hrun.
    destruct (run_lifecycle_hook hook_point worktree_root
                DEFAULT_HOOK_TIMEOUT s) as [[r | e] s1] eqn:Hhook;
      [ | discriminate Hrun ].
    apply run_lifecycle_hook_true in Hhook.
    unfold bind at 1 in Hrun. unfold print at 1, emit at 1 in Hrun.
    cbv beta iota in Hrun.
    apply IH in Hrun. destruct Hrun as (new & -> & Hnames & Hall).
    exists ((hook_point, r.1, r.2) :: new). rewrite <- app_assoc.
    split; [ reflexivity | ]. split; [ simpl; now rewrite Hnames | ].
    constructor; [ exact Hhook | exact Hall ].
Qed.

(** X11: when [run_phase_hooks] returns, it returns one entry for each hook
    point bound to the phase, in order, and every entry is marked as a
    success, whatever the hook did; for a phase without hooks it returns
    the empty list and does nothing at all. *)
Theorem run_phase_hooks_results phase worktree_root s :
  (∀ hook_results s',
     run_phase_hooks phase worktree_root s = (Ok hook_results, s') ->
     map (fun r : string * bool * string => r.1.1) hook_results
     = default [] (dict_get PHASE_HOOKS phase)
     ∧ Forall (fun r : string * bool * string => r.1.2 = true) hook_results)
  ∧ (dict_get PHASE_HOOKS phase = None ->
     run_phase_hooks phase worktree_root s = (Ok [], s)).
Proof.
  split.
  - intros hook_results s' Hrun. unfold run_phase_hooks in Hrun.
    apply run_hook_points_results in Hrun.
    destruct Hrun as (new & -> & Hnames & Hall). split; assumption.
  - intros Hnone. unfold run_phase_hooks. rewrite Hnone. reflexivity.
Qed.

(** ** No warning is ever reported *)

(** The event is not a call of [output.warning]. *)
Definition no_warning (ev : event) : Prop :=
  match ev with
  | EvOutput fn _ => fn ≠ "warning"
  | _ => True
  end.

(** One step of a proof that a computation logs no warning. *)
Ltac quiet_step :=
  first [ apply logged_emit; simpl; first [ exact I | discriminate ]
        | apply logged_subprocess_run; exact I
        | respects_step ].

Lemma quiet_run_validation_commands cmds worktree_root timeout :
  ∀ acc, respects (logged no_warning)
                  (run_validation_commands cmds worktree_root timeout acc).
Proof.
  induction cmds as [ | [nm command] rest IH]; intros acc; simpl.
  - respects_step.
  - destruct (String.eqb command ""); [ apply IH | ].
    unfold run_single_validation.
    repeat first [ apply IH | quiet_step ].
Qed.

Lemma quiet_run_validations worktree_root simplified :
  respects (logged no_warning) (run_validations worktree_root simplified).
Proof.
  unfold run_validations, validation_timeout.
  repeat first [ apply quiet_run_validation_commands | quiet_step ].
Qed.

Lemma quiet_run_phase_hooks phase worktree_root :
  respects (logged no_warning) (run_phase_hooks phase worktree_root).
Proof.
  unfold run_phase_hooks.
  generalize (@nil (string * bool * string)).
  induction (default [] (dict_get PHASE_HOOKS phase))
    as [ | hook_point rest IH]; intros acc; simpl.
  - respects_step.
  - unfold run_lifecycle_hook, get_hook_path, _get_repo_root.
    repeat first [ apply IH | quiet_step ].
Qed.

Lemma quiet_report_hooks hook_results :
  Forall (fun r : string * bool * string => r.1.2 = true) hook_results ->
  respects (logged no_warning) (report_hooks hook_results).
Proof.
  induction hook_results as [ | [[hook_point hook_success] msg] rest IH];
    intros Hall; simpl.
  - respects_step.
  - apply Forall_cons in Hall as [Hfirst Hrest]. simpl in Hfirst.
    subst hook_success.
    repeat first [ apply (IH Hrest) | quiet_step ].
Qed.

Lemma quiet_after_commit worktree_root to_phase :
  respects (logged no_warning)
    (hook_results <- run_phase_hooks to_phase worktree_root ;;
     (match hook_results with
      | [] => ret tt
      | _ =>
          output "blank" "" ;;;
          output "header" "Lifecycle Hooks" ;;;
          report_hooks hook_results
      end) ;;;
     ret (true, "Transitioned to '" +:+ to_phase +:+ "'")).
Proof.
  intros s. unfold bind at 1.
  pose proof (quiet_run_phase_hooks to_phase worktree_root s) as Hhooks.
  destruct (run_phase_hooks to_phase worktree_root s)
    as [[hook_results | e] s1] eqn:Hrun; [ | exact Hhooks ].
  cbn [snd] in Hhooks.
  assert (Hall : Forall (fun r : string * bool * string => r.1.2 = true)
                        hook_results).
  { unfold run_phase_hooks in Hrun. apply run_hook_points_results in Hrun.
    destruct Hrun as (new & -> & _ & Hall). exact Hall. }
  etransitivity; [ exact Hhooks | ].
  revert s1 Hrun Hhooks.
  match goal with
  | |- ∀ s1, _ -> _ -> logged ?P s1 (?c s1).2 =>
      intros s1 _ _; revert s1; change (respects (logged P) c)
  end.
  destruct hook_results as [ | hook_result rest];
    repeat first [ apply (quiet_report_hooks _ Hall) | quiet_step ].
Qed.

(** X12: [do_transition] never calls [output.warning]: whatever the hooks
    do, their results are reported with [output.success]. *)
Theorem do_transition_never_warns to_phase worktree_root approval
    commit_message simplified linted tested validation_only :
  respects (logged no_warning)
    (do_transition to_phase worktree_root approval commit_message
                   simplified linted tested validation_only).
Proof.
  unfold do_transition, pre_review_gate, pre_review_header,
    _update_validation_status, record_transition, get_current_phase,
    run_phase_script.
  repeat first [ apply quiet_after_commit
               | apply quiet_run_validations
               | quiet_step ].
Qed.

(** ** The pipeline fails closed *)

(** Under this timeout the command never completes with exit code 0: it
    exits non-zero, times out or cannot be started. *)
Definition never_succeeds (command : string) (timeout : Z) : Prop :=
  ∀ n p, run E n (Shell command) (Some timeout) = Completed p ->
         returncode p ≠ 0.

(** Under this timeout the command always completes with exit code 0. *)
Definition always_succeeds (command : string) (timeout : Z) : Prop :=
  ∀ n, ∃ p, run E n (Shell command) (Some timeout) = Completed p
            ∧ returncode p = 0.

Lemma run_validation_commands_verdict cmds worktree_root timeout :
  ∀ acc s, ∃ new s',
    run_validation_commands cmds worktree_root timeout acc s
      = (Ok (acc ++ new)%list, s')
    ∧ (∀ nm c, (nm, c) ∈ cmds -> c ≠ "" -> never_succeeds c timeout ->
         forallb passed new = false)
    ∧ ((∀ nm c, (nm, c) ∈ cmds -> c ≠ "" -> always_succeeds c timeout) ->
         forallb passed new = true).
Proof.
  induction cmds as [ | [nm command] rest IH]; intros acc s.
  - exists [], s. simpl. rewrite app_nil_r. split; [ reflexivity | ].
    split; [ intros nm c Hin; inversion Hin | reflexivity ].
  - simpl. destruct (String.eqb_spec command "") as [Hempty | Hcmd].
    + destruct (IH acc s) as (new & s' & Hrun & Hfail & Hpass).
      exists new, s'. split; [ exact Hrun | ]. split.
      * intros nm' c Hin Hc Hbad. apply (Hfail nm' c); try assumption.
        apply elem_of_cons in Hin as [Heq | Hin]; [ | exact Hin ].
        inversion Heq; subst. contradiction.
      * intros Hgood. apply Hpass. intros nm' c Hin.
        apply Hgood with nm'. now apply list_elem_of_further.
    + destruct (run_single_validation_spec nm command worktree_root timeout s)
        as (r & s1 & Hr & Hname & Hs1 & Hpassed).
      rewrite (bind_ok _ _ _ _ _ Hr).
      unfold print at 1. unfold bind at 1. simpl.
      match goal with
      | |- context [run_validation_commands _ _ _ _ ?s0] =>
          destruct (IH (acc ++ [r])%list s0)
            as (new & s' & Hrun & Hfail & Hpass)
      end.
      exists (r :: new), s'. split; [ | split ].
      * rewrite Hrun. now rewrite <- app_assoc.
      * intros nm' c Hin Hc Hbad. simpl.
        apply elem_of_cons in Hin as [Heq | Hin].
        -- inversion Heq; subst nm' c. rewrite Hpassed.
           destruct (run E (S (length (trace s))) (Shell command)
                         (Some timeout)) as [p | e] eqn:Hp; [ | reflexivity ].
           apply Hbad in Hp. apply Z.eqb_neq in Hp. now rewrite Hp.
        -- rewrite (Hfail nm' c Hin Hc Hbad). apply andb_false_r.
      * intros Hgood. simpl. rewrite Hpass.
        -- rewrite andb_true_r. rewrite Hpassed.
           destruct (Hgood nm command (list_elem_of_here _ _) Hcmd
                       (S (length (trace s)))) as (p & Hp & Hrc).
           rewrite Hp. now apply Z.eqb_eq.
        -- intros nm' c Hin. apply Hgood with nm'.
           now apply list_elem_of_further.
Qed.

(** The three commands of the pipeline, as [run_validations] lists them. *)
Lemma run_validations_verdict worktree_root simplified s timeout :
  PyStr.int (timeout_setting worktree_root) = Some timeout ->
  ∃ summary s',
    run_validations worktree_root simplified s = (Ok summary, s')
    ∧ (∀ key, key ∈ map snd CHECKS ->
         configured_command worktree_root key ≠ "" ->
         never_succeeds (configured_command worktree_root key) timeout ->
         all_passed summary = false)
    ∧ ((∀ key, key ∈ map snd CHECKS ->
          configured_command worktree_root key ≠ "" ->
          always_succeeds (configured_command worktree_root key) timeout) ->
       all_passed summary
       = (negb (simplification_required worktree_root) || simplified)).
Proof.
  intros Htimeout. unfold timeout_setting in Htimeout.
  unfold run_validations, validation_timeout. rewrite Htimeout.
  unfold bind at 1. unfold ret at 1.
  fold (simplification_required worktree_root).
  fold (configured_command worktree_root "typecheck_command").
  fold (configured_command worktree_root "lint_command").
  fold (configured_command worktree_root "test_command").
  set (cmds := [ ("typecheck", configured_command worktree_root "typecheck_command");
                 ("lint", configured_command worktree_root "lint_command");
                 ("test", configured_command worktree_root "test_command") ]).
  assert (Hkeys : ∀ key, key ∈ map snd CHECKS ->
            ∃ nm, (nm, configured_command worktree_root key) ∈ cmds).
  { intros key Hkey. unfold CHECKS in Hkey. simpl in Hkey. unfold cmds.
    repeat (apply elem_of_cons in Hkey as [-> | Hkey];
            [ eexists;
              repeat first [ apply list_elem_of_here
                           | apply list_elem_of_further ] | ]).
    inversion Hkey. }
  assert (Hcmds : ∀ nm c, (nm, c) ∈ cmds ->
            ∃ key, key ∈ map snd CHECKS
                   ∧ c = configured_command worktree_root key).
  { intros nm c Hin. unfold cmds in Hin. unfold CHECKS. simpl.
    repeat (apply elem_of_cons in Hin as [Heq | Hin];
            [ inversion Heq; subst; eexists; split; [ | reflexivity ];
              repeat first [ apply list_elem_of_here
                           | apply list_elem_of_further ] | ]).
    inversion Hin. }
  destruct (simplification_required worktree_root).
  - unfold bind at 1. unfold bind at 1. unfold print at 1, emit at 1.
    cbv beta iota. unfold ret at 1. cbv beta iota.
    match goal with
    | |- context [bind (run_validation_commands _ _ _ ?acc) _ ?s0] =>
        destruct (run_validation_commands_verdict cmds worktree_root timeout
                    acc s0) as (new & s' & Hrun & Hfail & Hpass)
    end.
    unfold bind. rewrite Hrun. eexists _, _. split; [ reflexivity | ].
    cbn [all_passed forallb app passed negb orb]. split.
    + intros key Hkey Hcmd Hbad. destruct (Hkeys key Hkey) as [nm Hnm].
      rewrite (Hfail nm _ Hnm Hcmd Hbad). apply andb_false_r.
    + intros Hgood. rewrite Hpass; [ apply andb_true_r | ].
      intros nm c Hin Hc. destruct (Hcmds nm c Hin) as (key & Hkey & ->).
      now apply Hgood.
  - unfold bind at 1. unfold ret at 1.
    destruct (run_validation_commands_verdict cmds worktree_root timeout [] s)
      as (new & s' & Hrun & Hfail & Hpass).
    unfold bind. rewrite Hrun. eexists _, _. split; [ reflexivity | ].
    cbn [all_passed app negb orb]. split.
    + intros key Hkey Hcmd Hbad. destruct (Hkeys key Hkey) as [nm Hnm].
      exact (Hfail nm _ Hnm Hcmd Hbad).
    + intros Hgood. apply Hpass.
      intros nm c Hin Hc. destruct (Hcmds nm c Hin) as (key & Hkey & ->).
      now apply Hgood.
Qed.

(** X13: the pipeline fails closed: when one configured command never
    completes with exit code 0 under the configured timeout, be it a
    non-zero exit, a timeout or a failure to start, [run_validations]
    returns a summary with [all_passed] false. *)
Theorem validation_fails_closed worktree_root simplified s timeout key :
  PyStr.int (timeout_setting worktree_root) = Some timeout ->
  key ∈ map snd CHECKS ->
  configured_command worktree_root key ≠ "" ->
  never_succeeds (configured_command worktree_root key) timeout ->
  ∃ summary s',
    run_validations worktree_root simplified s = (Ok summary, s')
    ∧ all_passed summary = false.
Proof.
  intros Htimeout Hkey Hcmd Hbad.
  destruct (run_validations_verdict worktree_root simplified s timeout Htimeout)
    as (summary & s' & Hrun & Hfail & _).
  exists summary, s'. split; [ exact Hrun | ].
  exact (Hfail key Hkey Hcmd Hbad).
Qed.

(** X14: when every configured command completes with exit code 0 whenever
    it is run, the verdict of [run_validations] is that of the
    simplification check alone: true unless simplification is required and
    the flag was not given. *)
Theorem validation_passes worktree_root simplified s timeout :
  PyStr.int (timeout_setting worktree_root) = Some timeout ->
  (∀ key, key ∈ map snd CHECKS ->
     configured_command worktree_root key ≠ "" ->
     always_succeeds (configured_command worktree_root key) timeout) ->
  ∃ summary s',
    run_validations worktree_root simplified s = (Ok summary, s')
    ∧ all_passed summary
      = (negb (simplification_required worktree_root) || simplified).
Proof.
  intros Htimeout Hgood.
  destruct (run_validations_verdict worktree_root simplified s timeout Htimeout)
    as (summary & s' & Hrun & _ & Hpass).
  exists summary, s'. split; [ exact Hrun | ]. exact (Hpass Hgood).
Qed.

(** X15: when simplification is required and the flag is not given, the
    summary fails whatever the commands do, its text starts with the
    failed [code-simplifier] entry, and the configured commands are run all
    the same. *)
Theorem missing_simplification_fails worktree_root s timeout :
  PyStr.int (timeout_setting worktree_root) = Some timeout ->
  simplification_required worktree_root = true ->
  ∃ summary s' rest,
    run_validations worktree_root false s = (Ok summary, s')
    ∧ all_passed summary = false
    ∧ summary_text summary = "code-simplifier: FAIL" +:+ rest
    ∧ length (runs_of (trace s'))
      = (length (runs_of (trace s))
         + length (configured_checks worktree_root))%nat.
Proof.
  intros Htimeout Hrequired.
  destruct (run_validations_spec worktree_root false s timeout Htimeout)
    as (summary & s' & Hrun & Hall & Hnames & Hfirst & Htext & Hruns & _).
  rewrite Hrequired in Hnames, Hfirst.
  destruct (results summary) as [ | r others] eqn:Hresults;
    [ discriminate Hnames | ].
  simpl in Hfirst. injection Hfirst as Hfailed.
  simpl in Hnames. injection Hnames as Hname Hothers.
  exists summary, s'.
  exists (match others with
          | [] => ""
          | _ => ", " +:+ PyStr.join ", " (map summary_part others)
          end).
  split; [ exact Hrun | ]. split; [ | split ].
  - rewrite Hall, ?Hresults. simpl. now rewrite Hfailed.
  - rewrite Htext. unfold PyStr.join.
    destruct others as [ | r' others']; simpl; unfold summary_part at 1;
      rewrite Hname, Hfailed; reflexivity.
  - apply (f_equal (@length _)) in Hruns.
    rewrite length_app, !length_rev, length_map in Hruns.
    rewrite Hruns. f_equal.
    rewrite <- configured_checks_eq. rewrite length_map. reflexivity.
Qed.

(** ** The stages of a transition *)

(** What [do_transition] does after it has written the new phase. *)
Definition finish_transition (to_phase : string) (worktree_root : option string)
  : M (bool * string) :=
  hook_results <- run_phase_hooks to_phase worktree_root ;;
  (match hook_results with
   | [] => ret tt
   | _ =>
       output "blank" "" ;;;
       output "header" "Lifecycle Hooks" ;;;
       report_hooks hook_results
   end) ;;;
  ret (true, "Transitioned to '" +:+ to_phase +:+ "'").

(** The state right after the new phase has been written. *)
Definition committed (to_phase : string) (approval commit_message : option string)
    (s : state) : state :=
  {| status_file :=
       Some (update_toml_fields (default ∅ (status_file s))
               (transition_updates to_phase (now E (length (trace s)))
                                   approval commit_message));
     trace := trace s |}.

#[local] Instance agree_outside_preorder keys : PreOrder (agree_outside keys).
Proof.
  split.
  - intros s. split; [ reflexivity | intros; reflexivity ].
  - intros s1 s2 s3 [Hf12 Hk12] [Hf23 Hk23]. split.
    + now rewrite Hf23, Hf12.
    + intros key Hkey. now rewrite Hk23, Hk12.
Qed.

#[local] Instance keeps_keys_preorder : PreOrder keeps_keys.
Proof.
  split.
  - intros s. split; [ intros H; exact H | intros key H; exact H ].
  - intros s1 s2 s3 [Hf12 Hk12] [Hf23 Hk23]. split.
    + intros H. apply Hf23, Hf12, H.
    + intros key H. apply Hk23, Hk12, H.
Qed.

Lemma same_status_agree keys s s' : same_status s s' -> agree_outside keys s s'.
Proof.
  unfold same_status, agree_outside. intros H. rewrite H.
  split; [ reflexivity | intros; reflexivity ].
Qed.

Lemma same_status_keeps s s' : same_status s s' -> keeps_keys s s'.
Proof.
  unfold same_status, keeps_keys. intros H. rewrite H.
  split; [ intros H'; exact H' | intros key H'; exact H' ].
Qed.

Lemma update_toml_fields_keeps updates :
  ∀ (text : gmap string string) key,
    is_Some (text !! key) ->
    is_Some (update_toml_fields text updates !! key).
Proof.
  unfold update_toml_fields.
  induction updates as [ | [k v] rest IH]; intros text key Hkey; simpl.
  - exact Hkey.
  - apply IH. rewrite lookup_insert.
    case_decide; [ eexists; reflexivity | exact Hkey ].
Qed.

Lemma update_toml_fields_other updates :
  ∀ (text : gmap string string) key,
    key ∉ map fst updates ->
    update_toml_fields text updates !! key = text !! key.
Proof.
  unfold update_toml_fields.
  induction updates as [ | [k v] rest IH]; intros text key Hkey; simpl.
  - reflexivity.
  - simpl in Hkey. apply not_elem_of_cons in Hkey as [Hne Hrest].
    rewrite (IH _ _ Hrest). now apply lookup_insert_ne.
Qed.

(** The last pair for a key decides its value. *)
Lemma update_toml_fields_last before key value after :
  ∀ (text : gmap string string),
    key ∉ map fst after ->
    update_toml_fields text (before ++ (key, value) :: after)%list !! key
    = Some value.
Proof.
  intros text Hafter. unfold update_toml_fields. rewrite foldl_app. simpl.
  fold (update_toml_fields
          (<[key := value]>
             (foldl (fun m kv => <[kv.1 := kv.2]> m) text before)) after).
  rewrite (update_toml_fields_other _ _ _ Hafter). apply lookup_insert_eq.
Qed.


Lemma respects_weaken {A : Type} (R R' : state -> state -> Prop) (c : M A) :
  (∀ s s', R s s' -> R' s s') -> respects R c -> respects R' c.
Proof. intros Hweak Hc s. apply Hweak, Hc. Qed.

Lemma agree_update_validation_status worktree_root summary :
  respects (agree_outside VALIDATION_KEYS)
           (_update_validation_status worktree_root summary).
Proof.
  intros s. unfold _update_validation_status, bind, read_status, tick,
    write_status.
  destruct (status_file s) as [text | ] eqn:Hfile; cbn.
  - split; cbn.
    + rewrite Hfile. split; intros H; discriminate H.
    + intros key Hkey. rewrite Hfile. cbn.
      now apply lookup_validation_status.
  - reflexivity.
Qed.

Lemma keeps_update_validation_status worktree_root summary :
  respects keeps_keys (_update_validation_status worktree_root summary).
Proof.
  intros s. unfold _update_validation_status, bind, read_status, tick,
    write_status.
  destruct (status_file s) as [text | ] eqn:Hfile; cbn.
  - split; cbn.
    + intros _ H; discriminate H.
    + intros key. rewrite Hfile. cbn. intros Hkey.
      exact (update_toml_fields_keeps
               [ ("validation_passed", PyStr.bool_lower (all_passed summary));
                 ("validation_summary", PyStr.quote (summary_text summary));
                 ("last_validation_at",
                  PyStr.quote (now E (length (trace s)))) ]
               text key Hkey).
  - reflexivity.
Qed.

(** The validation gate changes the status file through
    [_update_validation_status] only. *)
Lemma pre_review_gate_respects (R : state -> state -> Prop) `{!PreOrder R}
    to_phase worktree_root simplified :
  (∀ s s', same_status s s' -> R s s') ->
  (∀ summary, respects R (_update_validation_status worktree_root summary)) ->
  respects R (pre_review_gate to_phase worktree_root simplified).
Proof.
  intros Hweak Hupdate. unfold pre_review_gate.
  destruct (String.eqb to_phase "human-manual-review");
    [ | refine (respects_ret _ _) ].
  refine (respects_bind _ _ _ _ _);
    [ apply (respects_weaken same_status R _ Hweak),
        same_status_pre_review_header | intros _ ].
  refine (respects_bind _ _ _ _ _);
    [ apply (respects_weaken same_status R _ Hweak),
        same_status_run_validations | intros summary ].
  destruct (negb (all_passed summary)); [ refine (respects_ret _ _) | ].
  refine (respects_bind _ _ _ _ _); [ apply Hupdate | intros _ ].
  repeat (refine (respects_bind _ _ _ _ _);
          [ apply (respects_weaken same_status R _ Hweak), same_status_emit
          | intros _ ]).
  refine (respects_ret _ _).
Qed.

Lemma pre_review_gate_other to_phase worktree_root simplified s :
  to_phase ≠ "human-manual-review" ->
  pre_review_gate to_phase worktree_root simplified s = (Ok None, s).
Proof.
  intros Hne. unfold pre_review_gate.
  destruct (String.eqb_spec to_phase "human-manual-review") as [Hto | Hto];
    [ contradiction | reflexivity ].
Qed.

(** What every stage before the write leaves of the status file. *)
Definition transition_frame (to_phase : string) (s s' : state) : Prop :=
  agree_outside VALIDATION_KEYS s s'
  ∧ keeps_keys s s'
  ∧ (to_phase ≠ "human-manual-review" -> same_status s s').

Lemma transition_frame_same to_phase s s1 s2 :
  transition_frame to_phase s s1 -> same_status s1 s2 ->
  transition_frame to_phase s s2.
Proof.
  intros (Hagree & Hkeeps & Hsame) H12. split; [ | split ].
  - transitivity s1; [ exact Hagree | now apply same_status_agree ].
  - transitivity s1; [ exact Hkeeps | now apply same_status_keeps ].
  - intros Hne. unfold same_status in *. rewrite H12. now apply Hsame.
Qed.

Lemma pre_review_gate_frame to_phase worktree_root simplified s :
  transition_frame to_phase s
    (pre_review_gate to_phase worktree_root simplified s).2.
Proof.
  split; [ | split ].
  - apply (pre_review_gate_respects (agree_outside VALIDATION_KEYS)).
    + intros s1 s2. apply same_status_agree.
    + apply agree_update_validation_status.
  - apply (pre_review_gate_respects keeps_keys).
    + intros s1 s2. apply same_status_keeps.
    + apply keeps_update_validation_status.
  - intros Hne. rewrite pre_review_gate_other by exact Hne. reflexivity.
Qed.

(** The phase recorded in a state. *)
Definition recorded_phase (s : state) : option string :=
  match status_file s with
  | None => None
  | Some text => parse_toml_value text "current_phase"
  end.

(** A transition either stops before the write, with a failure or an
    exception, or it is a legal step that writes the new phase and goes on
    to the hooks. *)
Lemma do_transition_stages to_phase worktree_root approval commit_message
    simplified linted tested s :
  ∃ s1,
    transition_frame to_phase s s1
    ∧ ((∃ res,
          do_transition to_phase worktree_root approval commit_message
                        simplified linted tested false s = (res, s1)
          ∧ ∀ r, res = Ok r -> r.1 = false)
       ∨ ((can_transition (recorded_phase s) to_phase).1 = true
          ∧ do_transition to_phase worktree_root approval commit_message
                          simplified linted tested false s
            = finish_transition to_phase worktree_root
                (committed to_phase approval commit_message s1))).
Proof.
  remember (do_transition to_phase worktree_root approval commit_message
                          simplified linted tested false s) as out eqn:Hout.
  unfold do_transition in Hout.
  rewrite (bind_ok _ _ _ _ _ (get_current_phase_eq worktree_root s)) in Hout.
  cbv beta iota in Hout. fold (recorded_phase s) in Hout.
  destruct (can_transition (recorded_phase s) to_phase)
    as [allowed reason] eqn:Hcan.
  destruct allowed; cbn [negb fst] in *.
  2: { exists s. split.
       - split; [ reflexivity | split; [ reflexivity | reflexivity ] ].
       - left. eexists. split; [ rewrite Hout; reflexivity | ].
         intros r [= <-]. reflexivity. }
  pose proof (pre_review_gate_frame to_phase worktree_root simplified s)
    as Hframe.
  unfold bind at 1 in Hout.
  destruct (pre_review_gate to_phase worktree_root simplified s)
    as [[gate | e] s2]; cbn [snd] in Hframe.
  2: { exists s2. split; [ exact Hframe | ]. left. eexists.
       split; [ rewrite Hout; reflexivity | ]. intros r H. discriminate H. }
  destruct gate as [failure | ].
  { exists s2. split; [ exact Hframe | ]. left. eexists.
    split; [ rewrite Hout; reflexivity | ]. intros r [= <-]. reflexivity. }
  destruct (if str_in to_phase PHASES_REQUIRING_APPROVAL
            then _validate_approval approval commit_message to_phase
            else (true, "")) as [valid error].
  destruct valid; cbn [negb] in Hout.
  2: { exists s2. split; [ exact Hframe | ]. left. eexists.
       split; [ rewrite Hout; reflexivity | ]. intros r [= <-]. reflexivity. }
  pose proof (same_status_run_phase_script to_phase worktree_root
                simplified linted tested s2) as Hscript.
  unfold bind at 1 in Hout.
  destruct (run_phase_script to_phase worktree_root simplified linted tested s2)
    as [[script | e] s3]; cbn [snd] in Hscript.
  2: { exists s3. split; [ now apply (transition_frame_same _ _ s2) | ].
       left. eexists. split; [ rewrite Hout; reflexivity | ].
       intros r H. discriminate H. }
  destruct (script.1); cbn [negb] in Hout.
  2: { exists s3. split; [ now apply (transition_frame_same _ _ s2) | ].
       left. eexists. split; [ rewrite Hout; reflexivity | ].
       intros r [= <-]. reflexivity. }
  unfold bind at 1 in Hout.
  destruct (String.eqb script.2 "").
  - exists s3. split; [ now apply (transition_frame_same _ _ s2) | ].
    right. split; [ reflexivity | ].
    change (ret tt s3) with (Ok tt, s3) in Hout. cbv beta iota in Hout.
    rewrite (bind_ok _ _ _ _ _
               (record_transition_spec to_phase approval commit_message s3))
      in Hout.
    exact Hout.
  - exists (output "success" script.2 s3).2.
    split.
    + apply (transition_frame_same _ _ s3);
        [ now apply (transition_frame_same _ _ s2) | reflexivity ].
    + right. split; [ reflexivity | ].
      change (output "success" script.2 s3)
        with (Ok tt, (output "success" script.2 s3).2) in Hout.
      cbv beta iota in Hout.
      rewrite (bind_ok _ _ _ _ _
                 (record_transition_spec to_phase approval commit_message
                    (output "success" script.2 s3).2)) in Hout.
      exact Hout.
Qed.


Lemma finish_transition_spec to_phase worktree_root s :
  same_status s (finish_transition to_phase worktree_root s).2
  ∧ ∀ r, (finish_transition to_phase worktree_root s).1 = Ok r ->
         r = (true, "Transitioned to '" +:+ to_phase +:+ "'").
Proof.
  pose proof (after_commit worktree_root to_phase s) as H. cbv zeta in H.
  destruct H as (Hsame & Hresult & _). split; [ exact Hsame | exact Hresult ].
Qed.

Lemma same_status_validation_only to_phase worktree_root approval commit_message
    simplified linted tested :
  respects same_status
    (do_transition to_phase worktree_root approval commit_message
                   simplified linted tested true).
Proof.
  unfold do_transition.
  refine (respects_bind _ _ _ _ _);
    [ apply same_status_get_current_phase | intros current ].
  cbv iota.
  destruct (negb (String.eqb to_phase "human-manual-review"));
    [ refine (respects_ret _ _) | ].
  destruct (negb (bool_decide (current = Some "implementing")));
    [ refine (respects_ret _ _) | ].
  refine (respects_bind _ _ _ _ _);
    [ apply same_status_pre_review_header | intros _ ].
  refine (respects_bind _ _ _ _ _);
    [ apply same_status_run_validations | intros summary ].
  destruct (all_passed summary); refine (respects_ret _ _).
Qed.

Lemma committed_keeps to_phase approval commit_message s :
  keeps_keys s (committed to_phase approval commit_message s).
Proof.
  split.
  - intros _ H. discriminate H.
  - intros key Hkey.
    change (is_Some
              (update_toml_fields (default ∅ (status_file s))
                 (transition_updates to_phase (now E (length (trace s)))
                                     approval commit_message) !! key)).
    apply update_toml_fields_keeps.
    destruct (status_file s) as [text | ]; [ exact Hkey | ].
    destruct Hkey as [x Hx]. discriminate Hx.
Qed.

(** The fields that [transition_updates] sets for a known phase. *)
Lemma transition_updates_lookup (text : gmap string string) to_phase timestamp
    approval commit_message :
  str_in to_phase PHASES = true ->
  update_toml_fields text
    (transition_updates to_phase timestamp approval commit_message)
  !! (to_phase +:+ "_at") = Some (PyStr.quote timestamp)
  ∧ (∀ a, approval = Some a -> a ≠ "" ->
          update_toml_fields text
            (transition_updates to_phase timestamp approval commit_message)
          !! (to_phase +:+ "_approval") = Some (PyStr.quote a))
  ∧ (∀ c, commit_message = Some c -> c ≠ "" ->
          update_toml_fields text
            (transition_updates to_phase timestamp approval commit_message)
          !! "commit_message" = Some (PyStr.quote c)).
Proof.
  intros Hknown. unfold PHASES in Hknown. simpl in Hknown.
  rewrite !orb_true_iff in Hknown. rewrite !String.eqb_eq in Hknown.
  unfold transition_updates, update_toml_fields.
  destruct Hknown as [H | [H | [H | [H | [H | [H | [H | H]]]]]]];
    [ subst to_phase .. | discriminate H ];
    (destruct approval as [[ | a0 a] | ];
     destruct commit_message as [[ | c0 c] | ];
     cbn [PyStr.falsy String.eqb default app foldl fst snd];
     (split;
      [ rewrite ?lookup_insert_ne by discriminate; apply lookup_insert_eq
      | split; intros x Hx Hne; simplify_eq; try congruence;
        rewrite ?lookup_insert_ne by discriminate; apply lookup_insert_eq ])).
Qed.


(** ** What a transition leaves of the record *)

(** X16: the flags [simplified], [linted] and [tested] matter for the
    transition to human-manual-review only: for every other target the call
    behaves exactly as with all three flags off. *)
Theorem flags_only_matter_for_review to_phase worktree_root approval
    commit_message simplified linted tested s :
  to_phase ≠ "human-manual-review" ->
  do_transition to_phase worktree_root approval commit_message
                simplified linted tested false s
  = do_transition to_phase worktree_root approval commit_message
                  false false false false s.
Proof.
  intros Hne. unfold do_transition.
  rewrite !(bind_ok _ _ _ _ _ (get_current_phase_eq worktree_root s)).
  cbv beta iota.
  destruct (can_transition
              match status_file s with
              | Some text => parse_toml_value text "current_phase"
              | None => None
              end to_phase) as [allowed reason].
  destruct (negb allowed); [ reflexivity | ].
  rewrite (bind_ok _ _ _ _ _
             (pre_review_gate_other to_phase worktree_root simplified s Hne)).
  rewrite (bind_ok _ _ _ _ _
             (pre_review_gate_other to_phase worktree_root false s Hne)).
  cbv beta iota.
  destruct (if str_in to_phase PHASES_REQUIRING_APPROVAL
            then _validate_approval approval commit_message to_phase
            else (true, "")) as [valid error].
  destruct (negb valid); [ reflexivity | ].
  assert (Hscript :
    run_phase_script to_phase worktree_root simplified linted tested
    = run_phase_script to_phase worktree_root false false false).
  { unfold run_phase_script.
    destruct (String.eqb_spec to_phase "human-manual-review") as [Hto | Hto];
      [ contradiction | reflexivity ]. }
  rewrite Hscript. reflexivity.
Qed.

(** X17: a call that reports a failure has not written the new phase: the
    status file exists afterwards exactly if it existed before, and every
    field other than the three validation fields reads as before.  When the
    target is not human-manual-review, or in validation-only mode, the status
    file is untouched. *)
Theorem failed_transition_keeps_record to_phase worktree_root approval
    commit_message simplified linted tested validation_only s msg :
  (do_transition to_phase worktree_root approval commit_message
                 simplified linted tested validation_only s).1
  = Ok (false, msg) ->
  agree_outside VALIDATION_KEYS s
    (do_transition to_phase worktree_root approval commit_message
                   simplified linted tested validation_only s).2
  ∧ (to_phase ≠ "human-manual-review" ∨ validation_only = true ->
     same_status s
       (do_transition to_phase worktree_root approval commit_message
                      simplified linted tested validation_only s).2).
Proof.
  destruct validation_only.
  { intros _.
    pose proof (same_status_validation_only to_phase worktree_root approval
                  commit_message simplified linted tested s) as Hsame.
    split; [ now apply same_status_agree | intros _; exact Hsame ]. }
  intros Hfail.
  destruct (do_transition_stages to_phase worktree_root approval commit_message
              simplified linted tested s)
    as (s1 & (Hagree & Hkeeps & Hsame) & [(res & Hout & _) | (_ & Hout)]).
  - rewrite Hout. cbn [snd]. split; [ exact Hagree | ].
    intros [Hne | Hvo]; [ now apply Hsame | discriminate Hvo ].
  - rewrite Hout in Hfail.
    apply (proj2 (finish_transition_spec to_phase worktree_root
                    (committed to_phase approval commit_message s1)))
      in Hfail.
    discriminate Hfail.
Qed.

(** X18: outside validation-only mode a call reports success only for a
    legal step from the recorded phase; the status file then records the
    target as the current phase, and the message is the fixed
    [Transitioned to] line. *)
Theorem success_is_a_recorded_legal_step to_phase worktree_root approval
    commit_message simplified linted tested s msg :
  (do_transition to_phase worktree_root approval commit_message
                 simplified linted tested false s).1
  = Ok (true, msg) ->
  (can_transition (recorded_phase s) to_phase).1 = true
  ∧ recorded_phase
      (do_transition to_phase worktree_root approval commit_message
                     simplified linted tested false s).2
    = Some to_phase
  ∧ msg = "Transitioned to '" +:+ to_phase +:+ "'".
Proof.
  intros Hok.
  destruct (do_transition_stages to_phase worktree_root approval commit_message
              simplified linted tested s)
    as (s1 & _ & [(res & Hout & Hres) | (Hcan & Hout)]).
  - rewrite Hout in Hok. cbn [fst] in Hok.
    specialize (Hres _ Hok). discriminate Hres.
  - split; [ exact Hcan | ].
    rewrite Hout in Hok |- *.
    destruct (finish_transition_spec to_phase worktree_root
                (committed to_phase approval commit_message s1))
      as (Hsame & Hresult).
    split.
    + unfold recorded_phase. unfold same_status in Hsame. rewrite Hsame.
      cbn [committed status_file].
      apply current_phase_after_updates.
      now apply (allowed_known_phase (recorded_phase s)).
    + specialize (Hresult _ Hok). now injection Hresult.
Qed.

(** X19: no call of [do_transition], in any mode and whatever its outcome
    (success, failure or exception), removes the status file or loses one of
    its fields. *)
Theorem do_transition_keeps_keys to_phase worktree_root approval commit_message
    simplified linted tested validation_only s :
  keeps_keys s
    (do_transition to_phase worktree_root approval commit_message
                   simplified linted tested validation_only s).2.
Proof.
  destruct validation_only.
  { apply same_status_keeps, same_status_validation_only. }
  destruct (do_transition_stages to_phase worktree_root approval commit_message
              simplified linted tested s)
    as (s1 & (Hagree & Hkeeps & Hsame) & [(res & Hout & _) | (_ & Hout)]).
  - rewrite Hout. exact Hkeeps.
  - rewrite Hout.
    transitivity s1; [ exact Hkeeps | ].
    transitivity (committed to_phase approval commit_message s1);
      [ apply committed_keeps | ].
    apply same_status_keeps, finish_transition_spec.
Qed.


(** X21: a legal transition to a phase that has neither a phase script nor
    lifecycle hooks (created and implementing) is pure bookkeeping: it
    starts no process, logs nothing, reads no configuration, ignores the
    flags, and returns success in the state where the new phase has been
    written. *)
Theorem plain_phase_only_records to_phase worktree_root approval commit_message
    simplified linted tested s :
  dict_get PHASE_SCRIPTS to_phase = None ->
  dict_get PHASE_HOOKS to_phase = None ->
  (can_transition (recorded_phase s) to_phase).1 = true ->
  do_transition to_phase worktree_root approval commit_message
                simplified linted tested false s
  = (Ok (true, "Transitioned to '" +:+ to_phase +:+ "'"),
     committed to_phase approval commit_message s).
Proof.
  intros Hscript Hhooks Hcan.
  assert (Hne : to_phase ≠ "human-manual-review").
  { intros ->. vm_compute in Hscript. discriminate Hscript. }
  unfold do_transition.
  rewrite (bind_ok _ _ _ _ _ (get_current_phase_eq worktree_root s)).
  cbv beta iota. fold (recorded_phase s).
  destruct (can_transition (recorded_phase s) to_phase) as [allowed reason].
  cbn [fst] in Hcan. subst allowed. cbn [negb].
  rewrite (bind_ok _ _ _ _ _
             (pre_review_gate_other to_phase worktree_root simplified s Hne)).
  cbv beta iota.
  assert (Hreq : str_in to_phase PHASES_REQUIRING_APPROVAL = false).
  { unfold str_in, PHASES_REQUIRING_APPROVAL. cbn [existsb].
    rewrite orb_false_r. now apply String.eqb_neq. }
  rewrite Hreq. cbn [negb].
  assert (Hrun : run_phase_script to_phase worktree_root simplified linted
                                  tested s = (Ok (true, ""), s)).
  { unfold run_phase_script. rewrite Hscript. reflexivity. }
  rewrite (bind_ok _ _ _ _ _ Hrun). cbn [fst snd negb].
  change (String.eqb "" "") with true. cbv iota.
  rewrite (bind_ok (ret tt) _ s tt s eq_refl).
  rewrite (bind_ok _ _ _ _ _
             (record_transition_spec to_phase approval commit_message s)).
  fold (committed to_phase approval commit_message s).
  assert (Hrun_hooks :
    run_phase_hooks to_phase worktree_root
      (committed to_phase approval commit_message s)
    = (Ok [], committed to_phase approval commit_message s)).
  { unfold run_phase_hooks. rewrite Hhooks. reflexivity. }
  rewrite (bind_ok _ _ _ _ _ Hrun_hooks).
  reflexivity.
Qed.


(** ** The phase history *)

(** One round of the loop of [get_phase_history]. *)
Definition history_step (text : gmap string string)
    (history : list (string * string)) (phase : string)
  : list (string * string) :=
  match parse_toml_value text (phase +:+ "_at") with
  | Some timestamp =>
      if String.eqb timestamp "" then history
      else (history ++ [ (phase, timestamp) ])%list
  | None => history
  end.

Lemma get_phase_history_eq worktree_root s :
  get_phase_history worktree_root s
  = (Ok match status_file s with
        | None => []
        | Some text => foldl (history_step text) [] PHASES
        end, s).
Proof.
  unfold get_phase_history, bind, read_status.
  now destruct (status_file s).
Qed.

Lemma history_fold_elem text phases :
  ∀ acc phase timestamp,
    (phase, timestamp) ∈ foldl (history_step text) acc phases
    ↔ (phase, timestamp) ∈ acc
      ∨ (phase ∈ phases
         ∧ parse_toml_value text (phase +:+ "_at") = Some timestamp
         ∧ timestamp ≠ "").
Proof.
  induction phases as [ | p rest IH]; intros acc phase timestamp; simpl.
  - split; [ intros H; now left | ].
    intros [H | (H & _)]; [ exact H | ]. now apply elem_of_nil in H.
  - rewrite IH. unfold history_step at 1.
    destruct (parse_toml_value text (p +:+ "_at")) as [ts | ] eqn:Hts.
    + destruct (String.eqb_spec ts "") as [Hempty | Hfull].
      * split.
        -- intros [H | (H & Hp & Hne)]; [ now left | ].
           right. split; [ now apply list_elem_of_further | now split ].
        -- intros [H | (H & Hp & Hne)]; [ now left | ].
           apply elem_of_cons in H as [-> | H].
           ++ rewrite Hts in Hp. injection Hp as <-. contradiction.
           ++ right. now repeat split.
      * rewrite elem_of_app, list_elem_of_singleton. split.
        -- intros [[H | H] | (H & Hp & Hne)].
           ++ now left.
           ++ injection H as -> ->. right.
              split; [ apply list_elem_of_here | now split ].
           ++ right. split; [ now apply list_elem_of_further | now split ].
        -- intros [H | (H & Hp & Hne)]; [ left; now left | ].
           apply elem_of_cons in H as [-> | H].
           ++ rewrite Hts in Hp. injection Hp as <-. left. now right.
           ++ right. now repeat split.
    + split.
      * intros [H | (H & Hp & Hne)]; [ now left | ].
        right. split; [ now apply list_elem_of_further | now split ].
      * intros [H | (H & Hp & Hne)]; [ now left | ].
        apply elem_of_cons in H as [-> | H].
        -- rewrite Hts in Hp. discriminate Hp.
        -- right. now repeat split.
Qed.

Lemma history_fold_order text phases :
  ∀ acc,
    sublist (map fst (foldl (history_step text) acc phases))
            (map fst acc ++ phases)%list.
Proof.
  induction phases as [ | p rest IH]; intros acc; simpl.
  - now rewrite app_nil_r.
  - assert (Hstep : history_step text acc p = acc
                    ∨ ∃ ts, history_step text acc p
                            = (acc ++ [ (p, ts) ])%list).
    { unfold history_step.
      destruct (parse_toml_value text (p +:+ "_at")) as [ts | ];
        [ | now left ].
      destruct (String.eqb ts ""); [ now left | right; now exists ts ]. }
    destruct Hstep as [-> | (ts & ->)].
    + etransitivity; [ apply IH | ].
      apply sublist_app; [ reflexivity | now apply sublist_cons ].
    + specialize (IH (acc ++ [ (p, ts) ])%list).
      rewrite map_app, <- app_assoc in IH. exact IH.
Qed.

(** X22: [get_phase_history] never fails and changes nothing; without a
    status file the history is empty; otherwise a phase is listed with a
    timestamp exactly if it is one of [PHASES] and its [<phase>_at] field
    reads as that timestamp and is not empty, and the phases come in the
    order of [PHASES], each at most once. *)
Theorem get_phase_history_spec worktree_root s :
  ∃ history,
    get_phase_history worktree_root s = (Ok history, s)
    ∧ (status_file s = None -> history = [])
    ∧ (∀ phase timestamp,
         (phase, timestamp) ∈ history
         ↔ ∃ text, status_file s = Some text
                   ∧ phase ∈ PHASES
                   ∧ parse_toml_value text (phase +:+ "_at") = Some timestamp
                   ∧ timestamp ≠ "")
    ∧ sublist (map fst history) PHASES.
Proof.
  rewrite get_phase_history_eq. eexists. split; [ reflexivity | ].
  destruct (status_file s) as [text | ].
  - split; [ intros H; discriminate H | ]. split.
    + intros phase timestamp. rewrite history_fold_elem. split.
      * intros [H | H]; [ now apply elem_of_nil in H | ].
        exists text. split; [ reflexivity | exact H ].
      * intros (text' & Htext & H). injection Htext as <-. now right.
    + apply (history_fold_order text PHASES []).
  - split; [ reflexivity | ]. split.
    + intros phase timestamp. split.
      * intros H. now apply elem_of_nil in H.
      * intros (text & Htext & _). discriminate Htext.
    + apply sublist_nil_l.
Qed.

(** A timestamp that is not empty and has no double quote at either end. *)
Definition unquoted (timestamp : string) : bool :=
  match list_ascii_of_string timestamp with
  | [] => false
  | a :: _ => negb (Ascii.eqb a "034"%char)
  end
  && match rev (list_ascii_of_string timestamp) with
     | [] => false
     | a :: _ => negb (Ascii.eqb a "034"%char)
     end.

Lemma list_ascii_of_string_app (a b : string) :
  list_ascii_of_string (a +:+ b)
  = (list_ascii_of_string a ++ list_ascii_of_string b)%list.
Proof.
  induction a as [ | x a IH]; [ reflexivity | ].
  change (x :: list_ascii_of_string (a +:+ b)
          = x :: (list_ascii_of_string a ++ list_ascii_of_string b)%list).
  now rewrite IH.
Qed.

(** Quoting and reading back gives the timestamp again. *)
Lemma strip_quotes_quote timestamp :
  unquoted timestamp = true ->
  PyStr.strip_quotes (PyStr.quote timestamp) = timestamp ∧ timestamp ≠ "".
Proof.
  unfold unquoted. intros H. apply andb_true_iff in H as [Hfirst Hlast].
  split.
  2: { intros ->. simpl in Hfirst. discriminate Hfirst. }
  unfold PyStr.strip_quotes, PyStr.quote, PyStr.dquote.
  rewrite !list_ascii_of_string_app.
  transitivity (string_of_list_ascii (list_ascii_of_string timestamp));
    [ f_equal | apply string_of_list_ascii_of_string ].
  destruct (list_ascii_of_string timestamp) as [ | a l]; [ discriminate Hfirst | ].
  change (list_ascii_of_string (String "034"%char "")) with [ "034"%char ].
  cbn [app PyStr.lstrip_quote].
  change (Ascii.eqb "034"%char "034"%char) with true. cbv iota.
  cbn [PyStr.lstrip_quote].
  destruct (Ascii.eqb a "034"%char); [ discriminate Hfirst | ].
  change (a :: (l ++ [ "034"%char ])%list) with ((a :: l) ++ [ "034"%char ])%list.
  rewrite rev_unit.
  cbn [PyStr.lstrip_quote].
  change (Ascii.eqb "034"%char "034"%char) with true. cbv iota.
  destruct (rev (a :: l)) as [ | b m] eqn:Hrev; [ discriminate Hlast | ].
  cbn [PyStr.lstrip_quote].
  destruct (Ascii.eqb b "034"%char); [ discriminate Hlast | ].
  rewrite <- Hrev. apply rev_involutive.
Qed.

(** X23: the record written by a successful transition reads back through
    [get_phase_history]: when the clock gives timestamps that are not empty
    and carry no double quote at either end, the history read afterwards
    lists the target phase with the timestamp of the transition. *)
Theorem history_after_transition to_phase worktree_root approval commit_message
    simplified linted tested s msg :
  (∀ clock, unquoted (now E clock) = true) ->
  (do_transition to_phase worktree_root approval commit_message
                 simplified linted tested false s).1
  = Ok (true, msg) ->
  ∃ history clock,
    get_phase_history worktree_root
      (do_transition to_phase worktree_root approval commit_message
                     simplified linted tested false s).2
    = (Ok history,
       (do_transition to_phase worktree_root approval commit_message
                      simplified linted tested false s).2)
    ∧ (to_phase, now E clock) ∈ history.
Proof.
  intros Hclock Hok.
  destruct (do_transition_stages to_phase worktree_root approval commit_message
              simplified linted tested s)
    as (s1 & _ & [(res & Hout & Hres) | (Hcan & Hout)]).
  - rewrite Hout in Hok. cbn [fst] in Hok.
    specialize (Hres _ Hok). discriminate Hres.
  - rewrite Hout. rewrite get_phase_history_eq.
    destruct (finish_transition_spec to_phase worktree_root
                (committed to_phase approval commit_message s1))
      as (Hsame & _).
    unfold same_status in Hsame. rewrite Hsame.
    cbn [committed status_file].
    eexists. exists (length (trace s1)). split; [ reflexivity | ].
    apply (allowed_known_phase (recorded_phase s)) in Hcan.
    apply history_fold_elem. right.
    split; [ | split ].
    + unfold str_in in Hcan. apply existsb_exists in Hcan as (p & Hin & Heq).
      apply String.eqb_eq in Heq. subst p.
      now apply list_elem_of_In.
    + unfold parse_toml_value.
      destruct (transition_updates_lookup (default ∅ (status_file s1)) to_phase
                  (now E (length (trace s1))) approval commit_message Hcan)
        as (Hat & _).
      rewrite Hat. cbn [fmap option_fmap option_map]. f_equal.
      apply strip_quotes_quote, Hclock.
    + apply strip_quotes_quote, Hclock.
Qed.

(** ** The command line *)

(** X24: when [worktree-state transition] ends without an exception, its
    exit code is 0 or 1 and its last line starts with [OK] or [ERROR]
    accordingly.  Exit code 0 outside validation-only mode means the target
    phase is now the recorded one; exit code 1 means the status file exists
    exactly if it did before and every field but the three validation
    fields reads as before. *)
Theorem cmd_transition_exit_code args s code s' :
  cmd_transition args s = (Ok code, s') ->
  (code = 0
   ∧ (∃ msg, head (trace s') = Some (EvPrint ("[OK] " +:+ msg)))
   ∧ (arg_validation_only args = false ->
      recorded_phase s' = Some (arg_phase args)))
  ∨ (code = 1
     ∧ (∃ msg, head (trace s') = Some (EvPrint ("[ERROR] " +:+ msg)))
     ∧ agree_outside VALIDATION_KEYS s s').
Proof.
  unfold cmd_transition. unfold bind at 1.
  destruct (do_transition (arg_phase args) None (arg_approval args)
              (arg_commit_message args) (arg_simplified args)
              (arg_linted args) (arg_tested args)
              (arg_validation_only args) s) as [[[success msg] | e] s1]
    eqn:Hout; [ | intros H; discriminate H ].
  cbn [fst snd].
  assert (Hfst :
    (do_transition (arg_phase args) None (arg_approval args)
       (arg_commit_message args) (arg_simplified args)
       (arg_linted args) (arg_tested args)
       (arg_validation_only args) s).1 = Ok (success, msg))
    by now rewrite Hout.
  assert (Hsnd :
    (do_transition (arg_phase args) None (arg_approval args)
       (arg_commit_message args) (arg_simplified args)
       (arg_linted args) (arg_tested args)
       (arg_validation_only args) s).2 = s1)
    by now rewrite Hout.
  clear Hout.
  destruct success.
  - intros H. injection H as <- <-. left.
    split; [ reflexivity | ]. split; [ now exists msg | ].
    intros Hmode. rewrite Hmode in Hfst, Hsnd.
    destruct (do_transition_stages (arg_phase args) None (arg_approval args)
                (arg_commit_message args) (arg_simplified args)
                (arg_linted args) (arg_tested args) s)
      as (s2 & _ & [(res & Hout & Hres) | (Hcan & Hout)]).
    + rewrite Hout in Hfst. cbn [fst] in Hfst.
      specialize (Hres _ Hfst). discriminate Hres.
    + rewrite Hout in Hsnd.
      destruct (finish_transition_spec (arg_phase args) None
                  (committed (arg_phase args) (arg_approval args)
                     (arg_commit_message args) s2)) as (Hsame & _).
      rewrite Hsnd in Hsame. unfold same_status in Hsame.
      unfold recorded_phase. cbn [status_file]. rewrite Hsame.
      cbn [committed status_file].
      apply current_phase_after_updates.
      now apply (allowed_known_phase (recorded_phase s)).
  - intros H. injection H as <- <-. right.
    split; [ reflexivity | ]. split; [ now exists msg | ].
    split; cbn [status_file].
    + destruct (arg_validation_only args).
      * pose proof (same_status_validation_only (arg_phase args) None
                      (arg_approval args) (arg_commit_message args)
                      (arg_simplified args) (arg_linted args)
                      (arg_tested args) s) as Hsame.
        rewrite Hsnd in Hsame. unfold same_status in Hsame. now rewrite Hsame.
      * destruct (do_transition_stages (arg_phase args) None
                    (arg_approval args) (arg_commit_message args)
                    (arg_simplified args) (arg_linted args)
                    (arg_tested args) s)
          as (s2 & (Hagree & _) & [(res & Hout & _) | (_ & Hout)]).
        -- rewrite Hout in Hsnd. cbn [snd] in Hsnd. subst s2.
           apply Hagree.
        -- rewrite Hout in Hfst.
           apply (proj2 (finish_transition_spec (arg_phase args) None
                           (committed (arg_phase args) (arg_approval args)
                              (arg_commit_message args) s2))) in Hfst.
           discriminate Hfst.
    + destruct (arg_validation_only args).
      * pose proof (same_status_validation_only (arg_phase args) None
                      (arg_approval args) (arg_commit_message args)
                      (arg_simplified args) (arg_linted args)
                      (arg_tested args) s) as Hsame.
        rewrite Hsnd in Hsame. unfold same_status in Hsame.
        intros key _. now rewrite Hsame.
      * destruct (do_transition_stages (arg_phase args) None
                    (arg_approval args) (arg_commit_message args)
                    (arg_simplified args) (arg_linted args)
                    (arg_tested args) s)
          as (s2 & (Hagree & _) & [(res & Hout & _) | (_ & Hout)]).
        -- rewrite Hout in Hsnd. cbn [snd] in Hsnd. subst s2.
           apply Hagree.
        -- rewrite Hout in Hfst.
           apply (proj2 (finish_transition_spec (arg_phase args) None
                           (committed (arg_phase args) (arg_approval args)
                              (arg_commit_message args) s2))) in Hfst.
           discriminate Hfst.
Qed.


(** ** What [do_transition] returns and what it lets through *)







End Engine.

(** * The edit guard *)

(** [hooks/enforce-implementing/core.py]: the hook that blocks file edits
    unless the worktree is in the implementing phase.  It is self-contained
    and reads the status file on its own, line by line. *)
Module EnforceImplementing.

Section Guard.

(** The file system: the lines of [worktree-status.toml] under a worktree
    path as [read_text().splitlines()] gives them, [None] when the file
    does not exist. *)
Variable status_file_lines : string -> option (list string).

Definition EDIT_ALLOWED_PHASES : list string := [ "implementing" ].

Record CheckResult : Type := {
  allowed : bool;
  reason : option string;
}.

(** [line.split(sep, 1)[1]] for the separator [=]: what follows the first
    equals sign; [None] stands for the [IndexError] of a line without one. *)
Fixpoint after_equals (l : list ascii) : option (list ascii) :=
  match l with
  | [] => None
  | a :: l' => if Ascii.eqb a "="%char then Some l' else after_equals l'
  end.

(** The [for line in ...] loop of [get_current_phase]. *)
Fixpoint scan_lines (lines : list string) : result (option string) :=
  match lines with
  | [] => Ok None
  | line :: rest =>
      if PyStr.startswith line "current_phase"
      then
        match after_equals (list_ascii_of_string line) with
        | None => Raise (OtherException "list index out of range")
        | Some value =>
            let phase :=
              PyStr.strip_quotes (PyStr.strip (string_of_list_ascii value)) in
            Ok (if String.eqb phase "" then None else Some phase)
        end
      else scan_lines rest
  end.

Definition get_current_phase (worktree_path : string) : result (option string) :=
  match status_file_lines worktree_path with
  | None => Ok None
  | Some lines => scan_lines lines
  end.

Definition is_edit_allowed (worktree_path : string) : result CheckResult :=
  match get_current_phase worktree_path with
  | Raise e => Raise e
  | Ok None => Ok {| allowed := true; reason := None |}
  | Ok (Some phase) =>
      Ok {| allowed := str_in phase EDIT_ALLOWED_PHASES; reason := Some phase |}
  end.

(** No line of the list starts with [current_phase]. *)
Definition no_phase_line (lines : list string) : Prop :=
  Forall (fun line => PyStr.startswith line "current_phase" = false) lines.

Lemma scan_lines_skip before rest :
  no_phase_line before -> scan_lines (before ++ rest) = scan_lines rest.
Proof.
  induction 1 as [ | line before Hline _ IH]; [ reflexivity | ].
  simpl. rewrite Hline. exact IH.
Qed.

Lemma after_equals_none l :
  "="%char ∉ l -> after_equals l = None.
Proof.
  induction l as [ | a l IH]; [ reflexivity | ].
  intros Hnot. apply not_elem_of_cons in Hnot as [Hne Hrest]. simpl.
  destruct (Ascii.eqb_spec a "="%char) as [-> | _]; [ contradiction | ].
  now apply IH.
Qed.

Lemma scan_lines_phase lines phase :
  scan_lines lines = Ok (Some phase) -> phase ≠ "".
Proof.
  induction lines as [ | line rest IH]; simpl; [ intros H; discriminate H | ].
  destruct (PyStr.startswith line "current_phase"); [ | exact IH ].
  destruct (after_equals (list_ascii_of_string line)) as [value | ];
    [ | intros H; discriminate H ].
  destruct (String.eqb_spec
              (PyStr.strip_quotes (PyStr.strip (string_of_list_ascii value)))
              "") as [Hempty | Hfull];
    intros H; [ discriminate H | ].
  injection H as <-. exact Hfull.
Qed.

(** X25: the decision of the edit guard.  Without a status file, or with
    one that has no line starting with [current_phase], edits are allowed
    and no phase is given.  Whenever a phase is given it is not empty, and
    edits are allowed exactly if it is [implementing]; without a phase they
    are always allowed.  When the first line that starts with
    [current_phase] has no equals sign, the guard ends with an exception. *)
Theorem is_edit_allowed_decision worktree_path :
  (status_file_lines worktree_path = None ->
   is_edit_allowed worktree_path = Ok {| allowed := true; reason := None |})
  ∧ (∀ lines, status_file_lines worktree_path = Some lines ->
       no_phase_line lines ->
       is_edit_allowed worktree_path
       = Ok {| allowed := true; reason := None |})
  ∧ (∀ r, is_edit_allowed worktree_path = Ok r ->
       match reason r with
       | None => allowed r = true
       | Some phase =>
           phase ≠ "" ∧ (allowed r = true ↔ phase = "implementing")
       end)
  ∧ (∀ before line after,
       status_file_lines worktree_path = Some (before ++ line :: after)%list ->
       no_phase_line before ->
       PyStr.startswith line "current_phase" = true ->
       "="%char ∉ list_ascii_of_string line ->
       ∃ e, is_edit_allowed worktree_path = Raise e).
Proof.
  unfold is_edit_allowed, get_current_phase.
  split; [ intros ->; reflexivity | ].
  split.
  { intros lines -> Hlines.
    rewrite <- (app_nil_r lines), (scan_lines_skip _ _ Hlines). reflexivity. }
  split.
  { intros r.
    destruct (match status_file_lines worktree_path with
              | Some lines => scan_lines lines
              | None => Ok None
              end) as [[phase | ] | e] eqn:Hphase;
      intros H; [ | | discriminate H ]; injection H as <-; cbn.
    - split.
      + destruct (status_file_lines worktree_path) as [lines | ];
          [ | discriminate Hphase ].
        now apply (scan_lines_phase lines).
      + unfold str_in, EDIT_ALLOWED_PHASES. cbn [existsb].
        rewrite orb_false_r. apply String.eqb_eq.
    - reflexivity. }
  intros before line after -> Hbefore Hline Hequals.
  rewrite (scan_lines_skip _ _ Hbefore). simpl. rewrite Hline.
  rewrite (after_equals_none _ Hequals). eexists. reflexivity.
Qed.

(** X26: the guard reads what the engine records.  When the first line of
    the status file that starts with [current_phase] is the field as the
    engine writes it, the key, an equals sign between two spaces and the
    phase in double quotes, for one of the seven phases, the guard gives
    that phase and allows edits exactly if it is [implementing]. *)
Theorem is_edit_allowed_reads_record worktree_path before phase after :
  status_file_lines worktree_path
  = Some (before ++ ("current_phase = " +:+ PyStr.quote phase) :: after)%list ->
  no_phase_line before ->
  phase ∈ PHASES ->
  is_edit_allowed worktree_path
  = Ok {| allowed := bool_decide (phase = "implementing");
          reason := Some phase |}.
Proof.
  intros Hfile Hbefore Hphase.
  unfold is_edit_allowed, get_current_phase. rewrite Hfile.
  rewrite (scan_lines_skip _ _ Hbefore).
  unfold PHASES in Hphase. rewrite !elem_of_cons in Hphase.
  destruct Hphase as [-> | [-> | [-> | [-> | [-> | [-> | [-> | H]]]]]]];
    [ vm_compute; reflexivity .. | now apply elem_of_nil in H ].
Qed.

End Guard.

End EnforceImplementing.

(** ** The engine on the sample worktrees *)

Section Runs.

Import Sample.

(** Evaluate the left-hand side and take the result for what the right-hand
    side leaves open. *)
Ltac evaluate_left :=
  lazymatch goal with
  | |- ?lhs = ?rhs =>
      let v := eval vm_compute in lhs in
      unify rhs v; vm_compute; reflexivity
  end.

(** C9 at work: from [implementing], [merged] is not a successor. *)
Lemma illegal_transition_rejected_witness :
  ∃ msg,
    do_transition parse_line passing_env "merged" None None None false false false false
               (state_at "implementing")
      = (Ok (false, msg), state_at "implementing")
    ∧ do_transition parse_line passing_env "merged" None None None false false false false
        (do_transition parse_line passing_env "merged" None None None false false false false
                    (state_at "implementing")).2
      = (Ok (false, msg), state_at "implementing").
Proof.
  apply (illegal_transition_rejected parse_line passing_env
           (Some "implementing") "merged").
  - vm_compute. reflexivity.
  - intros H. apply in_table_allowed in H. vm_compute in H. discriminate H.
Defined.

(** C7 at work: a dry run from [implementing] returns the verdict of the
    pipeline. *)
Lemma validation_only_frame_witness :
  ∃ summary s',
    run_validations parse_line passing_env None false
      (pre_review_header (state_at "implementing")).2
      = (Ok summary, s')
    ∧ do_transition parse_line passing_env "human-manual-review" None None None
                    false false false true (state_at "implementing")
      = (Ok (all_passed summary,
             (if all_passed summary then "All validations passed: "
              else "Validation failed: ") +:+ summary_text summary), s').
Proof.
  pose proof (validation_only_frame parse_line passing_env
                "human-manual-review" None None None false false false
                (state_at "implementing")) as H.
  cbv zeta in H. destruct H as (_ & _ & H).
  specialize (H eq_refl).
  assert (Hcur : (get_current_phase None (state_at "implementing")).1
                 = Ok (Some "implementing")) by (vm_compute; reflexivity).
  specialize (H Hcur).
  replace (PyStr.int (timeout_setting parse_line passing_env None))
    with (Some 300) in H by (vm_compute; reflexivity).
  exact H.
Defined.

(** C8 at work: the three checks of the sample project, the lint command
    failing. *)
Lemma run_validations_summary_witness :
  ∃ summary s',
    run_validations parse_line lint_failing_env None false fresh_state
      = (Ok summary, s')
    ∧ all_passed summary = forallb passed (results summary)
    ∧ map name (results summary) = [ "typecheck"; "lint"; "test" ].
Proof.
  destruct (run_validations_summary parse_line lint_failing_env None false
              fresh_state 300 ltac:(vm_compute; reflexivity))
    as (summary & s' & Hrun & Hall & Hnames & _).
  exists summary, s'. split; [ exact Hrun | ]. split; [ exact Hall | ].
  rewrite Hnames. vm_compute. reflexivity.
Defined.

(** C4 at work: the lint command exits 1. *)
Lemma failing_validation_blocks_review_witness :
  ∃ msg,
    (do_transition parse_line lint_failing_env "human-manual-review" None
                (Some "Yes, go ahead") (Some "feat: add thing x")
                true false false false (state_at "implementing")).1
    = Ok (false, msg).
Proof.
  refine (proj1 (proj2
    (failing_validation_blocks_review parse_line lint_failing_env None
       "lint_command" 300 (Some "Yes, go ahead") (Some "feat: add thing x")
       true false false false (state_at "implementing") _ _ _ _))).
  - unfold CHECKS. simpl. apply list_elem_of_further, list_elem_of_here.
  - vm_compute. discriminate.
  - vm_compute. reflexivity.
  - intros n. exists failed_process. split; [ vm_compute; reflexivity | ].
    vm_compute. discriminate.
Defined.

(** C1 at work: all three checks pass, no approval is given. *)
Lemma missing_approval_rejected_witness :
  ∃ guidance,
    (do_transition parse_line passing_env "human-manual-review" None None None
                false false false false (state_at "implementing")).1
    = Ok (false,
          "Phase 'human-manual-review' requires explicit user approval."
          +:+ guidance).
Proof.
  eapply proj1.
  eapply (missing_approval_rejected parse_line passing_env None None
            false false false (state_at "implementing")).
  - vm_compute. reflexivity.
  - evaluate_left.
  - vm_compute. reflexivity.
Defined.

(** C6 at work: a two-character approval with a good commit message. *)
Lemma approval_gate_witness :
  ∃ msg,
    (do_transition parse_line passing_env "human-manual-review" None (Some "ok")
                   (Some "feat: add thing x") false false false false
                   (state_at "implementing")).1
    = Ok (false, msg).
Proof.
  eapply proj1.
  eapply (proj2 (approval_gate parse_line passing_env (Some "ok")
                   (Some "feat: add thing x"))
            None false false false (state_at "implementing")).
  - left. vm_compute. lia.
  - vm_compute. reflexivity.
  - evaluate_left.
  - vm_compute. reflexivity.
Defined.

(** X28 at work: the hook script exits 3 and the transition is committed. *)
Lemma commit_stands_whatever_hooks_do_witness :
  (get_current_phase None
     (do_transition parse_line hooks_failing_env "human-manual-review" None
                 (Some "Yes, go ahead") (Some "feat: add thing x")
                 true false true false (state_at "implementing")).2).1
  = Ok (Some "human-manual-review").
Proof.
  eapply proj1.
  eapply (commit_stands_whatever_hooks_do parse_line hooks_failing_env
            "human-manual-review" None (Some "Yes, go ahead")
            (Some "feat: add thing x") true false true
            (state_at "implementing")).
  - vm_compute. reflexivity.
  - vm_compute. reflexivity.
  - evaluate_left.
  - intros _. vm_compute. reflexivity.
  - evaluate_left.
Defined.

(** C5 at work: without a configuration file the validation timeout is the
    default. *)
Lemma process_timeouts_witness :
  PyStr.int (timeout_setting parse_line bare_env None) = Some 300.
Proof.
  apply (proj1 (proj2 (process_timeouts parse_line bare_env None))).
  vm_compute. reflexivity.
Defined.

(** C10 at work: a worktree without a configuration file. *)
Lemma no_checks_pass_vacuously_witness :
  run_validations parse_line bare_env None false fresh_state
  = (Ok {| all_passed := true; results := []; summary_text := "" |},
     fresh_state).
Proof.
  apply (no_checks_pass_vacuously parse_line bare_env None false fresh_state 300);
    vm_compute; reflexivity.
Defined.

(** *** Where the code departs from the claims *)

(** C1 as stated fails: the three checks pass, no approval is given, the call
    fails, and yet the Status Record has gained the validation fields. *)
Lemma missing_approval_writes_status :
  let s := state_at "implementing" in
  let out := do_transition parse_line passing_env "human-manual-review" None
                           None None false false false false s in
  configured_checks parse_line passing_env None = [ "typecheck"; "lint"; "test" ]
  ∧ (∃ msg, out.1 = Ok (false, msg))
  ∧ status_file s ≫= (.!! "validation_passed") = None
  ∧ status_file out.2 ≫= (.!! "validation_passed") = Some "true"
  ∧ status_file out.2 ≫= (.!! "validation_summary")
    = Some (PyStr.quote "typecheck: pass, lint: pass, test: pass")
  ∧ status_file out.2 ≠ status_file s.
Proof.
  cbv zeta. split; [ vm_compute; reflexivity | ].
  split; [ eexists; vm_compute; reflexivity | ].
  split; [ vm_compute; reflexivity | ].
  split; [ vm_compute; reflexivity | ].
  split; [ vm_compute; reflexivity | ].
  intros Heq.
  pose proof (f_equal (fun o : option (gmap string string) =>
                         o ≫= (.!! "validation_passed")) Heq) as Hkey.
  vm_compute in Hkey. discriminate Hkey.
Qed.


(** C7 as stated fails: the dry run from [implementing] raises on the same
    setting instead of returning a verdict; the status file is as before. *)
Lemma validation_only_bad_timeout_raises :
  let s := state_at "implementing" in
  let out := do_transition parse_line bad_timeout_env "human-manual-review"
                           None None None false false false true s in
  (get_current_phase None s).1 = Ok (Some "implementing")
  ∧ out.1
    = Raise (ValueError "invalid literal for int() with base 10: '5 minutes'")
  ∧ status_file out.2 = status_file s.
Proof. cbv zeta. repeat split; vm_compute; reflexivity. Qed.

(** C8 as stated fails: with that setting [run_validations] returns no
    summary at all, and runs none of the three configured commands. *)
Lemma bad_timeout_no_summary :
  configured_checks parse_line bad_timeout_env None
  = [ "typecheck"; "lint"; "test" ]
  ∧ run_validations parse_line bad_timeout_env None false fresh_state
    = (Raise (ValueError "invalid literal for int() with base 10: '5 minutes'"),
       fresh_state).
Proof. split; vm_compute; reflexivity. Qed.

(** C5 as stated fails: the review script and the repository-root discovery
    are started without a timeout. *)
Lemma phase_script_runs_without_timeout :
  let out := do_transition parse_line passing_env "human-manual-review" None
                           (Some "Yes, go ahead") (Some "feat: add thing x")
                           true false true false (state_at "implementing") in
  rev (runs_of (trace out.2))
  = [ (Shell "mypy .", Some 300);
      (Shell "ruff check", Some 300);
      (Shell "pytest -q", Some 300);
      (Shell "scripts/request-review.sh --simplified --tested", None);
      (Argv [ "git"; "rev-parse"; "--show-toplevel" ], None);
      (Argv [ "uv"; "run"; "/repo/hooks/pre_review.py" ], Some 60) ]
  ∧ every_run_has_timeout (trace out.2) = false.
Proof. cbv zeta. split; vm_compute; reflexivity. Qed.

(** C6 as stated fails: the short approval is refused, but only after the
    validation results were written to the Status Record. *)
Lemma short_approval_refused_after_status_write :
  let s := state_at "implementing" in
  let out := do_transition parse_line passing_env "human-manual-review" None
                           (Some "ok") (Some "feat: add thing x")
                           false false false false s in
  (∃ rest, out.1 = Ok (false, "Approval response too short" +:+ rest))
  ∧ status_file s ≫= (.!! "last_validation_at") = None
  ∧ status_file out.2 ≫= (.!! "last_validation_at")
    = Some (PyStr.quote "2026-01-01T00:00:12+00:00")
  ∧ status_file out.2 ≠ status_file s.
Proof.
  cbv zeta. split; [ eexists; vm_compute; reflexivity | ].
  split; [ vm_compute; reflexivity | ].
  split; [ vm_compute; reflexivity | ].
  intros Heq.
  pose proof (f_equal (fun o : option (gmap string string) =>
                         o ≫= (.!! "last_validation_at")) Heq) as Hkey.
  vm_compute in Hkey. discriminate Hkey.
Qed.

(** C10 as stated fails: nothing is configured but a timeout that is not a
    number, and [run_validations] raises instead of returning the empty
    summary. *)
Lemma no_checks_bad_timeout_raises :
  configured_command parse_line only_bad_timeout_env None "typecheck_command" = ""
  ∧ configured_command parse_line only_bad_timeout_env None "lint_command" = ""
  ∧ configured_command parse_line only_bad_timeout_env None "test_command" = ""
  ∧ simplification_required parse_line only_bad_timeout_env None = false
  ∧ run_validations parse_line only_bad_timeout_env None false fresh_state
    = (Raise (ValueError "invalid literal for int() with base 10: '5 minutes'"),
       fresh_state).
Proof. repeat split; vm_compute; reflexivity. Qed.

(** *** Scenarios of the specification *)

(** An empty worktree: the first transition creates the record. *)
Example first_transition_creates_record :
  let out := do_transition parse_line bare_env "created" None None None
                           false false false false fresh_state in
  out.1 = Ok (true, "Transitioned to 'created'")
  ∧ (get_current_phase None out.2).1 = Ok (Some "created")
  ∧ map_to_list <$> status_file out.2
    = Some [ ("current_phase", PyStr.quote "created");
             ("created_at", PyStr.quote "2026-01-01T00:00:0+00:00") ].
Proof. cbv zeta. repeat split; vm_compute; reflexivity. Qed.

(** Approval and commit message given, all checks pass: the phase moves and
    both texts are recorded. *)
Example approved_review_is_recorded :
  let out := do_transition parse_line passing_env "human-manual-review" None
                           (Some "Yes, go ahead") (Some "feat: add thing x")
                           false false false false (state_at "implementing") in
  out.1 = Ok (true, "Transitioned to 'human-manual-review'")
  ∧ status_file out.2 ≫= (.!! "current_phase")
    = Some (PyStr.quote "human-manual-review")
  ∧ status_file out.2 ≫= (.!! "human-manual-review_approval")
    = Some (PyStr.quote "Yes, go ahead")
  ∧ status_file out.2 ≫= (.!! "commit_message")
    = Some (PyStr.quote "feat: add thing x").
Proof. cbv zeta. repeat split; vm_compute; reflexivity. Qed.

(** The lint command exits 1: the summary says so and the phase stays. *)
Example lint_failure_is_reported :
  do_transition parse_line lint_failing_env "human-manual-review" None
                (Some "Yes, go ahead") (Some "feat: add thing x")
                false false false false (state_at "implementing")
  = (Ok (false,
         "Pre-review validation failed: typecheck: pass, lint: FAIL, test: pass"
         +:+ PyStr.nl +:+ "Fix the issues and try again."),
     {| status_file := Some (status_at "implementing");
        trace := trace (run_validations parse_line lint_failing_env None false
                          (pre_review_header (state_at "implementing")).2).2 |}).
Proof. vm_compute. reflexivity. Qed.

End Runs.

(** * Further runs *)

Section MoreRuns.

Import Sample.

Ltac evaluate_run :=
  lazymatch goal with
  | |- ?lhs = ?rhs =>
      let v := eval vm_compute in lhs in
      unify rhs v; vm_compute; reflexivity
  end.

(** A project that requires simplification and has one check. *)
Definition strict_lines : list string :=
  [ "[validation]";
    "lint_command = ruff check";
    "require_simplified = true" ].

Definition strict_env : env := make_env (Some strict_lines) all_pass.

(** A project that switches the [pre_review] hook off. *)
Definition no_pre_review_env : env :=
  make_env (Some [ "pre_review = " ]) all_pass.

(** The approved transition from [implementing] to review in the sample
    project. *)
Definition approved_review : M (bool * string) :=
  do_transition parse_line passing_env "human-manual-review" None
                (Some "Yes, go ahead") (Some "feat: add thing x")
                false false false false.

(** The command line [worktree-state transition merged]. *)
Definition merged_args : transition_args :=
  {| arg_phase := "merged";
     arg_approval := None;
     arg_commit_message := None;
     arg_simplified := false;
     arg_linted := false;
     arg_tested := false;
     arg_validation_only := false |}.

(** X7 at work: the timeout of the sample project. *)
Lemma validation_keys_are_config_keys_witness :
  is_Some (get_validation_config parse_line passing_env None !! "timeout")
  ∧ is_Some (get_config parse_line passing_env None !! "timeout").
Proof.
  assert (H : is_Some (get_validation_config parse_line passing_env None
                       !! "timeout"))
    by (exists "300"; vm_compute; reflexivity).
  split; [ exact H | ].
  exact (validation_keys_are_config_keys parse_line passing_env None
           "timeout" H).
Defined.

(** X8 at work: the lint command of the sample project, three lines before
    the end of the file. *)
Lemma get_config_last_wins_witness :
  get_config parse_line passing_env None !! "lint_command" = Some "ruff check".
Proof.
  apply (get_config_last_wins parse_line passing_env None
           (take 8 config_lines) "lint_command = ruff check"
           [ "test_command = pytest -q"; "require_simplified = false";
             "timeout = 300" ]).
  - vm_compute. reflexivity.
  - vm_compute. reflexivity.
  - intros later v Hin.
    rewrite !elem_of_cons in Hin.
    destruct Hin as [-> | [-> | [-> | Hnil]]];
      [ vm_compute; discriminate .. | now apply elem_of_nil in Hnil ].
Defined.

(** X10 at work: [pre_review] set to the empty path. *)
Lemma disabled_hook_is_skipped_witness :
  run_lifecycle_hook parse_line no_pre_review_env "pre_review" None 60
    fresh_state
  = (Ok (true, "Hook " +:+ "pre_review" +:+ " skipped (script not found)"),
     fresh_state).
Proof.
  apply (disabled_hook_is_skipped parse_line no_pre_review_env "pre_review"
           None 60 fresh_state).
  right. vm_compute. reflexivity.
Defined.

(** X13 at work: the lint command exits 1. *)
Lemma validation_fails_closed_witness :
  ∃ summary s',
    run_validations parse_line lint_failing_env None true fresh_state
    = (Ok summary, s')
    ∧ all_passed summary = false.
Proof.
  apply (validation_fails_closed parse_line lint_failing_env None true
           fresh_state 300 "lint_command").
  - vm_compute. reflexivity.
  - unfold CHECKS. simpl. apply list_elem_of_further, list_elem_of_here.
  - vm_compute. discriminate.
  - intros n p H. vm_compute in H. injection H as <-.
    vm_compute. discriminate.
Defined.

(** X14 at work: every check of the sample project passes. *)
Lemma validation_passes_witness :
  ∃ summary s',
    run_validations parse_line passing_env None false fresh_state
    = (Ok summary, s')
    ∧ all_passed summary
      = (negb (simplification_required parse_line passing_env None) || false).
Proof.
  apply (validation_passes parse_line passing_env None false fresh_state 300).
  - vm_compute. reflexivity.
  - intros key _ _ n. exists ok_process. split; reflexivity.
Defined.

(** X15 at work: simplification is required and the flag is missing. *)
Lemma missing_simplification_fails_witness :
  ∃ summary s' rest,
    run_validations parse_line strict_env None false fresh_state
    = (Ok summary, s')
    ∧ all_passed summary = false
    ∧ summary_text summary = "code-simplifier: FAIL" +:+ rest
    ∧ length (runs_of (trace s'))
      = (length (runs_of (trace fresh_state))
         + length (configured_checks parse_line strict_env None))%nat.
Proof.
  apply (missing_simplification_fails parse_line strict_env None fresh_state
           300).
  - vm_compute. reflexivity.
  - vm_compute. reflexivity.
Defined.

(** X16 at work: the flags on the way to [merged]. *)
Lemma flags_only_matter_for_review_witness :
  do_transition parse_line passing_env "merged" None None None
                true true true false (state_at "human-manual-review")
  = do_transition parse_line passing_env "merged" None None None
                  false false false false (state_at "human-manual-review").
Proof.
  apply (flags_only_matter_for_review parse_line passing_env "merged" None
           None None true true true (state_at "human-manual-review")).
  discriminate.
Defined.

(** X17 at work: the review is refused because the lint command fails. *)
Lemma failed_transition_keeps_record_witness :
  agree_outside VALIDATION_KEYS (state_at "implementing")
    (do_transition parse_line lint_failing_env "human-manual-review" None
                   (Some "Yes, go ahead") (Some "feat: add thing x")
                   false false false false (state_at "implementing")).2
  ∧ ("human-manual-review" ≠ "human-manual-review" ∨ false = true ->
     same_status (state_at "implementing")
       (do_transition parse_line lint_failing_env "human-manual-review" None
                      (Some "Yes, go ahead") (Some "feat: add thing x")
                      false false false false (state_at "implementing")).2).
Proof.
  eapply (failed_transition_keeps_record parse_line lint_failing_env
            "human-manual-review" None (Some "Yes, go ahead")
            (Some "feat: add thing x") false false false false
            (state_at "implementing")).
  evaluate_run.
Defined.

(** X18 at work: the approved review. *)
Lemma success_is_a_recorded_legal_step_witness :
  (can_transition (recorded_phase (state_at "implementing"))
                  "human-manual-review").1 = true
  ∧ recorded_phase (approved_review (state_at "implementing")).2
    = Some "human-manual-review"
  ∧ "Transitioned to 'human-manual-review'"
    = "Transitioned to '" +:+ "human-manual-review" +:+ "'".
Proof.
  apply (success_is_a_recorded_legal_step parse_line passing_env
           "human-manual-review" None (Some "Yes, go ahead")
           (Some "feat: add thing x") false false false
           (state_at "implementing")
           "Transitioned to 'human-manual-review'").
  vm_compute. reflexivity.
Defined.


(** X21 at work: the first transition of a worktree. *)
Lemma plain_phase_only_records_witness :
  do_transition parse_line passing_env "created" None None None
                true true true false fresh_state
  = (Ok (true, "Transitioned to '" +:+ "created" +:+ "'"),
     committed passing_env "created" None None fresh_state).
Proof.
  apply (plain_phase_only_records parse_line passing_env "created" None None
           None true true true fresh_state);
    vm_compute; reflexivity.
Defined.

(** X23 at work: the history after the approved review. *)
Lemma history_after_transition_witness :
  ∃ history clock,
    get_phase_history None (approved_review (state_at "implementing")).2
    = (Ok history, (approved_review (state_at "implementing")).2)
    ∧ ("human-manual-review", now passing_env clock) ∈ history.
Proof.
  apply (history_after_transition parse_line passing_env
           "human-manual-review" None (Some "Yes, go ahead")
           (Some "feat: add thing x") false false false
           (state_at "implementing")
           "Transitioned to 'human-manual-review'").
  - intros clock. unfold unquoted.
    change (now passing_env clock)
      with ("2026-01-01T00:00:" +:+ (pretty clock +:+ "+00:00")).
    rewrite !list_ascii_of_string_app. rewrite !rev_app_distr. reflexivity.
  - vm_compute. reflexivity.
Defined.

(** X24 at work: [merged] asked for from [implementing]. *)
Lemma cmd_transition_exit_code_witness :
  let out :=
    cmd_transition parse_line passing_env merged_args (state_at "implementing")
  in
  (1 = 0
   ∧ (∃ msg, head (trace out.2) = Some (EvPrint ("[OK] " +:+ msg)))
   ∧ (arg_validation_only merged_args = false ->
      recorded_phase out.2 = Some (arg_phase merged_args)))
  ∨ (1 = 1
     ∧ (∃ msg, head (trace out.2) = Some (EvPrint ("[ERROR] " +:+ msg)))
     ∧ agree_outside VALIDATION_KEYS (state_at "implementing") out.2).
Proof.
  intros out.
  apply (cmd_transition_exit_code parse_line passing_env merged_args
           (state_at "implementing") 1 out.2).
  vm_compute. reflexivity.
Defined.

(** The status file of a worktree under review, as the guard reads it. *)
Definition review_status_lines : list string :=
  [ "# worktree status";
    "current_phase = " +:+ PyStr.quote "human-manual-review";
    "implementing_at = " +:+ PyStr.quote "2025-12-31T23:59:59+00:00" ].

(** X26 at work: no edits while the worktree is under review. *)
Lemma is_edit_allowed_reads_record_witness :
  EnforceImplementing.is_edit_allowed
    (fun _ => Some review_status_lines) "/repo/.worktrees/feature"
  = Ok {| EnforceImplementing.allowed :=
            bool_decide ("human-manual-review" = "implementing");
          EnforceImplementing.reason := Some "human-manual-review" |}.
Proof.
  apply (EnforceImplementing.is_edit_allowed_reads_record
           (fun _ => Some review_status_lines) "/repo/.worktrees/feature"
           [ "# worktree status" ] "human-manual-review"
           [ "implementing_at = " +:+ PyStr.quote "2025-12-31T23:59:59+00:00" ]).
  - reflexivity.
  - constructor; [ vm_compute; reflexivity | constructor ].
  - unfold PHASES. do 4 apply list_elem_of_further. apply list_elem_of_here.
Defined.


(** Starting [git] raises an exception that is neither [FileNotFoundError]
    nor a [SubprocessError]. *)
Definition git_denied_env : env :=
  make_env (Some config_lines)
    (fun c => match c with
              | Argv ("git" :: _) =>
                  Raised (OtherException "[Errno 13] Permission denied: 'git'")
              | _ => all_pass c
              end).


(** X27 at work: the hook script exits 3 with a traceback. *)
Lemma run_lifecycle_hook_outcomes_witness :
  ∃ s2,
    run_lifecycle_hook parse_line hooks_failing_env "pre_review" None 60
                       fresh_state
    = (Ok (true, "Hook pre_review failed (non-blocking): Traceback: boom"), s2).
Proof.
  destruct (run_lifecycle_hook_outcomes parse_line hooks_failing_env
              "pre_review" None 60 fresh_state
              (Some "/repo/hooks/pre_review.py")
              (get_hook_path parse_line hooks_failing_env "pre_review"
                             fresh_state).2)
    as (s2 & Hrun & _).
  - vm_compute. reflexivity.
  - exists s2. rewrite Hrun. vm_compute. reflexivity.
Defined.

(** C3 fails in the code: when starting [git] raises an exception that
    [_get_repo_root] does not catch, [run_lifecycle_hook] raises it instead
    of returning [true] with a message, and the transition from [created]
    to [initialized] ends with that exception after the new phase has been
    written. *)
Theorem discovery_failure_escapes_hook :
  (run_lifecycle_hook parse_line git_denied_env "post_init" None 60
                      (state_at "created")).1
  = Raise (OtherException "[Errno 13] Permission denied: 'git'")
  ∧ (let out := do_transition parse_line git_denied_env "initialized" None
                              None None false false false false
                              (state_at "created") in
     out.1 = Raise (OtherException "[Errno 13] Permission denied: 'git'")
     ∧ (get_current_phase None out.2).1 = Ok (Some "initialized")).
Proof. cbv zeta. repeat split; vm_compute; reflexivity. Qed.

End MoreRuns.
